(** * Route-monitoring engine of ticketsniper: a shallow embedding

    The development follows the layout of [backend/app]:
    - [Py]        : the Python values and exceptions the code manipulates;
    - [Models]    : db/models/route.py, db/models/user.py and the request
                    schema of schemas/route.py;
    - [Runtime]   : the outside world (PostgreSQL tables, Redis, the upstream
                    HTTP API, the Celery queue) and the state-and-exception
                    monad in which the code runs;
    - [ApiClient] : services/regiojet_api_client.py;
    - [Checker]   : services/regiojet_checker_service.py;
    - [Crud]      : db/crud/crud_route.py;
    - [Locations] : services/regiojet_data_parser.py and
                    services/regiojet_data_service.py (location directory);
    - [Endpoints] : api/endpoints/routes.py;
    - [Tasks]     : worker/tasks.py.
    Theorems come after all definitions. *)

From stdpp Require Import gmap strings list fin_maps pretty.
From Stdlib Require Import ZArith Ascii.

Set Warnings "-register-all".

Local Open Scope string_scope.
Local Open Scope Z_scope.

(* ===================================================================== *)
(** ** Python values and exceptions *)
(* ===================================================================== *)

Module Py.

(** A Python float as produced by [json.loads]: a finite double is the dyadic
    rational [m * 2^e]; [NaN] and the infinities are accepted by the parser. *)
Inductive pyfloat :=
| FNaN
| FInf (negative : bool)
| FFin (m e : Z).

(** The values [response.json()] and [json.loads] can return.  A [dict] keeps
    its items in document order; a key written twice keeps its last value,
    which is what [dict_get] reads. *)
Inductive json :=
| JNull
| JBool (b : bool)
| JInt (z : Z)
| JFloat (f : pyfloat)
| JStr (s : string)
| JList (l : list json)
| JDict (d : list (string * json)).

Definition pydict : Type := list (string * json).

Fixpoint dict_get (k : string) (d : pydict) : option json :=
  match d with
  | [] => None
  | (k', v) :: d' =>
      match dict_get k d' with
      | Some w => Some w
      | None => if String.eqb k k' then Some v else None
      end
  end.

(** [d.get(k, dflt)] and [d.get(k)] *)
Definition get_default (k : string) (dflt : json) (d : pydict) : json :=
  match dict_get k d with Some v => v | None => dflt end.

Definition get (k : string) (d : pydict) : json := get_default k JNull d.

(** Truth value of a Python object, as used by [if x:] and [x or y]. *)
Definition truthy (j : json) : bool :=
  match j with
  | JNull => false
  | JBool b => b
  | JInt z => negb (z =? 0)
  | JFloat FNaN => true
  | JFloat (FInf _) => true
  | JFloat (FFin m _) => negb (m =? 0)
  | JStr s => negb (String.eqb s "")
  | JList l => match l with [] => false | _ => true end
  | JDict d => match d with [] => false | _ => true end
  end.

(** The exception classes that occur in the code under study.  Every one of
    them is a subclass of [Exception]. *)
Inductive exn :=
| HTTPException (status_code : Z)      (* fastapi.HTTPException *)
| HTTPStatusError (status_code : Z)    (* httpx.HTTPStatusError *)
| TimeoutException                     (* httpx.TimeoutException *)
| RequestError                         (* any other httpx.RequestError *)
| JSONDecodeError
| TypeError
| AttributeError
| KeyError
| ValueError
| ParsingError                         (* regiojet_data_parser.ParsingError *)
| ValidationError                      (* pydantic *)
| IntegrityError                       (* sqlalchemy.exc *)
| StaleDataError                       (* sqlalchemy.orm.exc *)
| MultipleResultsFound                 (* sqlalchemy.exc *)
| DBAPIError                           (* sqlalchemy.exc: driver failure *)
| RedisError.

Inductive result (A : Type) :=
| Ok (a : A)
| Raise (e : exn).
Arguments Ok {A} a.
Arguments Raise {A} e.

(** [x > 0] for a value read from a JSON object: [bool] is a subclass of [int];
    [None], [str], [list] and [dict] do not compare with an [int]. *)
Definition gt_zero (j : json) : result bool :=
  match j with
  | JBool b => Ok b
  | JInt z => Ok (0 <? z)
  | JFloat FNaN => Ok false
  | JFloat (FInf negative) => Ok (negb negative)
  | JFloat (FFin m _) => Ok (0 <? m)
  | JNull | JStr _ | JList _ | JDict _ => Raise TypeError
  end.

(** An aware [datetime]: the instant in microseconds since the epoch and the
    offset of its [tzinfo] in microseconds.  Comparison is by instant. *)
Record datetime := { instant : Z; utcoffset : Z }.

Definition datetime_lt (a b : datetime) : bool := instant a <? instant b.

(** [d.date()] as (year, month, day) in the proleptic Gregorian calendar, in the
    datetime's own offset. *)
Definition civil_of_days (days : Z) : Z * Z * Z :=
  let z := days + 719468 in
  let era := z / 146097 in
  let doe := z - era * 146097 in
  let yoe := (doe - doe / 1460 + doe / 36524 - doe / 146096) / 365 in
  let doy := doe - (365 * yoe + yoe / 4 - yoe / 100) in
  let mp := (5 * doy + 2) / 153 in
  let d := doy - (153 * mp + 2) / 5 + 1 in
  let m := if mp <? 10 then mp + 3 else mp - 9 in
  let y := yoe + era * 400 + (if m <=? 2 then 1 else 0) in
  (y, m, d).

Definition date_of (d : datetime) : Z * Z * Z :=
  civil_of_days ((instant d + utcoffset d) / 86400000000).

Definition pad2 (n : Z) : string :=
  if n <? 10 then "0" +:+ pretty n else pretty n.

Definition pad4 (n : Z) : string :=
  if n <? 10 then "000" +:+ pretty n
  else if n <? 100 then "00" +:+ pretty n
  else if n <? 1000 then "0" +:+ pretty n
  else pretty n.

(** [date.isoformat()] *)
Definition date_isoformat (ymd : Z * Z * Z) : string :=
  let '(y, m, d) := ymd in pad4 y +:+ "-" +:+ pad2 m +:+ "-" +:+ pad2 d.

(** [urllib.parse.urlencode] of a dict of strings: [quote_plus] on the UTF-8
    bytes of keys and values, joined by [=] and [&]. *)
Definition is_unreserved (a : ascii) : bool :=
  let n := Z.of_N (N_of_ascii a) in
  ((48 <=? n) && (n <=? 57)) || ((65 <=? n) && (n <=? 90)) ||
  ((97 <=? n) && (n <=? 122)) ||
  (n =? 95) || (n =? 46) || (n =? 45) || (n =? 126).

Definition hex_digit (n : Z) : ascii :=
  ascii_of_N (Z.to_N (if n <? 10 then 48 + n else 55 + n)).

Fixpoint quote_plus (s : string) : string :=
  match s with
  | EmptyString => EmptyString
  | String a s' =>
      let n := Z.of_N (N_of_ascii a) in
      if is_unreserved a then String a (quote_plus s')
      else if n =? 32 then String "+"%char (quote_plus s')
      else String "%"%char
             (String (hex_digit (n / 16))
                (String (hex_digit (n mod 16)) (quote_plus s')))
  end.

Fixpoint urlencode (params : list (string * string)) : string :=
  match params with
  | [] => ""
  | [(k, v)] => quote_plus k +:+ "=" +:+ quote_plus v
  | (k, v) :: rest => quote_plus k +:+ "=" +:+ quote_plus v +:+ "&" +:+ urlencode rest
  end.

End Py.
Export Py.

(* ===================================================================== *)
(** ** db/models and schemas/route.py *)
(* ===================================================================== *)

Module Models.

Inductive RouteStatusEnum := MONITORING | FOUND | EXPIRED.

#[global] Instance RouteStatusEnum_eq_dec : EqDecision RouteStatusEnum.
Proof. solve_decision. Defined.

(** schemas/route.py, [RouteMonitorRequest] *)
Record RouteMonitorRequest := {
  rq_from_location_id : string;
  rq_from_location_type : string;
  rq_to_location_id : string;
  rq_to_location_type : string;
  rq_departure_datetime : datetime;
  rq_arrival_datetime : option datetime;
  rq_regiojet_route_id : string;
}.

(** A row of [monitored_routes].  The primary key [id] is the key under which
    the row is stored in the table (see [Tables]); the audit columns
    [created_at] and [updated_at] are maintained by the server and read by no
    code path below, so they are left out. *)
Record MonitoredRoute := {
  regiojet_route_id : string;
  from_location_id : string;
  from_location_type : string;
  to_location_id : string;
  to_location_type : string;
  departure_datetime : datetime;
  arrival_datetime : option datetime;
  status : RouteStatusEnum;
  last_checked_at : option datetime;
}.

Definition with_status (s : RouteStatusEnum) (r : MonitoredRoute) : MonitoredRoute :=
  {| regiojet_route_id := regiojet_route_id r;
     from_location_id := from_location_id r;
     from_location_type := from_location_type r;
     to_location_id := to_location_id r;
     to_location_type := to_location_type r;
     departure_datetime := departure_datetime r;
     arrival_datetime := arrival_datetime r;
     status := s;
     last_checked_at := last_checked_at r |}.

Definition with_last_checked_at (t : option datetime) (r : MonitoredRoute) : MonitoredRoute :=
  {| regiojet_route_id := regiojet_route_id r;
     from_location_id := from_location_id r;
     from_location_type := from_location_type r;
     to_location_id := to_location_id r;
     to_location_type := to_location_type r;
     departure_datetime := departure_datetime r;
     arrival_datetime := arrival_datetime r;
     status := status r;
     last_checked_at := t |}.

(** A row of [users]; [hashed_password] and the audit columns play no role. *)
Record User := {
  email : string;
  is_verified : bool;
}.

(** The three tables.  [monitored_routes] and [users] are keyed by their primary
    key [id]; [user_route_subscriptions] is the set of its composite primary
    keys (user_id, route_id); [route_id_seq] is the next value of the serial. *)
Record Tables := {
  monitored_routes : gmap Z MonitoredRoute;
  user_route_subscriptions : gset (Z * Z);
  users : gmap Z User;
  route_id_seq : Z;
}.

Definition set_monitored_routes (m : gmap Z MonitoredRoute) (t : Tables) : Tables :=
  {| monitored_routes := m;
     user_route_subscriptions := user_route_subscriptions t;
     users := users t;
     route_id_seq := route_id_seq t |}.

Definition set_user_route_subscriptions (s : gset (Z * Z)) (t : Tables) : Tables :=
  {| monitored_routes := monitored_routes t;
     user_route_subscriptions := s;
     users := users t;
     route_id_seq := route_id_seq t |}.

(** The segment key of [uq_monitored_route_segment]. *)
Definition same_segment (rid from_id to_id : string) (r : MonitoredRoute) : bool :=
  String.eqb (regiojet_route_id r) rid &&
  String.eqb (from_location_id r) from_id &&
  String.eqb (to_location_id r) to_id.

End Models.
Export Models.

(* ===================================================================== *)
(** ** The outside world and the monad of the code *)
(* ===================================================================== *)

Module Runtime.

(** One HTTP exchange with the upstream provider, as httpx reports it. *)
Record request := {
  url : string;
  params : list (string * string);
  headers : list (string * string);
  timeout : Z;                        (* seconds *)
}.

Inductive http_exchange :=
| Timeout                             (* httpx.TimeoutException *)
| ConnectError                        (* another httpx.RequestError *)
| Response (status_code : Z) (body : option json).
                                      (* [body = None]: the body is not JSON *)

(** What the rest of the system does at one round trip of the running code to
    PostgreSQL or Redis: nothing, make the round trip fail, or let another
    session commit a transaction first. *)
Inductive env_action :=
| Quiet
| Fails
| Interleave (other : Tables -> Tables).

(** A value stored under a Redis key together with its expiry instant. *)
Inductive redis_value :=
| NotJson (text : string)
| JsonText (j : json).

Inductive task :=
| CheckSingleRoute (route_id : Z)
| SendNotificationEmail (email_to : string)
    (from_station_name to_station_name : string) (details : pydict).

Record World := {
  tables : Tables;
  redis : gmap string (redis_value * Z);
  clock : Z;                          (* microseconds since the epoch *)
  upstream : request -> http_exchange;
  env : list env_action;
  fetch_log : list request;           (* requests sent upstream, latest first *)
  celery_queue : list task;           (* tasks queued with [.delay], in order *)
}.

Definition set_tables (t : Tables) (w : World) : World :=
  {| tables := t; redis := redis w; clock := clock w; upstream := upstream w;
     env := env w; fetch_log := fetch_log w; celery_queue := celery_queue w |}.

Definition set_redis (r : gmap string (redis_value * Z)) (w : World) : World :=
  {| tables := tables w; redis := r; clock := clock w; upstream := upstream w;
     env := env w; fetch_log := fetch_log w; celery_queue := celery_queue w |}.

Definition set_clock (c : Z) (w : World) : World :=
  {| tables := tables w; redis := redis w; clock := c; upstream := upstream w;
     env := env w; fetch_log := fetch_log w; celery_queue := celery_queue w |}.

Definition set_upstream (u : request -> http_exchange) (w : World) : World :=
  {| tables := tables w; redis := redis w; clock := clock w; upstream := u;
     env := env w; fetch_log := fetch_log w; celery_queue := celery_queue w |}.

Definition set_env (e : list env_action) (w : World) : World :=
  {| tables := tables w; redis := redis w; clock := clock w; upstream := upstream w;
     env := e; fetch_log := fetch_log w; celery_queue := celery_queue w |}.

Definition set_fetch_log (l : list request) (w : World) : World :=
  {| tables := tables w; redis := redis w; clock := clock w; upstream := upstream w;
     env := env w; fetch_log := l; celery_queue := celery_queue w |}.

Definition set_celery_queue (q : list task) (w : World) : World :=
  {| tables := tables w; redis := redis w; clock := clock w; upstream := upstream w;
     env := env w; fetch_log := fetch_log w; celery_queue := q |}.

(** Computations of the code: they read and change the world and either return
    or raise.  What was done before an exception stays done. *)
Definition M (A : Type) : Type := World -> result A * World.

Definition ret {A} (a : A) : M A := fun w => (Ok a, w).

Definition raise {A} (e : exn) : M A := fun w => (Raise e, w).

Definition bind {A B} (m : M A) (k : A -> M B) : M B :=
  fun w =>
    match m w with
    | (Ok a, w') => k a w'
    | (Raise e, w') => (Raise e, w')
    end.

(** [try: m except Exception as e: h e] *)
Definition try_except {A} (m : M A) (h : exn -> M A) : M A :=
  fun w =>
    match m w with
    | (Ok a, w') => (Ok a, w')
    | (Raise e, w') => h e w'
    end.

Definition lift {A} (r : result A) : M A := fun w => (r, w).

Notation "x <- m ;; k" := (bind m (fun x => k))
  (at level 100, m at next level, right associativity).
Notation "m ;;; k" := (bind m (fun _ => k))
  (at level 100, right associativity).

(** One round trip to an external store; [err] is what the client library raises
    when it fails. *)
Definition round_trip (err : exn) : M unit :=
  fun w =>
    match env w with
    | [] => (Ok tt, w)
    | Quiet :: e => (Ok tt, set_env e w)
    | Fails :: e => (Raise err, set_env e w)
    | Interleave other :: e => (Ok tt, set_env e (set_tables (other (tables w)) w))
    end.

(** [db.execute(select(...))]: a read of the committed tables. *)
Definition db_select {A} (q : Tables -> A) : M A :=
  round_trip DBAPIError ;;; fun w => (Ok (q (tables w)), w).

(** A write followed by [db.commit()]: one transaction, applied whole or, when
    it raises, not at all. *)
Definition db_commit {A} (u : Tables -> result (A * Tables)) : M A :=
  round_trip DBAPIError ;;;
  fun w =>
    match u (tables w) with
    | Ok (a, t) => (Ok a, set_tables t w)
    | Raise e => (Raise e, w)
    end.

(** [Result.scalar_one_or_none()] *)
Definition scalar_one_or_none {A} (rows : list A) : M (option A) :=
  match rows with
  | [] => ret None
  | [x] => ret (Some x)
  | _ => raise MultipleResultsFound
  end.

(** [task.delay(...)] *)
Definition delay (t : task) : M unit :=
  fun w => (Ok tt, set_celery_queue (celery_queue w ++ [t])%list w).

(** [datetime.now(...)] *)
Definition datetime_now : M datetime :=
  fun w => (Ok {| instant := clock w; utcoffset := 0 |}, w).

End Runtime.
Export Runtime.

(* ===================================================================== *)
(** ** core/config.py: the defaults of [Settings] *)
(* ===================================================================== *)

Module settings.
Definition REGIOJET_API_BASE_URL : string := "https://brn-ybus-pubapi.sa.cz/restapi".
Definition REGIOJET_BOOKING_BASE_URL : string := "https://regiojet.cz/".
Definition LOCATION_CACHE_TTL_SECONDS : Z := 60 * 60 * 24.
End settings.

(* ===================================================================== *)
(** ** services/regiojet_api_client.py *)
(* ===================================================================== *)

Module ApiClient.

Definition REGIOJET_API_BASE_URL := settings.REGIOJET_API_BASE_URL.

(** [client.get(api_url, params=params, headers=request_headers)] *)
Definition client_get (rq : request) : M (Z * option json) :=
  fun w =>
    let w' := set_fetch_log (rq :: fetch_log w) w in
    match upstream w rq with
    | Timeout => (Raise TimeoutException, w')
    | ConnectError => (Raise RequestError, w')
    | Response code body => (Ok (code, body), w')
    end.

(** [response.raise_for_status()]: "Raise HTTPStatusError for 4xx/5xx responses" *)
Definition raise_for_status (response : Z * option json) : M unit :=
  if (400 <=? response.1) && (response.1 <=? 599)
  then raise (HTTPStatusError response.1)
  else ret tt.

(** [response.json()] *)
Definition response_json (response : Z * option json) : M json :=
  match response.2 with
  | Some j => ret j
  | None => raise JSONDecodeError
  end.

Definition _fetch_regiojet_api (endpoint : string) (params headers : list (string * string))
    (timeout : Z) : M json :=
  let api_url := REGIOJET_API_BASE_URL +:+ endpoint in
  let request_headers := headers in
  try_except
    (response <- client_get {| url := api_url; params := params;
                               headers := request_headers; timeout := timeout |} ;;
     raise_for_status response ;;;
     response_json response)
    (fun e =>
       match e with
       | TimeoutException => raise (HTTPException 504)
       | RequestError => raise (HTTPException 503)
       | HTTPStatusError code =>
           if code =? 400 then raise (HTTPException 400)
           else raise (HTTPException 502)
       | _ => raise (HTTPException 500)
       end).

Definition _fetch_regiojet_api_sync (endpoint : string) (params headers : list (string * string))
    (timeout : Z) : M json :=
  let api_url := REGIOJET_API_BASE_URL +:+ endpoint in
  let request_headers := headers in
  try_except
    (response <- client_get {| url := api_url; params := params;
                               headers := request_headers; timeout := timeout |} ;;
     raise_for_status response ;;;
     response_json response)
    (fun e =>
       match e with
       | TimeoutException => raise (HTTPException 504)
       | RequestError => raise (HTTPException 503)
       | HTTPStatusError code =>
           if code =? 400 then raise (HTTPException 400)
           else raise (HTTPException 502)
       | _ => raise (HTTPException 500)
       end).

End ApiClient.
Export ApiClient.

(* ===================================================================== *)
(** ** services/regiojet_checker_service.py *)
(* ===================================================================== *)

Module Checker.

Definition REGIOJET_BOOKING_BASE_URL := settings.REGIOJET_BOOKING_BASE_URL.

(** The attributes the checker reads from its duck-typed [route] argument.
    [a_id] is [None] for the endpoint's [TempRouteForCheck], which has no [id]
    attribute. *)
Record RouteAttrs := {
  a_id : option Z;
  a_regiojet_route_id : string;
  a_from_location_id : string;
  a_from_location_type : string;
  a_to_location_id : string;
  a_to_location_type : string;
  a_departure_datetime : datetime;
}.

Definition attrs_of_row (id : Z) (r : MonitoredRoute) : RouteAttrs :=
  {| a_id := Some id;
     a_regiojet_route_id := regiojet_route_id r;
     a_from_location_id := from_location_id r;
     a_from_location_type := from_location_type r;
     a_to_location_id := to_location_id r;
     a_to_location_type := to_location_type r;
     a_departure_datetime := departure_datetime r |}.

Definition booking_link_of (route : RouteAttrs) : string :=
  let booking_params :=
    [("departureDate", date_isoformat (date_of (a_departure_datetime route)));
     ("fromLocationId", a_from_location_id route);
     ("toLocationId", a_to_location_id route);
     ("fromLocationType", a_from_location_type route);
     ("toLocationType", a_to_location_type route)] in
  REGIOJET_BOOKING_BASE_URL +:+ "?" +:+ urlencode booking_params.

(** The result tuple [(is_available, details)]; [details] is a dict or [None]. *)
Definition check_result : Type := bool * option pydict.

Definition check_route_availability_sync (route : RouteAttrs) : M check_result :=
  if String.eqb (a_regiojet_route_id route) "" then
    (* the log line reads [route.id] *)
    match a_id route with
    | Some _ => ret (false, None)
    | None => raise AttributeError
    end
  else
    let endpoint := "/routes/" +:+ a_regiojet_route_id route +:+ "/simple" in
    let params := [("fromStationId", a_from_location_id route);
                   ("toStationId", a_to_location_id route)] in
    let headers := [("X-Lang", "cs"); ("X-Currency", "CZK")] in
    try_except
      (api_response <- _fetch_regiojet_api_sync endpoint params headers 15 ;;
       match api_response with
       | JDict d =>
           let free_seats := get_default "freeSeatsCount" (JInt 0) d in
           is_available <- lift (gt_zero free_seats) ;;
           if is_available : bool then
             let booking_link := booking_link_of route in
             let details :=
               [("freeSeatsCount", free_seats);
                ("priceFrom", get "priceFrom" d);
                ("priceTo", get "priceTo" d);
                ("booking_link", JStr booking_link);
                ("arrivalTime", get "arrivalTime" d)] in
             ret (true, Some details)
           else ret (false, None)
       | _ => ret (false, None)
       end)
      (fun e =>
         match e with
         | HTTPStatusError code =>
             if code =? 404 then ret (false, None) else raise e
         | KeyError => ret (false, None)
         | _ => ret (false, None)
         end).

Definition check_route_availability (route : RouteAttrs) : M check_result :=
  if String.eqb (a_regiojet_route_id route) "" then
    match a_id route with
    | Some _ => ret (false, None)
    | None => raise AttributeError
    end
  else
    let endpoint := "/routes/" +:+ a_regiojet_route_id route +:+ "/simple" in
    let params := [("fromStationId", a_from_location_id route);
                   ("toStationId", a_to_location_id route)] in
    let headers := [("X-Lang", "cs"); ("X-Currency", "CZK")] in
    try_except
      (api_response <- _fetch_regiojet_api endpoint params headers 15 ;;
       match api_response with
       | JDict d =>
           let free_seats := get_default "freeSeatsCount" (JInt 0) d in
           is_available <- lift (gt_zero free_seats) ;;
           if is_available : bool then
             let booking_link := booking_link_of route in
             let details :=
               [("freeSeatsCount", free_seats);
                ("priceFrom", get "priceFrom" d);
                ("priceTo", get "priceTo" d);
                ("booking_link", JStr booking_link)] in
             ret (true, Some details)
           else ret (false, None)
       | _ => ret (false, None)
       end)
      (fun e =>
         match e with
         | HTTPStatusError code =>
             if code =? 404 then ret (false, None) else raise e
         | KeyError => ret (false, None)
         | _ => ret (false, None)
         end).

End Checker.
Export Checker.

(* ===================================================================== *)
(** ** db/crud/crud_route.py *)
(* ===================================================================== *)

Module Crud.

(** A [TIMESTAMP(timezone=True)] column keeps the instant; the driver hands it
    back in UTC. *)
Definition timestamptz (d : datetime) : datetime :=
  {| instant := instant d; utcoffset := 0 |}.

(** [select(MonitoredRoute).where(<segment key of route_in>)] *)
Definition select_segment (route_in : RouteMonitorRequest) (t : Tables)
    : list (Z * MonitoredRoute) :=
  map_to_list
    (filter (fun kr : Z * MonitoredRoute =>
               same_segment (rq_regiojet_route_id route_in)
                 (rq_from_location_id route_in) (rq_to_location_id route_in) kr.2 = true)
            (monitored_routes t)).

(** [INSERT INTO monitored_routes]: the serial gives the id; the primary key and
    [uq_monitored_route_segment] are checked. *)
Definition insert_monitored_route (r : MonitoredRoute) (t : Tables)
    : result ((Z * MonitoredRoute) * Tables) :=
  let id := route_id_seq t in
  if bool_decide (monitored_routes t !! id = None) &&
     bool_decide (filter (fun kr : Z * MonitoredRoute =>
                            same_segment (regiojet_route_id r) (from_location_id r)
                              (to_location_id r) kr.2 = true)
                         (monitored_routes t) = ∅)
  then Ok ((id, r),
           {| monitored_routes := <[id := r]> (monitored_routes t);
              user_route_subscriptions := user_route_subscriptions t;
              users := users t;
              route_id_seq := id + 1 |})
  else Raise IntegrityError.

(** The ORM flush of a changed object: [UPDATE ... WHERE id = route_id], which
    must match the row, followed by [db.refresh]. *)
Definition update_route (route_id : Z) (f : MonitoredRoute -> MonitoredRoute) (t : Tables)
    : result (MonitoredRoute * Tables) :=
  match monitored_routes t !! route_id with
  | Some r => Ok (f r, set_monitored_routes (<[route_id := f r]> (monitored_routes t)) t)
  | None => Raise StaleDataError
  end.

Definition _create_monitored_route_internal (route_data : RouteMonitorRequest)
    : M (Z * MonitoredRoute) :=
  let db_route :=
    {| regiojet_route_id := rq_regiojet_route_id route_data;
       from_location_id := rq_from_location_id route_data;
       from_location_type := rq_from_location_type route_data;
       to_location_id := rq_to_location_id route_data;
       to_location_type := rq_to_location_type route_data;
       departure_datetime := timestamptz (rq_departure_datetime route_data);
       arrival_datetime := timestamptz <$> rq_arrival_datetime route_data;
       status := MONITORING;
       last_checked_at := None |} in
  db_commit (insert_monitored_route db_route).

Definition get_or_create_monitored_route (route_in : RouteMonitorRequest)
    : M (Z * MonitoredRoute) :=
  rows <- db_select (select_segment route_in) ;;
  existing_route <- scalar_one_or_none rows ;;
  match existing_route with
  | Some (id, r) =>
      if bool_decide (status r <> MONITORING) then
        r' <- db_commit (update_route id (with_status MONITORING)) ;;
        ret (id, r')
      else ret (id, r)
  | None =>
      let route_data := route_in in
      _create_monitored_route_internal route_data
  end.

Definition has_subscription (user_id route_id : Z) (t : Tables) : bool :=
  bool_decide ((user_id, route_id) ∈ user_route_subscriptions t).

(** [INSERT INTO user_route_subscriptions]: primary key and both foreign keys. *)
Definition insert_subscription (user_id route_id : Z) (t : Tables)
    : result ((Z * Z) * Tables) :=
  if negb (has_subscription user_id route_id t) &&
     bool_decide (is_Some (users t !! user_id)) &&
     bool_decide (is_Some (monitored_routes t !! route_id))
  then Ok ((user_id, route_id),
           set_user_route_subscriptions
             ({[ (user_id, route_id) ]} ∪ user_route_subscriptions t) t)
  else Raise IntegrityError.

Definition create_user_subscription (user_id route_id : Z) : M (Z * Z) :=
  existing_subscription <- db_select (has_subscription user_id route_id) ;;
  if existing_subscription : bool then ret (user_id, route_id)
  else
    try_except
      (db_commit (insert_subscription user_id route_id))
      (fun e =>
         (* await db.rollback() *)
         existing_subscription_after_rollback <-
           db_select (has_subscription user_id route_id) ;;
         if existing_subscription_after_rollback : bool
         then ret (user_id, route_id)
         else raise e).

Definition delete_user_subscription (user_id route_id : Z) : M bool :=
  db_commit (fun t =>
    let rowcount := if has_subscription user_id route_id t then 1 else 0 in
    Ok (0 <? rowcount,
        set_user_route_subscriptions
          (user_route_subscriptions t ∖ {[ (user_id, route_id) ]}) t)).

Definition count_subscriptions_for_route (route_id : Z) : M Z :=
  db_select (fun t =>
    Z.of_nat (size (filter (fun ur : Z * Z => ur.2 = route_id)
                           (user_route_subscriptions t)))).

(** [DELETE FROM monitored_routes WHERE id = route_id]; the foreign key of
    [user_route_subscriptions] is [ON DELETE CASCADE]. *)
Definition delete_monitored_route (route_id : Z) : M bool :=
  db_commit (fun t =>
    let rowcount := if bool_decide (is_Some (monitored_routes t !! route_id))
                    then 1 else 0 in
    Ok (0 <? rowcount,
        {| monitored_routes := delete route_id (monitored_routes t);
           user_route_subscriptions :=
             filter (fun ur : Z * Z => ur.2 <> route_id) (user_route_subscriptions t);
           users := users t;
           route_id_seq := route_id_seq t |})).

Definition get_verified_route_subscribers (route_id : Z) : M (list (Z * User)) :=
  db_select (fun t =>
    map_to_list
      (filter (fun ku : Z * User =>
                 (ku.1, route_id) ∈ user_route_subscriptions t /\ is_verified ku.2 = true)
              (users t))).

Definition deactivate_route_sync (route_id : Z) : M (option MonitoredRoute) :=
  route <- db_select (fun t => monitored_routes t !! route_id) ;;
  match route with
  | Some r =>
      if bool_decide (status r = MONITORING) then
        try_except
          (r' <- db_commit (update_route route_id (with_status FOUND)) ;;
           ret (Some r'))
          (fun e => (* db.rollback() *) raise e)
      else ret (Some r)
  | None => ret None
  end.

Definition expire_route_sync (route_id : Z) : M (option MonitoredRoute) :=
  route <- db_select (fun t => monitored_routes t !! route_id) ;;
  match route with
  | Some r =>
      try_except
        (r' <- db_commit (update_route route_id (with_status EXPIRED)) ;;
         ret (Some r'))
        (fun e => (* db.rollback() *) raise e)
  | None => ret None
  end.

Definition get_monitored_route_by_id (route_id : Z) : M (option MonitoredRoute) :=
  db_select (fun t => monitored_routes t !! route_id).

Definition get_user_subscription_for_route (user_id route_id : Z) : M (option (Z * Z)) :=
  db_select (fun t =>
    if has_subscription user_id route_id t then Some (user_id, route_id) else None).

Definition update_route_status_and_last_checked (route_id : Z)
    (new_status : RouteStatusEnum) (last_checked_at : datetime) : M MonitoredRoute :=
  db_commit (update_route route_id
    (fun r => with_last_checked_at (Some (timestamptz last_checked_at))
                (with_status new_status r))).

End Crud.
Export Crud.

(* ===================================================================== *)
(** ** schemas/location.py, services/regiojet_data_parser.py and
       services/regiojet_data_service.py: the location directory *)
(* ===================================================================== *)

Module Locations.

(** schemas/location.py *)
Record Location := {
  loc_id : string;
  loc_name : string;
  loc_type : string;                  (* Literal["CITY", "STATION"] *)
  loc_normalized_name : string;
}.

(** [Location.model_validate]: four required [str] fields, no coercion from
    other JSON types, [type] one of the two literals; other keys are ignored. *)
Definition model_validate (loc_data : json) : result Location :=
  match loc_data with
  | JDict d =>
      match dict_get "id" d, dict_get "name" d, dict_get "type" d,
            dict_get "normalized_name" d with
      | Some (JStr i), Some (JStr n), Some (JStr t), Some (JStr nn) =>
          if String.eqb t "CITY" || String.eqb t "STATION"
          then Ok {| loc_id := i; loc_name := n; loc_type := t;
                     loc_normalized_name := nn |}
          else Raise ValidationError
      | _, _, _, _ => Raise ValidationError
      end
  | _ => Raise ValidationError
  end.

(** [loc.model_dump()] *)
Definition model_dump (loc : Location) : json :=
  JDict [("id", JStr (loc_id loc)); ("name", JStr (loc_name loc));
         ("type", JStr (loc_type loc));
         ("normalized_name", JStr (loc_normalized_name loc))].

(** [[Location.model_validate(loc) for loc in l]] *)
Fixpoint validate_all (l : list json) : result (list Location) :=
  match l with
  | [] => Ok []
  | loc_data :: rest =>
      match model_validate loc_data with
      | Ok loc =>
          match validate_all rest with
          | Ok locs => Ok (loc :: locs)
          | Raise e => Raise e
          end
      | Raise e => Raise e
      end
  end.

Definition LOCATION_CACHE_KEY : string := "regiojet_locations".
Definition LOCATION_CACHE_TTL_SECONDS : Z := settings.LOCATION_CACHE_TTL_SECONDS.

(** [redis_client.get(key)]: an expired key is gone. *)
Definition redis_get (key : string) : M (option redis_value) :=
  round_trip RedisError ;;;
  fun w =>
    match redis w !! key with
    | Some (v, expires_at) =>
        if clock w <? expires_at then (Ok (Some v), w) else (Ok None, w)
    | None => (Ok None, w)
    end.

(** [redis_client.set(key, value, ex=seconds)] *)
Definition redis_set (key : string) (v : redis_value) (ex : Z) : M unit :=
  round_trip RedisError ;;;
  fun w => (Ok tt, set_redis (<[key := (v, clock w + ex * 1000000)]> (redis w)) w).

(** The part of [_get_locations_from_cache] that follows the read. *)
Definition decode_cached_locations (cached_locations : option redis_value)
    : option (list Location) :=
  match cached_locations with
  | Some (JsonText locations_data) =>
      match locations_data with
      | JList l =>
          match validate_all l with
          | Ok validated_locations => Some validated_locations
          | Raise _ => None             (* validation_failed *)
          end
      | _ => None                       (* expected list *)
      end
  | Some (NotJson _) => None            (* empty, or json.JSONDecodeError *)
  | None => None                        (* cache miss *)
  end.

Definition _get_locations_from_cache : M (option (list Location)) :=
  try_except
    (cached_locations <- redis_get LOCATION_CACHE_KEY ;;
     ret (decode_cached_locations cached_locations))
    (fun e =>
       match e with
       | RedisError => ret None
       | _ => raise e
       end).

Definition _get_locations_from_cache_sync : M (option (list Location)) :=
  try_except
    (cached_locations <- redis_get LOCATION_CACHE_KEY ;;
     ret (decode_cached_locations cached_locations))
    (fun e =>
       match e with
       | RedisError => ret None
       | _ => ret None
       end).

Definition _set_locations_to_cache (locations : list Location) : M unit :=
  try_except
    (let locations_to_cache := map model_dump locations in
     redis_set LOCATION_CACHE_KEY (JsonText (JList locations_to_cache))
       LOCATION_CACHE_TTL_SECONDS)
    (fun e => ret tt).

Section Parser.

(** [unicodedata.normalize('NFKD', text.lower()).encode('ascii', 'ignore')
    .decode('utf-8')] on a [str], and the built-in [str()]: both belong to the
    Python runtime and are taken as given. *)
Variable normalize_text : string -> string.
Variable py_str : json -> string.

(** [normalize_string(text)]: [text.lower()] needs a [str]. *)
Definition normalize_string (text : json) : result string :=
  match text with
  | JNull => Ok ""
  | JStr s => Ok (normalize_text s)
  | _ => Raise AttributeError
  end.

Definition is_dict (j : json) : bool := match j with JDict _ => true | _ => false end.

Definition is_none (j : json) : bool := match j with JNull => true | _ => false end.

(** The loop over [stations_data]. *)
Fixpoint parse_stations (stations_data : list json) (parsed_locations : list json)
    : result (list json) :=
  match stations_data with
  | [] => Ok parsed_locations
  | station :: rest =>
      match station with
      | JDict st =>
          let station_id := get "id" st in
          let station_name :=
            if truthy (get "fullname" st) then get "fullname" st else get "name" st in
          if negb (is_none station_id) && negb (is_none station_name) then
            match normalize_string station_name with
            | Ok normalized_station_name =>
                parse_stations rest
                  (parsed_locations ++
                   [JDict [("id", JStr (py_str station_id));
                           ("name", station_name);
                           ("type", JStr "STATION");
                           ("normalized_name", JStr normalized_station_name)]])%list
            | Raise e => Raise e
            end
          else parse_stations rest parsed_locations
      | _ => parse_stations rest parsed_locations
      end
  end.

(** The loop over [cities_data]. *)
Fixpoint parse_cities (cities_data : list json) (parsed_locations : list json)
    : result (list json) :=
  match cities_data with
  | [] => Ok parsed_locations
  | city :: rest =>
      match city with
      | JDict c =>
          let city_id := get "id" c in
          let city_name := get "name" c in
          if negb (is_none city_id) && negb (is_none city_name) then
            match normalize_string city_name with
            | Ok normalized_city_name =>
                let parsed_locations :=
                  (parsed_locations ++
                   [JDict [("id", JStr (py_str city_id));
                           ("name", city_name);
                           ("type", JStr "CITY");
                           ("normalized_name", JStr normalized_city_name)]])%list in
                match get_default "stations" (JList []) c with
                | JList stations_data =>
                    match parse_stations stations_data parsed_locations with
                    | Ok parsed_locations => parse_cities rest parsed_locations
                    | Raise e => Raise e
                    end
                | _ => parse_cities rest parsed_locations
                end
            | Raise e => Raise e
            end
          else parse_cities rest parsed_locations
      | _ => parse_cities rest parsed_locations
      end
  end.

(** The loop over the countries. *)
Fixpoint parse_countries (api_data : list json) (parsed_locations : list json)
    : result (list json) :=
  match api_data with
  | [] => Ok parsed_locations
  | country :: rest =>
      match country with
      | JDict c =>
          match get_default "cities" (JList []) c with
          | JList cities_data =>
              match parse_cities cities_data parsed_locations with
              | Ok parsed_locations => parse_countries rest parsed_locations
              | Raise e => Raise e
              end
          | _ => parse_countries rest parsed_locations
          end
      | _ => parse_countries rest parsed_locations
      end
  end.

Definition _parse_locations_response (api_data : json) : result (list json) :=
  match api_data with
  | JList countries => parse_countries countries []
  | _ => Raise ParsingError
  end.

Definition get_locations : M (list Location) :=
  (* 1. Try cache *)
  cached_data <- _get_locations_from_cache ;;
  match cached_data with
  | Some locations => ret locations
  | None =>
      (* 2. Fetch from API if cache miss/error *)
      api_data <-
        try_except
          (_fetch_regiojet_api "/consts/locations" [] [("X-Lang", "cs")] 10)
          (fun e =>
             match e with
             | HTTPException _ => raise e
             | _ => raise (HTTPException 500)
             end) ;;
      (* 3. Parse API response *)
      parsed_locations_dicts <-
        try_except
          (lift (_parse_locations_response api_data))
          (fun e =>
             match e with
             | ParsingError => raise (HTTPException 502)
             | _ => raise (HTTPException 500)
             end) ;;
      (* 4. Validate with Pydantic schema *)
      locations <-
        try_except
          (lift (validate_all parsed_locations_dicts))
          (fun e => raise (HTTPException 500)) ;;
      (* 5. Cache the result *)
      _set_locations_to_cache locations ;;;
      ret locations
  end.

End Parser.

End Locations.
Export Locations.

(* ===================================================================== *)
(** ** api/endpoints/routes.py *)
(* ===================================================================== *)

Module Endpoints.

(** The HTTP status set on the response and the fields of the response model
    ([message] texts are left out). *)
Record RouteMonitorResponse := {
  monitor_status_code : Z;
  available : bool;
  monitor_details : option pydict;
}.

Record RouteRestartResponse := {
  restart_status_code : Z;
  restarted : bool;
  restart_details : option pydict;
}.

Definition TempRouteForCheck (route_in : RouteMonitorRequest) : RouteAttrs :=
  {| a_id := None;
     a_regiojet_route_id := rq_regiojet_route_id route_in;
     a_from_location_id := rq_from_location_id route_in;
     a_from_location_type := rq_from_location_type route_in;
     a_to_location_id := rq_to_location_id route_in;
     a_to_location_type := rq_to_location_type route_in;
     a_departure_datetime := rq_departure_datetime route_in |}.

(** POST /monitor; [current_user] is the id of the authenticated user. *)
Definition create_monitoring_request (route_in : RouteMonitorRequest) (current_user : Z)
    : M RouteMonitorResponse :=
  (* 1. Perform initial availability check *)
  let temp_route := TempRouteForCheck route_in in
  checked <-
    try_except
      (check_route_availability temp_route)
      (fun e =>
         match e with
         | HTTPException _ => raise e
         | _ => raise (HTTPException 500)
         end) ;;
  let '(is_available, details) := checked in
  (* 2. Handle based on availability *)
  if is_available : bool then
    ret {| monitor_status_code := 200; available := true; monitor_details := details |}
  else
    (* 3. Get or create the MonitoredRoute *)
    db_route <-
      try_except
        (get_or_create_monitored_route route_in)
        (fun e =>
           match e with
           | ValueError => raise (HTTPException 422)
           | _ => raise (HTTPException 500)
           end) ;;
    (* 4. Create the UserRouteSubscription link *)
    try_except
      (create_user_subscription current_user db_route.1)
      (fun e => raise (HTTPException 500)) ;;;
    ret {| monitor_status_code := 201; available := false; monitor_details := None |}.

(** DELETE /monitor/{db_id}; returns the status code of the response. *)
Definition cancel_monitoring_request (db_id : Z) (current_user : Z) : M Z :=
  try_except
    (deleted <- delete_user_subscription current_user db_id ;;
     if negb deleted then raise (HTTPException 404)
     else
       remaining_subscriptions <- count_subscriptions_for_route db_id ;;
       (if remaining_subscriptions =? 0
        then delete_monitored_route db_id ;;; ret tt
        else ret tt) ;;;
       ret 204)
    (fun e =>
       match e with
       | HTTPException _ => raise e
       | _ => ret 204               (* logged; the handler returns normally *)
       end).

(** POST /monitored-routes/{route_db_id}/restart *)
Definition restart_monitoring_request (route_db_id : Z) (current_user : Z)
    : M RouteRestartResponse :=
  (* 1. Fetch the MonitoredRoute by its database ID *)
  db_route <- get_monitored_route_by_id route_db_id ;;
  match db_route with
  | None => raise (HTTPException 404)
  | Some r =>
      (* 2. Verify the user is subscribed to this route *)
      subscription <- get_user_subscription_for_route current_user route_db_id ;;
      match subscription with
      | None => raise (HTTPException 403)
      | Some _ =>
          (* 3. Check if the route status is FOUND *)
          if bool_decide (status r <> FOUND) then raise (HTTPException 409)
          else
            (* 4. Perform availability check *)
            checked <-
              try_except
                (check_route_availability (attrs_of_row route_db_id r))
                (fun e =>
                   match e with
                   | HTTPException _ => raise e
                   | _ => raise (HTTPException 500)
                   end) ;;
            let '(is_available, availability_details) := checked in
            (* 5. Handle based on availability *)
            if is_available : bool then
              ret {| restart_status_code := 200; restarted := false;
                     restart_details := availability_details |}
            else
              now <- datetime_now ;;
              try_except
                (update_route_status_and_last_checked route_db_id MONITORING now ;;;
                 ret tt)
                (fun e => raise (HTTPException 500)) ;;;
              ret {| restart_status_code := 200; restarted := true;
                     restart_details := None |}
      end
  end.

End Endpoints.
Export Endpoints.

(* ===================================================================== *)
(** ** worker/tasks.py *)
(* ===================================================================== *)

Module Tasks.

(** The dictionary a task returns. *)
Record task_result := {
  task_status : string;
  task_details : option pydict;
  task_error : option exn;            (* set when [error_message] is *)
}.

(** [for x in l: body x] *)
Fixpoint for_each {A} (l : list A) (body : A -> M unit) : M unit :=
  match l with
  | [] => ret tt
  | x :: rest => body x ;;; for_each rest body
  end.

(** The flush at [db.commit()] of every route whose [last_checked_at] was set. *)
Fixpoint touch_all (ids : list Z) (now : datetime) (t : Tables) : result (unit * Tables) :=
  match ids with
  | [] => Ok (tt, t)
  | id :: rest =>
      match update_route id (with_last_checked_at (Some (timestamptz now))) t with
      | Ok (_, t') => touch_all rest now t'
      | Raise e => Raise e
      end
  end.

Definition schedule_route_checks : M unit :=
  try_except
    (active_routes <-
       db_select (fun t =>
         map_to_list (filter (fun kr : Z * MonitoredRoute => status kr.2 = MONITORING)
                             (monitored_routes t))) ;;
     match active_routes with
     | [] => ret tt
     | _ =>
         (* Update last_checked_at and collect IDs *)
         now <- datetime_now ;;
         let routes_to_check_ids := active_routes.*1 in
         db_commit (touch_all routes_to_check_ids now) ;;;
         (* Schedule individual checks after successful commit *)
         for_each routes_to_check_ids (fun route_id => delay (CheckSingleRoute route_id))
     end)
    (fun e => (* db.rollback() *) ret tt).

(** [{loc.id: loc.name for loc in cached_locations}.get(key, dflt)]: a later
    entry with the same id replaces an earlier one. *)
Fixpoint location_map_get (cached_locations : list Location) (key : string) (dflt : string)
    : string :=
  match cached_locations with
  | [] => dflt
  | loc :: rest =>
      location_map_get rest key (if String.eqb (loc_id loc) key then loc_name loc else dflt)
  end.

(** The two [except] clauses of [check_single_route]; [result_details] is the
    local variable of that name at the time of the exception. *)
Definition check_failed (result_details : option pydict) (e : exn) : M task_result :=
  match e with
  | HTTPException _ =>
      ret {| task_status := "HTTP_ERROR"; task_details := result_details;
             task_error := Some e |}
  | _ =>
      (* db.rollback() *)
      ret {| task_status := "UNEXPECTED_ERROR"; task_details := result_details;
             task_error := Some e |}
  end.

Definition check_single_route (route_id : Z) : M task_result :=
  try_except
    (db_route <- db_select (fun t => monitored_routes t !! route_id) ;;
     match db_route with
     | None =>
         ret {| task_status := "NOT_FOUND_DB"; task_details := None; task_error := None |}
     | Some r =>
         if bool_decide (status r <> MONITORING) then
           ret {| task_status := "NOT_MONITORING"; task_details := None;
                  task_error := None |}
         else
           (* Perform the availability check *)
           checked <- check_route_availability_sync (attrs_of_row route_id r) ;;
           let '(is_available, details) := checked in
           if is_available : bool then
             let result_details := details in
             try_except
               ((* 1. Fetch verified subscribers *)
                subscribers <- get_verified_route_subscribers route_id ;;
                match subscribers with
                | [] => ret tt
                | _ =>
                    cached_locations <- _get_locations_from_cache_sync ;;
                    let location_list :=
                      match cached_locations with
                      | Some (l :: ls) => l :: ls
                      | _ => []
                      end in
                    let from_station_name :=
                      location_map_get location_list (from_location_id r)
                        ("ID " +:+ from_location_id r) in
                    let to_station_name :=
                      location_map_get location_list (to_location_id r)
                        ("ID " +:+ to_location_id r) in
                    (* 2. Dispatch email tasks *)
                    for_each subscribers (fun user =>
                      delay (SendNotificationEmail (email user.2)
                               from_station_name to_station_name (default [] details)))
                end ;;;
                (* 3. Deactivate route *)
                deactivate_route_sync route_id ;;;
                ret {| task_status := "FOUND"; task_details := result_details;
                       task_error := None |})
               (check_failed result_details)
           else
             ret {| task_status := "NOT_FOUND"; task_details := None; task_error := None |}
     end)
    (check_failed None).

Definition expire_past_routes : M unit :=
  try_except
    (now_utc <- datetime_now ;;
     routes_to_expire <-
       db_select (fun t =>
         map_to_list
           (filter (fun kr : Z * MonitoredRoute =>
                      status kr.2 <> EXPIRED /\
                      datetime_lt (departure_datetime kr.2) now_utc = true)
                   (monitored_routes t))) ;;
     match routes_to_expire with
     | [] => ret tt
     | _ =>
         for_each routes_to_expire (fun route =>
           expire_route_sync route.1 ;;; ret tt)
     end)
    (fun e => (* db.rollback() *) ret tt).

End Tasks.
Export Tasks.

(* ===================================================================== *)
(** ** Sample data used by the closed examples below *)
(* ===================================================================== *)

Module Examples.

(** 2025-08-15T10:30:00+02:00 *)
Definition departure_R1 : datetime :=
  {| instant := 1755246600000000; utcoffset := 7200000000 |}.

(** The monitor request of the scenario: route "R1" from "A" to "B". *)
Definition request_R1 : RouteMonitorRequest :=
  {| rq_from_location_id := "A"; rq_from_location_type := "STATION";
     rq_to_location_id := "B"; rq_to_location_type := "STATION";
     rq_departure_datetime := departure_R1; rq_arrival_datetime := None;
     rq_regiojet_route_id := "R1" |}.

Definition row_R1 (s : RouteStatusEnum) : MonitoredRoute :=
  {| regiojet_route_id := "R1"; from_location_id := "A"; from_location_type := "STATION";
     to_location_id := "B"; to_location_type := "STATION";
     departure_datetime := timestamptz departure_R1; arrival_datetime := None;
     status := s; last_checked_at := None |}.

Definition alice : User := {| email := "alice@example.com"; is_verified := true |}.
Definition bob : User := {| email := "bob@example.com"; is_verified := true |}.

(** Two verified users, no route yet. *)
Definition empty_tables : Tables :=
  {| monitored_routes := ∅; user_route_subscriptions := ∅;
     users := <[1 := alice]> (<[2 := bob]> ∅); route_id_seq := 1 |}.

(** Route 1 in status [s], followed by the users in [subscribers]. *)
Definition tables_R1 (s : RouteStatusEnum) (subscribers : list Z) : Tables :=
  {| monitored_routes := <[1 := row_R1 s]> ∅;
     user_route_subscriptions := list_to_set ((fun u => (u, 1)) <$> subscribers);
     users := <[1 := alice]> (<[2 := bob]> ∅); route_id_seq := 2 |}.

(** A world at instant [now] whose upstream always answers [reply]. *)
Definition world (t : Tables) (now : Z) (reply : http_exchange) (e : list env_action)
    : World :=
  {| tables := t; redis := ∅; clock := now; upstream := fun _ => reply;
     env := e; fetch_log := []; celery_queue := [] |}.

Definition seats (n : Z) : http_exchange :=
  Response 200 (Some (JDict [("freeSeatsCount", JInt n); ("priceFrom", JInt 150)])).

(** A directory answer of the upstream: one country with one city. *)
Definition directory : http_exchange :=
  Response 200 (Some (JList
    [JDict [("code", JStr "CZ");
            ("cities", JList [JDict [("id", JInt 10202003); ("name", JStr "praha");
                                     ("stations", JList [])]])]])).

Definition praha : Location :=
  {| loc_id := "10202003"; loc_name := "praha"; loc_type := "CITY";
     loc_normalized_name := "praha" |}.

(** [normalize_string] and [str()] on the values of [directory]: lower-case
    ASCII text is its own normal form, and [str] of an [int] is its decimal
    writing. *)
Definition normalize_ascii_lower (s : string) : string := s.

Definition str_of (j : json) : string :=
  match j with
  | JStr s => s
  | JInt z => pretty z
  | _ => ""
  end.

(** 2025-08-01T00:00:00Z, before the departure, and 2025-09-01T00:00:00Z, after. *)
Definition before_departure : Z := 1754006400000000.
Definition after_departure : Z := 1756684800000000.

End Examples.

(* ===================================================================== *)
(** ** Vocabulary of the statements *)
(* ===================================================================== *)

Module Vocabulary.

(** The request [check_route_availability] sends for [route]. *)
Definition availability_request (route : RouteAttrs) : request :=
  {| url := REGIOJET_API_BASE_URL +:+ "/routes/" +:+ a_regiojet_route_id route +:+ "/simple";
     params := [("fromStationId", a_from_location_id route);
                ("toStationId", a_to_location_id route)];
     headers := [("X-Lang", "cs"); ("X-Currency", "CZK")];
     timeout := 15 |}.

(** A seat count of zero, as an [int] or as a [float]. *)
Definition zero_seats (v : json) : Prop :=
  v = JInt 0 \/ exists e, v = JFloat (FFin 0 e).

(** The upstream answers the spec calls "not available". *)
Inductive negative_reply : http_exchange -> Prop :=
| reply_non_object code j :
    (400 <=? code) && (code <=? 599) = false ->
    (forall d, j <> JDict d) ->
    negative_reply (Response code (Some j))
| reply_missing_field code d :
    (400 <=? code) && (code <=? 599) = false ->
    dict_get "freeSeatsCount" d = None ->
    negative_reply (Response code (Some (JDict d)))
| reply_404 body :
    negative_reply (Response 404 body)
| reply_zero_seats code d v :
    (400 <=? code) && (code <=? 599) = false ->
    dict_get "freeSeatsCount" d = Some v ->
    zero_seats v ->
    negative_reply (Response code (Some (JDict d))).

(** The upstream failures of the spec: a timeout, a connection error, or a
    4xx/5xx answer other than 404. *)
Inductive failed_fetch : http_exchange -> Prop :=
| failed_timeout : failed_fetch Timeout
| failed_connection : failed_fetch ConnectError
| failed_status code body :
    400 <= code <= 599 -> code <> 404 ->
    failed_fetch (Response code body).

(** The tables another session leaves behind when it runs [m] to completion,
    undisturbed, in the world [w] on the tables [t]. *)
Definition committed_by {A} (w : World) (m : M A) (t : Tables) : Tables :=
  tables (snd (m (set_env [] (set_tables t w)))).

(** The three effects of a cancellation on the tables. *)
Definition without_subscription (user_id route_id : Z) (t : Tables) : Tables :=
  set_user_route_subscriptions
    (user_route_subscriptions t ∖ {[ (user_id, route_id) ]}) t.

Definition remaining_subscribers (route_id : Z) (t : Tables) : nat :=
  size (filter (fun ur : Z * Z => ur.2 = route_id) (user_route_subscriptions t)).

Definition without_route (route_id : Z) (t : Tables) : Tables :=
  {| monitored_routes := delete route_id (monitored_routes t);
     user_route_subscriptions :=
       filter (fun ur : Z * Z => ur.2 <> route_id) (user_route_subscriptions t);
     users := users t;
     route_id_seq := route_id_seq t |}.

(** All three applied: the subscription is deleted, the subscribers are counted,
    and the route is deleted when none is left. *)
Definition after_cancel (user_id route_id : Z) (t : Tables) : Tables :=
  let t1 := without_subscription user_id route_id t in
  if Z.of_nat (remaining_subscribers route_id t1) =? 0
  then without_route route_id t1
  else t1.

(** The rows of [monitored_routes] after [expire_route_sync] ran for every id
    of [ids]. *)
Definition expire_all (ids : list Z) (m : gmap Z MonitoredRoute) : gmap Z MonitoredRoute :=
  foldl (fun m id => alter (with_status EXPIRED) id m) m ids.

(** The rows a scheduler tick selects. *)
Definition monitoring_rows (t : Tables) : list (Z * MonitoredRoute) :=
  map_to_list (filter (fun kr : Z * MonitoredRoute => status kr.2 = MONITORING)
                      (monitored_routes t)).

(** The refresh of the location directory fails in the world [w]: the fetch
    raises, or what it returns does not parse, or a parsed entry does not
    validate. *)
Definition refresh_fails (normalize_text : string -> string) (py_str : json -> string)
    (w : World) : Prop :=
  match fst (_fetch_regiojet_api "/consts/locations" [] [("X-Lang", "cs")] 10 w) with
  | Raise _ => True
  | Ok api_data =>
      match _parse_locations_response normalize_text py_str api_data with
      | Raise _ => True
      | Ok parsed =>
          match validate_all parsed with
          | Raise _ => True
          | Ok _ => False
          end
      end
  end.


(** The request [get_locations] sends for the directory. *)
Definition locations_request : request :=
  {| url := REGIOJET_API_BASE_URL +:+ "/consts/locations"; params := [];
     headers := [("X-Lang", "cs")]; timeout := 10 |}.

(** Every entry of a list of JSON values is accepted by [Location.model_validate]. *)
Definition all_validate (l : list json) : Prop :=
  exists locations, validate_all l = Ok locations.

(** The row [_create_monitored_route_internal] stores for a request. *)
Definition new_row (route_in : RouteMonitorRequest) : MonitoredRoute :=
  {| regiojet_route_id := rq_regiojet_route_id route_in;
     from_location_id := rq_from_location_id route_in;
     from_location_type := rq_from_location_type route_in;
     to_location_id := rq_to_location_id route_in;
     to_location_type := rq_to_location_type route_in;
     departure_datetime := timestamptz (rq_departure_datetime route_in);
     arrival_datetime := timestamptz <$> rq_arrival_datetime route_in;
     status := MONITORING;
     last_checked_at := None |}.

(** The users [get_verified_route_subscribers] selects. *)
Definition verified_subscribers (route_id : Z) (t : Tables) : list (Z * User) :=
  map_to_list
    (filter (fun ku : Z * User =>
               (ku.1, route_id) ∈ user_route_subscriptions t /\ is_verified ku.2 = true)
            (users t)).

(** The constraints the schema puts on the tables: the two foreign keys of
    [user_route_subscriptions], the unique segment key of [monitored_routes],
    and route ids below the next value of the serial. *)
Record well_formed (t : Tables) : Prop := {
  wf_references :
    forall u r, (u, r) ∈ user_route_subscriptions t ->
      is_Some (users t !! u) /\ is_Some (monitored_routes t !! r);
  wf_segment :
    forall k1 k2 r1 r2,
      monitored_routes t !! k1 = Some r1 -> monitored_routes t !! k2 = Some r2 ->
      same_segment (regiojet_route_id r1) (from_location_id r1) (to_location_id r1) r2
        = true ->
      k1 = k2;
  wf_serial :
    forall k, is_Some (monitored_routes t !! k) -> k < route_id_seq t;
}.

(** What the environment may do at a round trip without breaking the
    constraints itself: answer, fail, or let another session commit a change
    that the database accepts, that is, one that keeps the tables well formed. *)
Definition respects_constraints (a : env_action) : Prop :=
  match a with
  | Quiet | Fails => True
  | Interleave other => forall t, well_formed t -> well_formed (other t)
  end.

(** Whatever faults and commits of other sessions fall on its round trips, [m]
    leaves the tables well formed (and the rest of the environment as it is). *)
Definition keeps_well_formed {A} (m : M A) : Prop :=
  forall w, Forall respects_constraints (env w) -> well_formed (tables w) ->
    Forall respects_constraints (env (snd (m w))) /\ well_formed (tables (snd (m w))).

(** A transaction body that keeps the tables well formed when it succeeds. *)
Definition transaction_keeps_well_formed {A} (u : Tables -> result (A * Tables)) : Prop :=
  forall t a t', well_formed t -> u t = Ok (a, t') -> well_formed t'.

(** What another session that runs the transaction [u] commits. *)
Definition commit_of {A} (u : Tables -> result (A * Tables)) (t : Tables) : Tables :=
  match u t with
  | Ok (_, t') => t'
  | Raise _ => t
  end.

(** An update of a row that leaves its segment key alone. *)
Definition keeps_segment (f : MonitoredRoute -> MonitoredRoute) : Prop :=
  forall r, regiojet_route_id (f r) = regiojet_route_id r /\
            from_location_id (f r) = from_location_id r /\
            to_location_id (f r) = to_location_id r.

End Vocabulary.
Export Vocabulary.

(* ===================================================================== *)
(** ** Properties *)
(* ===================================================================== *)

(** Unfolding of the monad and of the HTTP client. *)
Ltac unfold_M :=
  unfold try_except, bind, ret, raise, lift in *.

Lemma string_eqb_false (a b : string) : a <> b -> String.eqb a b = false.
Proof. intros H. apply String.eqb_neq. exact H. Qed.

(** C7: a non-object answer, an object without [freeSeatsCount], a 404 and an
    object with zero free seats all make both checkers return [(False, None)]
    without raising, whenever the route carries the id the request needs. *)
Theorem C7_negative_answers_give_false_none (route : RouteAttrs) (w : World) :
  a_regiojet_route_id route <> "" ->
  negative_reply (upstream w (availability_request route)) ->
  fst (check_route_availability_sync route w) = Ok (false, None) /\
  fst (check_route_availability route w) = Ok (false, None).
Proof.
  intros Hid Hneg.
  unfold check_route_availability_sync, check_route_availability.
  rewrite (string_eqb_false _ _ Hid).
  unfold _fetch_regiojet_api_sync, _fetch_regiojet_api, client_get,
    raise_for_status, response_json.
  unfold_M.
  fold (availability_request route).
  inversion Hneg as [code j Hc Hj Heq | code d Hc Hd Heq | body Heq
                    | code d v Hc Hd Hz Heq];
    cbn [fst snd]; try rewrite Hc; cbn.
  - destruct j; try (split; reflexivity). exfalso; eapply Hj; reflexivity.
  - unfold get_default. rewrite Hd. cbn. split; reflexivity.
  - split; reflexivity.
  - unfold get_default. rewrite Hd.
    destruct Hz as [-> | [e ->]]; cbn; split; reflexivity.
Qed.

Lemma C7_witness :
  let route := attrs_of_row 1 (Examples.row_R1 MONITORING) in
  let w := Examples.world (Examples.tables_R1 MONITORING [1])
             Examples.before_departure (Examples.seats 0) [] in
  fst (check_route_availability_sync route w) = Ok (false, None) /\
  fst (check_route_availability route w) = Ok (false, None).
Proof.
  apply C7_negative_answers_give_false_none.
  - discriminate.
  - eapply reply_zero_seats; [reflexivity | reflexivity | left; reflexivity].
Defined.

(** The API client turns every failed exchange into an [HTTPException]. *)
Lemma fetch_failure_raises_HTTPException endpoint params headers timeout (w : World) :
  failed_fetch (upstream w {| url := REGIOJET_API_BASE_URL +:+ endpoint; params := params;
                              headers := headers; timeout := timeout |}) ->
  exists code,
    fst (_fetch_regiojet_api_sync endpoint params headers timeout w) = Raise (HTTPException code) /\
    fst (_fetch_regiojet_api endpoint params headers timeout w) = Raise (HTTPException code) /\
    (code = 504 \/ code = 503 \/ code = 400 \/ code = 502).
Proof.
  intros Hf.
  unfold _fetch_regiojet_api_sync, _fetch_regiojet_api, client_get,
    raise_for_status, response_json.
  unfold_M.
  inversion Hf as [Heq | Heq | code body Hc Hne Heq]; cbn.
  - exists 504. repeat split; try reflexivity; lia.
  - exists 503. repeat split; try reflexivity; lia.
  - assert (Hr : (400 <=? code) && (code <=? 599) = true).
    { apply andb_true_iff. split; apply Z.leb_le; lia. }
    rewrite Hr. cbn.
    destruct (code =? 400) eqn:E; cbn.
    + exists 400. repeat split; try reflexivity; lia.
    + exists 502. repeat split; try reflexivity; lia.
Qed.

(** The checkers do not let that exception through: it ends in their last
    [except Exception] clause, whose answer is [(False, None)]. *)
Lemma failed_fetch_reported_as_not_available (route : RouteAttrs) (w : World) :
  a_regiojet_route_id route <> "" ->
  failed_fetch (upstream w (availability_request route)) ->
  fst (check_route_availability_sync route w) = Ok (false, None) /\
  fst (check_route_availability route w) = Ok (false, None).
Proof.
  intros Hid Hf.
  unfold check_route_availability_sync, check_route_availability.
  rewrite (string_eqb_false _ _ Hid).
  unfold _fetch_regiojet_api_sync, _fetch_regiojet_api, client_get,
    raise_for_status, response_json.
  unfold_M.
  fold (availability_request route).
  inversion Hf as [Heq | Heq | code body Hc Hne Heq]; cbn.
  - auto.
  - auto.
  - assert (Hr : (400 <=? code) && (code <=? 599) = true).
    { apply andb_true_iff. split; apply Z.leb_le; lia. }
    rewrite Hr. cbn.
    destruct (code =? 400) eqn:E; cbn; auto.
Qed.

(** C1, at the failing input: the upstream times out during the initial check of
    a monitor request.  The API client raises [HTTPException(504)], but both
    checkers answer [(False, None)], and the endpoint answers 201 and stores the
    route and the subscription. *)
Theorem C1_timeout_is_reported_as_not_available :
  let w := Examples.world Examples.empty_tables Examples.before_departure Timeout [] in
  let route := TempRouteForCheck Examples.request_R1 in
  fst (_fetch_regiojet_api "/routes/R1/simple"
         [("fromStationId", "A"); ("toStationId", "B")]
         [("X-Lang", "cs"); ("X-Currency", "CZK")] 15 w) = Raise (HTTPException 504) /\
  fst (check_route_availability route w) = Ok (false, None) /\
  fst (check_route_availability_sync route w) = Ok (false, None) /\
  let '(answer, w') := create_monitoring_request Examples.request_R1 1 w in
  answer = Ok {| monitor_status_code := 201; available := false; monitor_details := None |} /\
  monitored_routes (tables w') !! 1 = Some (Examples.row_R1 MONITORING) /\
  (1, 1) ∈ user_route_subscriptions (tables w').
Proof.
  cbv zeta.
  split; [reflexivity|].
  destruct (failed_fetch_reported_as_not_available
              (TempRouteForCheck Examples.request_R1)
              (Examples.world Examples.empty_tables Examples.before_departure Timeout []))
    as [Hs Ha]; [discriminate | constructor |].
  split; [exact Ha|]. split; [exact Hs|].
  vm_compute. repeat split; reflexivity.
Qed.

(** C2, at the failing input: two sessions ask for the same new segment.  The
    second session inserts and commits between the [select] and the insert of
    the first one.  The first session's insert then violates
    [uq_monitored_route_segment]; [get_or_create_monitored_route] has no handler
    and raises [IntegrityError], which the endpoint answers with 500.  In the
    same race [create_user_subscription] rolls back, reads again and returns the
    existing row.  Two calls in sequence return the same row. *)
Theorem C2_concurrent_duplicate_insert_raises :
  let base := Examples.world Examples.empty_tables Examples.before_departure
                (Examples.seats 0) [] in
  let other := committed_by base (get_or_create_monitored_route Examples.request_R1) in
  let w := set_env [Quiet; Interleave other] base in
  monitored_routes (other Examples.empty_tables) !! 1 = Some (Examples.row_R1 MONITORING) /\
  fst (get_or_create_monitored_route Examples.request_R1 w) = Raise IntegrityError /\
  fst (create_monitoring_request Examples.request_R1 2 w) = Raise (HTTPException 500) /\
  (let base_sub := Examples.world (Examples.tables_R1 MONITORING [])
                      Examples.before_departure (Examples.seats 0) [] in
   let other_sub := committed_by base_sub (create_user_subscription 1 1) in
   let w_sub := set_env [Quiet; Interleave other_sub] base_sub in
   fst (create_user_subscription 1 1 w_sub) = Ok (1, 1)) /\
  (let w_seq := Examples.world Examples.empty_tables Examples.before_departure
                  (Examples.seats 0) [] in
   let '(first, w1) := get_or_create_monitored_route Examples.request_R1 w_seq in
   let '(second, w2) := get_or_create_monitored_route Examples.request_R1 w1 in
   first = Ok (1, Examples.row_R1 MONITORING) /\ second = first /\
   size (monitored_routes (tables w2)) = 1%nat).
Proof.
  vm_compute. repeat split; reflexivity.
Qed.

(** *** The database when nothing fails and no other session interferes *)

Lemma round_trip_quiet (err : exn) (w : World) :
  env w = [] -> round_trip err w = (Ok tt, w).
Proof. intros H. unfold round_trip. rewrite H. reflexivity. Qed.

Lemma db_select_quiet {A} (q : Tables -> A) (w : World) :
  env w = [] -> db_select q w = (Ok (q (tables w)), w).
Proof. intros H. unfold db_select, bind. rewrite round_trip_quiet by exact H. reflexivity. Qed.

Lemma db_commit_quiet {A} (u : Tables -> result (A * Tables)) (w : World) :
  env w = [] ->
  db_commit u w =
  match u (tables w) with
  | Ok (a, t) => (Ok a, set_tables t w)
  | Raise e => (Raise e, w)
  end.
Proof. intros H. unfold db_commit, bind. rewrite round_trip_quiet by exact H. reflexivity. Qed.

Lemma round_trip_fails (err : exn) (w : World) (e : list env_action) :
  env w = Fails :: e -> round_trip err w = (Raise err, set_env e w).
Proof. intros H. unfold round_trip. rewrite H. reflexivity. Qed.

Lemma round_trip_step (err : exn) (w : World) (e : list env_action) :
  env w = Quiet :: e -> round_trip err w = (Ok tt, set_env e w).
Proof. intros H. unfold round_trip. rewrite H. reflexivity. Qed.

(** C3, as amended: every step of a cancellation is a transaction of its own.
    When the database answers each of them, all three effects are applied and
    the answer is 204; when the statement after the first commit fails, the
    deleted subscription stays deleted and the route stays. *)
Theorem C3_cancel_commits_step_by_step (w : World) (user_id route_id : Z) :
  has_subscription user_id route_id (tables w) = true ->
  cancel_monitoring_request route_id user_id (set_env [] w) =
    (Ok 204, set_env [] (set_tables (after_cancel user_id route_id (tables w)) w)) /\
  forall e,
    tables (snd (cancel_monitoring_request route_id user_id (set_env (Quiet :: Fails :: e) w))) =
    without_subscription user_id route_id (tables w).
Proof.
  intros Hsub. split.
  - unfold cancel_monitoring_request, delete_user_subscription,
      count_subscriptions_for_route, delete_monitored_route.
    unfold_M. cbv beta.
    rewrite db_commit_quiet by reflexivity. cbn [tables set_env].
    rewrite Hsub. cbn [Z.ltb Z.compare negb].
    rewrite db_select_quiet by reflexivity.
    unfold after_cancel, remaining_subscribers, without_subscription.
    cbn [tables set_tables set_env user_route_subscriptions set_user_route_subscriptions].
    destruct (Z.of_nat _ =? 0) eqn:E.
    + rewrite db_commit_quiet by reflexivity. reflexivity.
    + reflexivity.
  - intros e.
    unfold cancel_monitoring_request, delete_user_subscription,
      count_subscriptions_for_route.
    unfold_M. cbv beta.
    unfold db_commit at 1. unfold_M. cbv beta.
    erewrite round_trip_step by reflexivity.
    cbn [tables set_env]. rewrite Hsub. cbn [Z.ltb Z.compare negb].
    unfold db_select. unfold_M.
    erewrite round_trip_fails by reflexivity.
    reflexivity.
Qed.

Lemma C3_witness :
  has_subscription 1 1 (Examples.tables_R1 MONITORING [1; 2]) = true /\
  (cancel_monitoring_request 1 1
     (set_env [] (Examples.world (Examples.tables_R1 MONITORING [1; 2])
                    Examples.before_departure (Examples.seats 0) [])) =
   (Ok 204,
    set_env [] (set_tables (after_cancel 1 1 (Examples.tables_R1 MONITORING [1; 2]))
                  (Examples.world (Examples.tables_R1 MONITORING [1; 2])
                     Examples.before_departure (Examples.seats 0) []))) /\
   forall e,
     tables (snd (cancel_monitoring_request 1 1
                    (set_env (Quiet :: Fails :: e)
                       (Examples.world (Examples.tables_R1 MONITORING [1; 2])
                          Examples.before_departure (Examples.seats 0) [])))) =
     without_subscription 1 1 (Examples.tables_R1 MONITORING [1; 2])).
Proof.
  split.
  - reflexivity.
  - apply (C3_cancel_commits_step_by_step
             (Examples.world (Examples.tables_R1 MONITORING [1; 2])
                Examples.before_departure (Examples.seats 0) []) 1 1).
    reflexivity.
Defined.

(** C3 as stated fails: the only subscriber cancels and the count that follows
    the committed delete fails.  The subscription is gone, the route is still
    there without a subscriber, and the answer is 204: neither all of the
    effects nor none. *)
Lemma C3_counterexample :
  let t := Examples.tables_R1 MONITORING [1] in
  let w := Examples.world t Examples.before_departure (Examples.seats 0) [Quiet; Fails] in
  let '(answer, w') := cancel_monitoring_request 1 1 w in
  answer = Ok 204 /\
  has_subscription 1 1 t = true /\
  has_subscription 1 1 (tables w') = false /\
  monitored_routes (tables w') !! 1 = Some (Examples.row_R1 MONITORING) /\
  monitored_routes (after_cancel 1 1 t) !! 1 = None /\
  tables w' <> t /\ tables w' <> after_cancel 1 1 t.
Proof.
  vm_compute. repeat split; try reflexivity.
  - intros H. discriminate H.
  - intros H. discriminate H.
Qed.

(** *** The status machine *)

Lemma with_status_same (r : MonitoredRoute) : with_status (status r) r = r.
Proof. destruct r. reflexivity. Qed.

Lemma set_monitored_routes_same (t : Tables) :
  set_monitored_routes (monitored_routes t) t = t.
Proof. destruct t. reflexivity. Qed.

(** Writing back the row that is stored changes nothing. *)
Lemma update_route_same (route_id : Z) (r : MonitoredRoute) (t : Tables) :
  monitored_routes t !! route_id = Some r ->
  update_route route_id (with_status (status r)) t = Ok (r, t).
Proof.
  intros H. unfold update_route. rewrite H, with_status_same.
  rewrite insert_id by exact H. rewrite set_monitored_routes_same. reflexivity.
Qed.

(** C4, as amended: marking found, marking expired and restarting leave an
    EXPIRED route as it is; [get_or_create_monitored_route] reactivates it to
    MONITORING. *)
Theorem C4_expired_is_left_only_by_get_or_create (w : World) (id : Z) (r : MonitoredRoute) :
  env w = [] ->
  monitored_routes (tables w) !! id = Some r ->
  status r = EXPIRED ->
  tables (snd (deactivate_route_sync id w)) = tables w /\
  tables (snd (expire_route_sync id w)) = tables w /\
  (forall user, tables (snd (restart_monitoring_request id user w)) = tables w) /\
  (forall route_in,
     select_segment route_in (tables w) = [(id, r)] ->
     fst (get_or_create_monitored_route route_in w) = Ok (id, with_status MONITORING r) /\
     monitored_routes (tables (snd (get_or_create_monitored_route route_in w))) !! id =
       Some (with_status MONITORING r)).
Proof.
  intros Henv Hr Hst. repeat split.
  - unfold deactivate_route_sync. unfold_M. cbv beta.
    rewrite db_select_quiet by exact Henv. rewrite Hr, Hst. reflexivity.
  - unfold expire_route_sync. unfold_M. cbv beta.
    rewrite db_select_quiet by exact Henv. rewrite Hr.
    rewrite db_commit_quiet by exact Henv.
    rewrite <- Hst, (update_route_same id r _ Hr).
    reflexivity.
  - intros user. unfold restart_monitoring_request, get_monitored_route_by_id,
      get_user_subscription_for_route. unfold_M. cbv beta.
    rewrite db_select_quiet by exact Henv. rewrite Hr.
    rewrite db_select_quiet by exact Henv.
    destruct (has_subscription user id (tables w)); [|reflexivity].
    rewrite Hst. reflexivity.
  - unfold get_or_create_monitored_route. unfold_M. cbv beta.
    rewrite db_select_quiet by exact Henv. rewrite H. cbn [scalar_one_or_none ret].
    rewrite Hst. cbn [bool_decide decide_rel].
    rewrite bool_decide_eq_true_2 by discriminate.
    rewrite db_commit_quiet by exact Henv.
    unfold update_route. rewrite Hr. reflexivity.
  - unfold get_or_create_monitored_route. unfold_M. cbv beta.
    rewrite db_select_quiet by exact Henv. rewrite H. cbn [scalar_one_or_none ret].
    rewrite Hst.
    rewrite bool_decide_eq_true_2 by discriminate.
    rewrite db_commit_quiet by exact Henv.
    unfold update_route. rewrite Hr. cbn. apply lookup_insert_eq.
Qed.

Lemma C4_witness :
  let w := Examples.world (Examples.tables_R1 EXPIRED [1]) Examples.after_departure
             (Examples.seats 0) [] in
  let r := Examples.row_R1 EXPIRED in
  tables (snd (deactivate_route_sync 1 w)) = tables w /\
  tables (snd (expire_route_sync 1 w)) = tables w /\
  (forall user, tables (snd (restart_monitoring_request 1 user w)) = tables w) /\
  (forall route_in,
     select_segment route_in (tables w) = [(1, r)] ->
     fst (get_or_create_monitored_route route_in w) = Ok (1, with_status MONITORING r) /\
     monitored_routes (tables (snd (get_or_create_monitored_route route_in w))) !! 1 =
       Some (with_status MONITORING r)).
Proof.
  apply (C4_expired_is_left_only_by_get_or_create
           (Examples.world (Examples.tables_R1 EXPIRED [1]) Examples.after_departure
              (Examples.seats 0) []) 1 (Examples.row_R1 EXPIRED));
    reflexivity.
Defined.

(** C4 as stated fails: a monitor request for the segment of an EXPIRED route
    puts that route back to MONITORING. *)
Lemma C4_counterexample :
  let w := Examples.world (Examples.tables_R1 EXPIRED [1]) Examples.after_departure
             (Examples.seats 0) [] in
  status <$> monitored_routes (tables w) !! 1 = Some EXPIRED /\
  status <$> monitored_routes
               (tables (snd (get_or_create_monitored_route Examples.request_R1 w))) !! 1 =
    Some MONITORING.
Proof.
  vm_compute. split; reflexivity.
Qed.

(** *** Restart *)

(** An availability check only adds to the log of upstream requests. *)
Lemma check_route_availability_world (route : RouteAttrs) (w : World) :
  let w1 := snd (check_route_availability route w) in
  tables w1 = tables w /\ env w1 = env w /\ clock w1 = clock w /\
  celery_queue w1 = celery_queue w /\ redis w1 = redis w.
Proof.
  unfold check_route_availability, _fetch_regiojet_api, client_get,
    raise_for_status, response_json.
  unfold_M. cbv beta zeta.
  destruct (String.eqb _ _); [destruct (a_id route); cbn; repeat split; reflexivity|].
  destruct (upstream w _) as [| |code body]; cbn; try (repeat split; reflexivity).
  destruct ((400 <=? code) && (code <=? 599)); cbn.
  { destruct (code =? 400); cbn; repeat split; reflexivity. }
  destruct body as [j|]; cbn; try (repeat split; reflexivity).
  destruct j; cbn; try (repeat split; reflexivity).
  destruct (gt_zero _) as [[|]|e]; cbn; try (repeat split; reflexivity).
  destruct e; cbn; try (repeat split; reflexivity).
  destruct (_ =? 404); cbn; repeat split; reflexivity.
Qed.

(** C8: a restart by a user without a subscription on the route is refused with
    403; with a subscription but a status other than FOUND it is refused with
    409; when the live check still finds seats the route stays FOUND and the
    answer says [restarted = False]; when the check reports no availability the
    route goes to MONITORING with [last_checked_at] set to now; and in no other
    case do the tables change. *)
Theorem C8_restart_monitoring_request (w : World) (id user : Z) (r : MonitoredRoute) :
  env w = [] ->
  monitored_routes (tables w) !! id = Some r ->
  let checked := check_route_availability (attrs_of_row id r) w in
  let answer := restart_monitoring_request id user w in
  (has_subscription user id (tables w) = false ->
   answer = (Raise (HTTPException 403), w)) /\
  (has_subscription user id (tables w) = true -> status r <> FOUND ->
   answer = (Raise (HTTPException 409), w)) /\
  (has_subscription user id (tables w) = true -> status r = FOUND ->
   forall d, fst checked = Ok (true, d) ->
     fst answer = Ok {| restart_status_code := 200; restarted := false;
                        restart_details := d |} /\
     tables (snd answer) = tables w) /\
  (has_subscription user id (tables w) = true -> status r = FOUND ->
   forall d, fst checked = Ok (false, d) ->
     fst answer = Ok {| restart_status_code := 200; restarted := true;
                        restart_details := None |} /\
     tables (snd answer) =
       set_monitored_routes
         (<[id := with_last_checked_at (Some {| instant := clock w; utcoffset := 0 |})
                    (with_status MONITORING r)]> (monitored_routes (tables w)))
         (tables w)) /\
  ((forall d, fst checked <> Ok (false, d)) -> tables (snd answer) = tables w).
Proof.
  intros Henv Hr checked answer. subst checked answer.
  pose proof (check_route_availability_world (attrs_of_row id r) w) as Hw.
  cbv zeta in Hw. destruct Hw as (Ht & He & Hc & _ & _).
  unfold restart_monitoring_request, get_monitored_route_by_id,
    get_user_subscription_for_route, update_route_status_and_last_checked, datetime_now.
  unfold_M. cbv beta.
  rewrite db_select_quiet by exact Henv. rewrite Hr.
  rewrite db_select_quiet by exact Henv.
  destruct (has_subscription user id (tables w)) eqn:Hsub.
  2:{ split; [reflexivity|]. split; [discriminate|]. split; [discriminate|].
      split; [discriminate|]. reflexivity. }
  split; [discriminate|].
  destruct (bool_decide (status r <> FOUND)) eqn:Hst.
  { apply bool_decide_eq_true_1 in Hst.
    split; [reflexivity|]. split; [intros _ Hf; contradiction|].
    split; [intros _ Hf; contradiction|]. reflexivity. }
  apply bool_decide_eq_false_1 in Hst.
  split; [intros _ Hf; contradiction|].
  destruct (check_route_availability (attrs_of_row id r) w) as [[[b d']|e] w1] eqn:Hchk;
    cbn [fst snd] in *.
  - destruct b.
    + split; [|split].
      * intros _ _ d Hd. injection Hd as ->. split; [reflexivity|exact Ht].
      * intros _ _ d Hd. discriminate Hd.
      * intros _. exact Ht.
    + rewrite db_commit_quiet by (rewrite He; exact Henv).
      unfold update_route. rewrite Ht, Hr. cbn [fst snd tables set_tables].
      split; [|split].
      * intros _ _ d Hd. discriminate Hd.
      * intros _ _ d Hd. rewrite Hc. split; reflexivity.
      * intros Hno. exfalso. apply (Hno d'). reflexivity.
  - split; [|split].
    + intros _ _ d Hd. discriminate Hd.
    + intros _ _ d Hd. discriminate Hd.
    + intros _. destruct e; cbn; exact Ht.
Qed.

Lemma C8_witness :
  let w := Examples.world (Examples.tables_R1 FOUND [1]) Examples.before_departure
             (Examples.seats 0) [] in
  let r := Examples.row_R1 FOUND in
  let checked := check_route_availability (attrs_of_row 1 r) w in
  let answer := restart_monitoring_request 1 1 w in
  (has_subscription 1 1 (tables w) = false ->
   answer = (Raise (HTTPException 403), w)) /\
  (has_subscription 1 1 (tables w) = true -> status r <> FOUND ->
   answer = (Raise (HTTPException 409), w)) /\
  (has_subscription 1 1 (tables w) = true -> status r = FOUND ->
   forall d, fst checked = Ok (true, d) ->
     fst answer = Ok {| restart_status_code := 200; restarted := false;
                        restart_details := d |} /\
     tables (snd answer) = tables w) /\
  (has_subscription 1 1 (tables w) = true -> status r = FOUND ->
   forall d, fst checked = Ok (false, d) ->
     fst answer = Ok {| restart_status_code := 200; restarted := true;
                        restart_details := None |} /\
     tables (snd answer) =
       set_monitored_routes
         (<[1 := with_last_checked_at (Some {| instant := clock w; utcoffset := 0 |})
                   (with_status MONITORING r)]> (monitored_routes (tables w)))
         (tables w)) /\
  ((forall d, fst checked <> Ok (false, d)) -> tables (snd answer) = tables w).
Proof.
  apply (C8_restart_monitoring_request
           (Examples.world (Examples.tables_R1 FOUND [1]) Examples.before_departure
              (Examples.seats 0) []) 1 1 (Examples.row_R1 FOUND));
    reflexivity.
Defined.

(** *** The sweeper *)

Lemma set_tables_same (w : World) : set_tables (tables w) w = w.
Proof. destruct w. reflexivity. Qed.

Lemma expire_route_sync_quiet (id : Z) (w : World) :
  env w = [] ->
  snd (expire_route_sync id w) =
  set_tables (set_monitored_routes
                (alter (with_status EXPIRED) id (monitored_routes (tables w))) (tables w)) w /\
  exists o, fst (expire_route_sync id w) = Ok o.
Proof.
  intros Henv. unfold expire_route_sync. unfold_M. cbv beta.
  rewrite db_select_quiet by exact Henv.
  destruct (monitored_routes (tables w) !! id) as [r|] eqn:Hr.
  - rewrite db_commit_quiet by exact Henv. unfold update_route. rewrite Hr.
    cbn [fst snd]. split; [|eauto].
    f_equal. f_equal. apply map_eq. intros k.
    rewrite lookup_alter, lookup_insert.
    destruct (decide (id = k)) as [->|]; [rewrite Hr|]; reflexivity.
  - cbn [fst snd]. split; [|eauto].
    assert (Ha : alter (with_status EXPIRED) id (monitored_routes (tables w)) =
                 monitored_routes (tables w)).
    { apply map_eq. intros k. rewrite lookup_alter.
      destruct (decide (id = k)) as [->|]; [rewrite Hr|]; reflexivity. }
    rewrite Ha, set_monitored_routes_same, set_tables_same. reflexivity.
Qed.

(** The loop of [expire_past_routes]. *)
Lemma expire_loop_quiet (l : list (Z * MonitoredRoute)) (w : World) :
  env w = [] ->
  for_each l (fun route => expire_route_sync route.1 ;;; ret tt) w =
  (Ok tt,
   set_tables (set_monitored_routes
                 (expire_all (l.*1) (monitored_routes (tables w))) (tables w)) w).
Proof.
  revert w. induction l as [|[id r] l IH]; intros w Henv.
  - cbn. rewrite set_monitored_routes_same, set_tables_same. reflexivity.
  - cbn [for_each]. unfold bind at 1. unfold bind at 1.
    destruct (expire_route_sync_quiet id w Henv) as [Hw [o Ho]].
    cbn [fst].
    destruct (expire_route_sync id w) as [res w1] eqn:E.
    cbn [fst snd] in *. subst res w1. unfold ret at 1.
    rewrite IH by exact Henv. reflexivity.
Qed.

Lemma expire_all_lookup (ids : list Z) (m : gmap Z MonitoredRoute) (k : Z) :
  expire_all ids m !! k =
  if bool_decide (k ∈ ids) then with_status EXPIRED <$> m !! k else m !! k.
Proof.
  revert m. induction ids as [|id ids IH]; intros m.
  - cbn. rewrite bool_decide_eq_false_2 by apply not_elem_of_nil. reflexivity.
  - cbn [expire_all foldl]. fold (expire_all ids (alter (with_status EXPIRED) id m)).
    rewrite IH, lookup_alter.
    destruct (decide (id = k)) as [->|Hne].
    + rewrite (bool_decide_eq_true_2 (k ∈ k :: ids)) by (apply elem_of_cons; left; reflexivity).
      destruct (bool_decide (k ∈ ids)); destruct (m !! k); reflexivity.
    + destruct (bool_decide (k ∈ ids)) eqn:Hin.
      * apply bool_decide_eq_true_1 in Hin.
        rewrite bool_decide_eq_true_2 by (apply elem_of_cons; right; exact Hin).
        reflexivity.
      * apply bool_decide_eq_false_1 in Hin.
        rewrite bool_decide_eq_false_2; [reflexivity|].
        intros [Heq|Hin']%elem_of_cons; [congruence|contradiction].
Qed.

(** The ids a sweep selects are those of the rows that are not EXPIRED and
    whose departure is before [now]. *)
Lemma swept_ids (m : gmap Z MonitoredRoute) (now : datetime) (id : Z) (r : MonitoredRoute) :
  m !! id = Some r ->
  id ∈ (map_to_list
          (filter (fun kr : Z * MonitoredRoute =>
                     status kr.2 <> EXPIRED /\
                     datetime_lt (departure_datetime kr.2) now = true) m)).*1 <->
  status r <> EXPIRED /\ datetime_lt (departure_datetime r) now = true.
Proof.
  intros Hr. rewrite list_elem_of_fmap. split.
  - intros [[k r'] [-> Hin]]. apply elem_of_map_to_list in Hin.
    apply map_lookup_filter_Some in Hin as [Hk HP]. cbn in *.
    rewrite Hr in Hk. injection Hk as <-. exact HP.
  - intros HP. exists (id, r). split; [reflexivity|].
    apply elem_of_map_to_list. apply map_lookup_filter_Some. split; [exact Hr|exact HP].
Qed.

Lemma bind_ok {A B} (m : M A) (k : A -> M B) (w w' : World) (a : A) :
  m w = (Ok a, w') -> bind m k w = k a w'.
Proof. intros H. unfold bind. rewrite H. reflexivity. Qed.

Lemma try_except_ok {A} (m : M A) (h : exn -> M A) (w w' : World) (a : A) :
  m w = (Ok a, w') -> try_except m h w = (Ok a, w').
Proof. intros H. unfold try_except. rewrite H. reflexivity. Qed.

(** A sweep as a function on the table. *)
Lemma expire_past_routes_quiet (w : World) :
  env w = [] ->
  expire_past_routes w =
  (Ok tt,
   set_tables
     (set_monitored_routes
        (expire_all
           ((map_to_list
               (filter (fun kr : Z * MonitoredRoute =>
                          status kr.2 <> EXPIRED /\
                          datetime_lt (departure_datetime kr.2)
                            {| instant := clock w; utcoffset := 0 |} = true)
                       (monitored_routes (tables w)))).*1)
           (monitored_routes (tables w)))
        (tables w)) w).
Proof.
  intros Henv. unfold expire_past_routes.
  apply try_except_ok.
  erewrite bind_ok; [|reflexivity].
  erewrite bind_ok; [|apply db_select_quiet; exact Henv].
  set (rows := map_to_list _).
  destruct rows as [|p rows'] eqn:Erows.
  - cbn. rewrite set_monitored_routes_same, set_tables_same. reflexivity.
  - apply expire_loop_quiet. exact Henv.
Qed.

(** C9: a sweep moves every route that is not EXPIRED and whose departure is
    strictly before now to EXPIRED, whatever its status was; it leaves an EXPIRED
    route and a route whose departure is not in the past as they are. *)
Theorem C9_sweep_expires_past_routes (w : World) (id : Z) (r : MonitoredRoute) :
  env w = [] ->
  monitored_routes (tables w) !! id = Some r ->
  let swept := monitored_routes (tables (snd (expire_past_routes w))) in
  (status r <> EXPIRED -> instant (departure_datetime r) < clock w ->
   swept !! id = Some (with_status EXPIRED r)) /\
  (status r = EXPIRED -> swept !! id = Some r) /\
  (clock w <= instant (departure_datetime r) -> swept !! id = Some r).
Proof.
  intros Henv Hr swept.
  assert (Hswept : swept !! id =
    if bool_decide (status r <> EXPIRED /\
                    datetime_lt (departure_datetime r)
                      {| instant := clock w; utcoffset := 0 |} = true)
    then Some (with_status EXPIRED r) else Some r).
  { subst swept. rewrite expire_past_routes_quiet by exact Henv.
    cbn [snd tables set_tables monitored_routes set_monitored_routes].
    rewrite expire_all_lookup, Hr.
    pose proof (swept_ids (monitored_routes (tables w))
                  {| instant := clock w; utcoffset := 0 |} id r Hr) as Hsel.
    destruct (bool_decide (id ∈ _)) eqn:Hin.
    - apply bool_decide_eq_true_1 in Hin. apply Hsel in Hin.
      rewrite bool_decide_eq_true_2 by exact Hin. reflexivity.
    - apply bool_decide_eq_false_1 in Hin.
      rewrite bool_decide_eq_false_2; [reflexivity|].
      intros HP. apply Hin, Hsel, HP. }
  rewrite Hswept. unfold datetime_lt. cbn [instant].
  split; [|split].
  - intros Hne Hlt. rewrite bool_decide_eq_true_2; [reflexivity|].
    split; [exact Hne|]. apply Z.ltb_lt. exact Hlt.
  - intros Hst. rewrite bool_decide_eq_false_2; [reflexivity|].
    intros [Hne _]. contradiction.
  - intros Hle. rewrite bool_decide_eq_false_2; [reflexivity|].
    intros [_ Hlt]. apply Z.ltb_lt in Hlt. lia.
Qed.

Lemma C9_witness :
  let w := Examples.world (Examples.tables_R1 FOUND [1]) Examples.after_departure
             (Examples.seats 0) [] in
  let r := Examples.row_R1 FOUND in
  let swept := monitored_routes (tables (snd (expire_past_routes w))) in
  (status r <> EXPIRED -> instant (departure_datetime r) < clock w ->
   swept !! 1 = Some (with_status EXPIRED r)) /\
  (status r = EXPIRED -> swept !! 1 = Some r) /\
  (clock w <= instant (departure_datetime r) -> swept !! 1 = Some r).
Proof.
  apply (C9_sweep_expires_past_routes
           (Examples.world (Examples.tables_R1 FOUND [1]) Examples.after_departure
              (Examples.seats 0) []) 1 (Examples.row_R1 FOUND));
    reflexivity.
Defined.

(** *** The per-route check unit *)

(** C10: when the route is missing or not in MONITORING at the time the unit
    reads it, the unit returns a skip status and leaves the world as it is: no
    request goes upstream, no task is queued, no row changes.  Hence a unit that
    sends a request, queues a notification or changes a row has read its route in
    MONITORING. *)
Theorem C10_check_single_route_skips (w : World) (id : Z) :
  env w = [] ->
  ((monitored_routes (tables w) !! id = None \/
    exists r, monitored_routes (tables w) !! id = Some r /\ status r <> MONITORING) ->
   exists skip,
     (skip = "NOT_FOUND_DB" \/ skip = "NOT_MONITORING") /\
     check_single_route id w =
       (Ok {| task_status := skip; task_details := None; task_error := None |}, w)) /\
  (let w' := snd (check_single_route id w) in
   fetch_log w' <> fetch_log w \/ celery_queue w' <> celery_queue w \/
   tables w' <> tables w ->
   exists r, monitored_routes (tables w) !! id = Some r /\ status r = MONITORING).
Proof.
  intros Henv.
  assert (Hskip :
    (monitored_routes (tables w) !! id = None \/
     exists r, monitored_routes (tables w) !! id = Some r /\ status r <> MONITORING) ->
    exists skip,
      (skip = "NOT_FOUND_DB" \/ skip = "NOT_MONITORING") /\
      check_single_route id w =
        (Ok {| task_status := skip; task_details := None; task_error := None |}, w)).
  { intros Hcase. unfold check_single_route.
    destruct Hcase as [Hnone | (r & Hr & Hst)].
    - exists "NOT_FOUND_DB". split; [left; reflexivity|].
      apply try_except_ok.
      erewrite bind_ok; [|apply db_select_quiet; exact Henv].
      rewrite Hnone. reflexivity.
    - exists "NOT_MONITORING". split; [right; reflexivity|].
      apply try_except_ok.
      erewrite bind_ok; [|apply db_select_quiet; exact Henv].
      rewrite Hr. rewrite bool_decide_eq_true_2 by exact Hst. reflexivity. }
  split; [exact Hskip|].
  intros w' Hchanged.
  destruct (monitored_routes (tables w) !! id) as [r|] eqn:Hr.
  - destruct (decide (status r = MONITORING)) as [Hm|Hm]; [eauto|].
    destruct Hskip as (skip & _ & Hrun); [right; eauto|].
    subst w'. rewrite Hrun in Hchanged. cbn in Hchanged.
    destruct Hchanged as [H|[H|H]]; contradiction.
  - destruct Hskip as (skip & _ & Hrun); [left; reflexivity|].
    subst w'. rewrite Hrun in Hchanged. cbn in Hchanged.
    destruct Hchanged as [H|[H|H]]; contradiction.
Qed.

Lemma C10_witness :
  let w := Examples.world (Examples.tables_R1 FOUND [1]) Examples.before_departure
             (Examples.seats 5) [] in
  ((monitored_routes (tables w) !! 1 = None \/
    exists r, monitored_routes (tables w) !! 1 = Some r /\ status r <> MONITORING) ->
   exists skip,
     (skip = "NOT_FOUND_DB" \/ skip = "NOT_MONITORING") /\
     check_single_route 1 w =
       (Ok {| task_status := skip; task_details := None; task_error := None |}, w)) /\
  (let w' := snd (check_single_route 1 w) in
   fetch_log w' <> fetch_log w \/ celery_queue w' <> celery_queue w \/
   tables w' <> tables w ->
   exists r, monitored_routes (tables w) !! 1 = Some r /\ status r = MONITORING).
Proof.
  apply (C10_check_single_route_skips
           (Examples.world (Examples.tables_R1 FOUND [1]) Examples.before_departure
              (Examples.seats 5) []) 1).
  reflexivity.
Defined.

(** *** The scheduler *)

Lemma set_celery_queue_same (w : World) : set_celery_queue (celery_queue w) w = w.
Proof. destruct w. reflexivity. Qed.

(** The dispatch loop of [schedule_route_checks]. *)
Lemma dispatch_loop (ids : list Z) (w : World) :
  for_each ids (fun route_id => delay (CheckSingleRoute route_id)) w =
  (Ok tt, set_celery_queue (celery_queue w ++ (CheckSingleRoute <$> ids))%list w).
Proof.
  revert w. induction ids as [|id ids IH]; intros w.
  - cbn. rewrite app_nil_r, set_celery_queue_same. reflexivity.
  - cbn [for_each]. erewrite bind_ok; [|reflexivity].
    rewrite IH. cbn. rewrite <- app_assoc. reflexivity.
Qed.

(** Stamping [last_checked_at] on rows that exist succeeds and changes no
    status. *)
Lemma touch_all_ok (ids : list Z) (now : datetime) (t : Tables) :
  (forall id, id ∈ ids -> is_Some (monitored_routes t !! id)) ->
  exists t',
    touch_all ids now t = Ok (tt, t') /\
    forall k, status <$> monitored_routes t' !! k = status <$> monitored_routes t !! k.
Proof.
  revert t. induction ids as [|id ids IH]; intros t Hall.
  - exists t. split; reflexivity.
  - destruct (Hall id) as [r Hr]; [apply elem_of_cons; left; reflexivity|].
    cbn [touch_all]. unfold update_route. rewrite Hr.
    set (t1 := set_monitored_routes _ t).
    assert (H1 : forall k, status <$> monitored_routes t1 !! k =
                           status <$> monitored_routes t !! k).
    { intros k. subst t1. cbn. rewrite lookup_insert.
      destruct (decide (id = k)) as [->|]; [rewrite Hr|]; reflexivity. }
    destruct (IH t1) as (t' & Ht' & Hst).
    { intros k Hk. apply fmap_is_Some with (f := status). rewrite H1.
      apply fmap_is_Some. apply Hall. apply elem_of_cons. right. exact Hk. }
    exists t'. split; [exact Ht'|].
    intros k. rewrite Hst. apply H1.
Qed.

(** C5, as amended: there is no lease.  A scheduler tick queues one check unit
    for every route that is MONITORING, whatever is already queued or running,
    and changes no status, so the next tick queues the same routes again; the
    only guard against a second MONITORING -> FOUND transition is the status
    test of [deactivate_route_sync], which leaves a route that is not MONITORING
    as it is. *)
Theorem C5_tick_queues_every_monitoring_route (w : World) :
  env w = [] ->
  let w' := snd (schedule_route_checks w) in
  celery_queue w' =
    (celery_queue w ++ (CheckSingleRoute <$> (monitoring_rows (tables w)).*1))%list /\
  (forall k, status <$> monitored_routes (tables w') !! k =
             status <$> monitored_routes (tables w) !! k) /\
  (forall id r, monitored_routes (tables w) !! id = Some r -> status r <> MONITORING ->
     deactivate_route_sync id w = (Ok (Some r), w)).
Proof.
  intros Henv w'. split; [|split].
  - subst w'. unfold schedule_route_checks.
    fold (monitoring_rows). unfold try_except.
    erewrite bind_ok; [|apply db_select_quiet; exact Henv].
    fold (monitoring_rows (tables w)).
    destruct (monitoring_rows (tables w)) as [|p rows] eqn:Erows.
    { cbn. rewrite app_nil_r. reflexivity. }
    rewrite <- Erows.
    erewrite bind_ok; [|reflexivity].
    destruct (touch_all_ok ((monitoring_rows (tables w)).*1)
                {| instant := clock w; utcoffset := 0 |} (tables w)) as (t' & Ht' & _).
    { intros id [[k r] [-> Hin]]%list_elem_of_fmap.
      apply elem_of_map_to_list, map_lookup_filter_Some in Hin as [Hk _].
      cbn. rewrite Hk. eauto. }
    erewrite bind_ok; [|rewrite db_commit_quiet by exact Henv; rewrite Ht'; reflexivity].
    rewrite dispatch_loop. reflexivity.
  - subst w'. unfold schedule_route_checks. unfold try_except.
    erewrite bind_ok; [|apply db_select_quiet; exact Henv].
    fold (monitoring_rows (tables w)).
    destruct (monitoring_rows (tables w)) as [|p rows] eqn:Erows.
    { reflexivity. }
    rewrite <- Erows.
    erewrite bind_ok; [|reflexivity].
    destruct (touch_all_ok ((monitoring_rows (tables w)).*1)
                {| instant := clock w; utcoffset := 0 |} (tables w)) as (t' & Ht' & Hst).
    { intros id [[k r] [-> Hin]]%list_elem_of_fmap.
      apply elem_of_map_to_list, map_lookup_filter_Some in Hin as [Hk _].
      cbn. rewrite Hk. eauto. }
    erewrite bind_ok; [|rewrite db_commit_quiet by exact Henv; rewrite Ht'; reflexivity].
    rewrite dispatch_loop. cbn. exact Hst.
  - intros id r Hr Hst. unfold deactivate_route_sync.
    erewrite bind_ok; [|apply db_select_quiet; exact Henv].
    rewrite Hr. rewrite bool_decide_eq_false_2 by exact Hst. reflexivity.
Qed.

Lemma C5_witness :
  let w := Examples.world (Examples.tables_R1 MONITORING [1]) Examples.before_departure
             (Examples.seats 5) [] in
  let w' := snd (schedule_route_checks w) in
  celery_queue w' =
    (celery_queue w ++ (CheckSingleRoute <$> (monitoring_rows (tables w)).*1))%list /\
  (forall k, status <$> monitored_routes (tables w') !! k =
             status <$> monitored_routes (tables w) !! k) /\
  (forall id r, monitored_routes (tables w) !! id = Some r -> status r <> MONITORING ->
     deactivate_route_sync id w = (Ok (Some r), w)).
Proof.
  apply (C5_tick_queues_every_monitoring_route
           (Examples.world (Examples.tables_R1 MONITORING [1]) Examples.before_departure
              (Examples.seats 5) [])).
  reflexivity.
Defined.

(** C5 as stated fails: two ticks in a row queue two check units for route 1.
    The second unit, run alone, finds seats, notifies the subscriber and marks
    the route FOUND.  The first unit, which read the route before that commit,
    also sends its request upstream and notifies the same subscriber again. *)
Lemma C5_counterexample :
  let w0 := Examples.world (Examples.tables_R1 MONITORING [1]) Examples.before_departure
              (Examples.seats 5) [] in
  let w2 := snd (schedule_route_checks (snd (schedule_route_checks w0))) in
  let start := set_celery_queue [] w2 in
  let second := check_single_route 1 start in
  let first :=
    check_single_route 1
      (set_env [Quiet; Interleave (committed_by start (check_single_route 1))] start) in
  let notified (q : list task) :=
    match q with
    | [SendNotificationEmail "alice@example.com" _ _ _] => True
    | _ => False
    end in
  celery_queue w2 = [CheckSingleRoute 1; CheckSingleRoute 1] /\
  length (fetch_log (snd second)) = 1%nat /\
  length (fetch_log (snd first)) = 1%nat /\
  notified (celery_queue (snd second)) /\
  notified (celery_queue (snd first)) /\
  status <$> monitored_routes (tables (snd second)) !! 1 = Some FOUND /\
  status <$> monitored_routes (tables (snd first)) !! 1 = Some FOUND.
Proof.
  vm_compute. repeat split; reflexivity.
Qed.

(** *** The location directory *)

(** Reading the cache never raises. *)
Lemma _get_locations_from_cache_total (w : World) :
  exists o, fst (_get_locations_from_cache w) = Ok o.
Proof.
  unfold _get_locations_from_cache, redis_get, round_trip. unfold_M. cbv beta.
  destruct (env w) as [|[| |f] e]; cbn; eauto.
  - destruct (redis w !! LOCATION_CACHE_KEY) as [[v x]|]; cbn; eauto.
    destruct (clock w <? x); cbn; eauto.
  - destruct (redis w !! LOCATION_CACHE_KEY) as [[v x]|]; cbn; eauto.
    destruct (clock w <? x); cbn; eauto.
  - destruct (redis w !! LOCATION_CACHE_KEY) as [[v x]|]; cbn; eauto.
    destruct (clock w <? x); cbn; eauto.
Qed.


(** C6, as amended: when the cache gives no valid directory and the refresh
    fails, [get_locations] raises an HTTP error; it has no earlier value to
    return and does not return an empty list. *)
Theorem C6_refresh_failure_raises normalize_text py_str (w : World) :
  fst (_get_locations_from_cache w) = Ok None ->
  refresh_fails normalize_text py_str (snd (_get_locations_from_cache w)) ->
  exists code, fst (get_locations normalize_text py_str w) = Raise (HTTPException code).
Proof.
  intros Hmiss Hfail. unfold get_locations.
  destruct (_get_locations_from_cache w) as [res w1] eqn:E.
  cbn [fst snd] in *. subst res.
  erewrite bind_ok; [|exact E].
  unfold refresh_fails in Hfail.
  unfold bind at 1. unfold try_except at 1.
  destruct (_fetch_regiojet_api "/consts/locations" [] [("X-Lang", "cs")] 10 w1)
    as [[api_data|e] w2] eqn:Ef; cbn [fst] in Hfail.
  2:{ destruct e; cbn; eauto. }
  unfold bind at 1. unfold try_except at 1. unfold lift at 1.
  destruct (_parse_locations_response normalize_text py_str api_data) as [parsed|e].
  2:{ destruct e; cbn; eauto. }
  unfold bind at 1. unfold try_except at 1. unfold lift at 1.
  destruct (validate_all parsed) as [locs|e]; [contradiction|].
  cbn. eauto.
Qed.

Lemma C6_witness :
  let w := Examples.world Examples.empty_tables Examples.before_departure Timeout [] in
  fst (_get_locations_from_cache w) = Ok None /\
  refresh_fails Examples.normalize_ascii_lower Examples.str_of
    (snd (_get_locations_from_cache w)) /\
  exists code,
    fst (get_locations Examples.normalize_ascii_lower Examples.str_of w) =
    Raise (HTTPException code).
Proof.
  split; [reflexivity|]. split; [exact I|].
  apply (C6_refresh_failure_raises Examples.normalize_ascii_lower Examples.str_of
           (Examples.world Examples.empty_tables Examples.before_departure Timeout [])).
  - reflexivity.
  - exact I.
Defined.

(** C6 as stated fails: a first call fetches the directory and caches it.  While
    the key lives, the cached directory is served even with the upstream down.
    A day and an hour later the key has expired and the upstream times out: the
    call raises [HTTPException(504)] instead of returning the directory cached
    before. *)
Lemma C6_counterexample :
  let get := get_locations Examples.normalize_ascii_lower Examples.str_of in
  let w0 := Examples.world Examples.empty_tables Examples.before_departure
              Examples.directory [] in
  let later (w : World) :=
    set_upstream (fun _ => Timeout)
      (set_clock (clock w + (settings.LOCATION_CACHE_TTL_SECONDS + 3600) * 1000000) w) in
  fst (get w0) = Ok [Examples.praha] /\
  fst (get (set_upstream (fun _ => Timeout) (snd (get w0)))) = Ok [Examples.praha] /\
  fst (get (later (snd (get w0)))) = Raise (HTTPException 504).
Proof.
  vm_compute. repeat split; reflexivity.
Qed.

(* ===================================================================== *)
(** ** Further properties of the code *)
(* ===================================================================== *)

(** *** The API client and the checker *)




(** X3: a monitor request whose [regiojet_route_id] is empty is answered with
    500: the checker's log line reads [route.id], which the temporary route
    object of the endpoint does not have.  Nothing is sent upstream and nothing
    is read from or written to the database. *)
Theorem monitor_request_without_route_id_answers_500
    (route_in : RouteMonitorRequest) (current_user : Z) (w : World) :
  rq_regiojet_route_id route_in = "" ->
  create_monitoring_request route_in current_user w = (Raise (HTTPException 500), w).
Proof.
  intros Hid. unfold create_monitoring_request, check_route_availability, TempRouteForCheck.
  cbn [a_regiojet_route_id a_id]. rewrite Hid. reflexivity.
Qed.

Lemma monitor_request_without_route_id_answers_500_witness :
  let route_in :=
    {| rq_from_location_id := "A"; rq_from_location_type := "STATION";
       rq_to_location_id := "B"; rq_to_location_type := "STATION";
       rq_departure_datetime := Examples.departure_R1; rq_arrival_datetime := None;
       rq_regiojet_route_id := "" |} in
  let w := Examples.world Examples.empty_tables Examples.before_departure
             (Examples.seats 5) [] in
  rq_regiojet_route_id route_in = "" /\
  create_monitoring_request route_in 1 w = (Raise (HTTPException 500), w).
Proof.
  split; [reflexivity|].
  apply (monitor_request_without_route_id_answers_500
           {| rq_from_location_id := "A"; rq_from_location_type := "STATION";
              rq_to_location_id := "B"; rq_to_location_type := "STATION";
              rq_departure_datetime := Examples.departure_R1; rq_arrival_datetime := None;
              rq_regiojet_route_id := "" |} 1
           (Examples.world Examples.empty_tables Examples.before_departure
              (Examples.seats 5) [])).
  reflexivity.
Defined.

(** *** The location directory: schema, cache and parser *)

(** X4: what [model_validate] accepts survives [model_dump] followed by
    [model_validate]: the cache gives back the locations that were stored. *)
Theorem location_dump_validate_round_trip (loc_data : json) (loc : Location) :
  model_validate loc_data = Ok loc ->
  model_validate (model_dump loc) = Ok loc.
Proof.
  unfold model_validate. intros H.
  destruct loc_data; try discriminate H.
  destruct (dict_get "id" d) as [[]|]; try discriminate H.
  destruct (dict_get "name" d) as [[]|]; try discriminate H.
  destruct (dict_get "type" d) as [[]|]; try discriminate H.
  destruct (dict_get "normalized_name" d) as [[]|]; try discriminate H.
  destruct (String.eqb s1 "CITY" || String.eqb s1 "STATION") eqn:Ht; try discriminate H.
  injection H as <-. cbn. rewrite Ht. reflexivity.
Qed.

Lemma location_dump_validate_round_trip_witness :
  model_validate (model_dump Examples.praha) = Ok Examples.praha /\
  model_validate (model_dump Examples.praha) = Ok Examples.praha.
Proof.
  split; [reflexivity|].
  apply (location_dump_validate_round_trip (model_dump Examples.praha) Examples.praha).
  reflexivity.
Defined.

Lemma validate_all_dump (locations : list Location) :
  Forall (fun loc => exists loc_data, model_validate loc_data = Ok loc) locations ->
  validate_all (map model_dump locations) = Ok locations.
Proof.
  induction 1 as [|loc locs [j Hj] _ IH]; [reflexivity|].
  cbn [map validate_all].
  rewrite (location_dump_validate_round_trip j loc Hj), IH. reflexivity.
Qed.

Lemma validate_all_Forall (l : list json) (locations : list Location) :
  validate_all l = Ok locations ->
  Forall (fun loc => exists loc_data, model_validate loc_data = Ok loc) locations.
Proof.
  revert locations. induction l as [|j l IH]; intros locations H; cbn in H.
  - injection H as <-. constructor.
  - destruct (model_validate j) as [loc|] eqn:Hj; [|discriminate H].
    destruct (validate_all l) as [locs|]; [|discriminate H].
    injection H as <-. constructor; [eauto|]. apply IH. reflexivity.
Qed.

(** The live value of a Redis key. *)
Lemma redis_get_quiet (key : string) (w : World) :
  env w = [] ->
  redis_get key w =
  (Ok match redis w !! key with
      | Some (v, expires_at) => if clock w <? expires_at then Some v else None
      | None => None
      end, w).
Proof.
  intros Henv. unfold redis_get, bind. rewrite round_trip_quiet by exact Henv.
  destruct (redis w !! key) as [[v x]|]; [destruct (clock w <? x)|]; reflexivity.
Qed.

Lemma _set_locations_to_cache_quiet (locations : list Location) (w : World) :
  env w = [] ->
  _set_locations_to_cache locations w =
  (Ok tt,
   set_redis (<[LOCATION_CACHE_KEY :=
                  (JsonText (JList (map model_dump locations)),
                   clock w + LOCATION_CACHE_TTL_SECONDS * 1000000)]> (redis w)) w).
Proof.
  intros Henv. unfold _set_locations_to_cache, redis_set, try_except, bind.
  rewrite round_trip_quiet by exact Henv. reflexivity.
Qed.

Lemma _get_locations_from_cache_quiet (w : World) :
  env w = [] ->
  _get_locations_from_cache w =
    (Ok (decode_cached_locations
           match redis w !! LOCATION_CACHE_KEY with
           | Some (v, expires_at) => if clock w <? expires_at then Some v else None
           | None => None
           end), w) /\
  _get_locations_from_cache_sync w = _get_locations_from_cache w.
Proof.
  intros Henv. unfold _get_locations_from_cache, _get_locations_from_cache_sync.
  unfold try_except, bind. rewrite redis_get_quiet by exact Henv.
  split; reflexivity.
Qed.

(** X5: a directory written by [_set_locations_to_cache] is read back, entry for
    entry, by [_get_locations_from_cache] at every instant before the key
    expires, and is gone from then on. *)
Theorem cached_locations_are_read_back_until_expiry
    (w : World) (l : list json) (locations : list Location) (later : Z) :
  env w = [] ->
  validate_all l = Ok locations ->
  let stored := snd (_set_locations_to_cache locations w) in
  let expiry := clock w + LOCATION_CACHE_TTL_SECONDS * 1000000 in
  (later < expiry ->
   fst (_get_locations_from_cache (set_clock later stored)) = Ok (Some locations) /\
   fst (_get_locations_from_cache_sync (set_clock later stored)) = Ok (Some locations)) /\
  (expiry <= later ->
   fst (_get_locations_from_cache (set_clock later stored)) = Ok None /\
   fst (_get_locations_from_cache_sync (set_clock later stored)) = Ok None).
Proof.
  intros Henv Hval stored expiry. subst stored expiry.
  apply validate_all_Forall, validate_all_dump in Hval.
  rewrite _set_locations_to_cache_quiet by exact Henv. cbn [snd].
  set (w1 := set_clock later _).
  assert (Henv1 : env w1 = []) by exact Henv.
  destruct (_get_locations_from_cache_quiet w1 Henv1) as [Hget Hsync].
  rewrite Hsync, Hget. subst w1. cbn [fst redis set_redis set_clock clock].
  rewrite lookup_insert_eq.
  split; intros Hlater.
  - assert (Hlt : (later <? clock w + LOCATION_CACHE_TTL_SECONDS * 1000000) = true)
      by (apply Z.ltb_lt; exact Hlater).
    rewrite Hlt. cbn [decode_cached_locations]. rewrite Hval. split; reflexivity.
  - assert (Hlt : (later <? clock w + LOCATION_CACHE_TTL_SECONDS * 1000000) = false)
      by (apply Z.ltb_ge; exact Hlater).
    rewrite Hlt. split; reflexivity.
Qed.

Lemma cached_locations_are_read_back_until_expiry_witness :
  let w := Examples.world Examples.empty_tables Examples.before_departure Timeout [] in
  let stored := snd (_set_locations_to_cache [Examples.praha] w) in
  let expiry := clock w + LOCATION_CACHE_TTL_SECONDS * 1000000 in
  let later := Examples.before_departure + 5 in
  (later < expiry ->
   fst (_get_locations_from_cache (set_clock later stored)) = Ok (Some [Examples.praha]) /\
   fst (_get_locations_from_cache_sync (set_clock later stored)) =
     Ok (Some [Examples.praha])) /\
  (expiry <= later ->
   fst (_get_locations_from_cache (set_clock later stored)) = Ok None /\
   fst (_get_locations_from_cache_sync (set_clock later stored)) = Ok None).
Proof.
  apply (cached_locations_are_read_back_until_expiry
           (Examples.world Examples.empty_tables Examples.before_departure Timeout [])
           [model_dump Examples.praha] [Examples.praha] (Examples.before_departure + 5)).
  - reflexivity.
  - reflexivity.
Defined.

Lemma validate_all_app (a b : list json) :
  validate_all (a ++ b) =
  match validate_all a with
  | Ok la =>
      match validate_all b with
      | Ok lb => Ok (la ++ lb)%list
      | Raise e => Raise e
      end
  | Raise e => Raise e
  end.
Proof.
  induction a as [|j a IH]; cbn.
  - destruct (validate_all b); reflexivity.
  - destruct (model_validate j); [|reflexivity].
    rewrite IH. destruct (validate_all a); [|reflexivity].
    destruct (validate_all b); reflexivity.
Qed.

Lemma all_validate_snoc (acc : list json) (entry : json) :
  all_validate acc -> (exists loc, model_validate entry = Ok loc) ->
  all_validate (acc ++ [entry]).
Proof.
  intros [locs Hl] [loc Hloc]. unfold all_validate.
  rewrite validate_all_app, Hl. cbn. rewrite Hloc. eauto.
Qed.

(** An entry the parser builds validates: the name passed [normalize_string],
    so it is text. *)
Lemma parsed_entry_validates normalize_text (name : json) (i t nn : string) :
  normalize_string normalize_text name = Ok nn ->
  is_none name = false ->
  t = "CITY" \/ t = "STATION" ->
  exists loc,
    model_validate (JDict [("id", JStr i); ("name", name); ("type", JStr t);
                           ("normalized_name", JStr nn)]) = Ok loc.
Proof.
  intros Hn Hnone Ht.
  destruct name; cbn in Hn, Hnone; try discriminate.
  destruct Ht as [-> | ->]; cbn; eauto.
Qed.

Lemma parse_stations_validate normalize_text py_str (l acc out : list json) :
  all_validate acc ->
  parse_stations normalize_text py_str l acc = Ok out ->
  all_validate out.
Proof.
  revert acc. induction l as [|station l IH]; intros acc Hacc H; cbn [parse_stations] in H.
  - injection H as <-. exact Hacc.
  - destruct station; try (eapply IH; [exact Hacc | exact H]).
    cbv zeta in H.
    destruct (negb (is_none (get "id" d)) &&
              negb (is_none (if truthy (get "fullname" d)
                             then get "fullname" d else get "name" d))) eqn:Hc;
      [|eapply IH; [exact Hacc | exact H]].
    apply andb_true_iff in Hc as [_ Hname]. apply negb_true_iff in Hname.
    destruct (normalize_string normalize_text _) as [nn|e] eqn:Hn; [|discriminate H].
    eapply IH; [|exact H].
    apply all_validate_snoc; [exact Hacc|].
    eapply parsed_entry_validates; [exact Hn | exact Hname | right; reflexivity].
Qed.

Lemma parse_cities_validate normalize_text py_str (l acc out : list json) :
  all_validate acc ->
  parse_cities normalize_text py_str l acc = Ok out ->
  all_validate out.
Proof.
  revert acc. induction l as [|city l IH]; intros acc Hacc H; cbn [parse_cities] in H.
  - injection H as <-. exact Hacc.
  - destruct city; try (eapply IH; [exact Hacc | exact H]).
    cbv zeta in H.
    destruct (negb (is_none (get "id" d)) && negb (is_none (get "name" d))) eqn:Hc;
      [|eapply IH; [exact Hacc | exact H]].
    apply andb_true_iff in Hc as [_ Hname]. apply negb_true_iff in Hname.
    destruct (normalize_string normalize_text (get "name" d)) as [nn|e] eqn:Hn;
      [|discriminate H].
    assert (Hacc' : all_validate
              (acc ++ [JDict [("id", JStr (py_str (get "id" d))); ("name", get "name" d);
                              ("type", JStr "CITY"); ("normalized_name", JStr nn)]])).
    { apply all_validate_snoc; [exact Hacc|].
      eapply parsed_entry_validates; [exact Hn | exact Hname | left; reflexivity]. }
    destruct (get_default "stations" (JList []) d);
      try (eapply IH; [exact Hacc' | exact H]).
    destruct (parse_stations normalize_text py_str l0 _) as [acc2|e] eqn:Hs;
      [|discriminate H].
    eapply IH; [|exact H].
    eapply parse_stations_validate; [exact Hacc' | exact Hs].
Qed.

Lemma parse_countries_validate normalize_text py_str (l acc out : list json) :
  all_validate acc ->
  parse_countries normalize_text py_str l acc = Ok out ->
  all_validate out.
Proof.
  revert acc. induction l as [|country l IH]; intros acc Hacc H;
    cbn [parse_countries] in H.
  - injection H as <-. exact Hacc.
  - destruct country; try (eapply IH; [exact Hacc | exact H]).
    destruct (get_default "cities" (JList []) d);
      try (eapply IH; [exact Hacc | exact H]).
    destruct (parse_cities normalize_text py_str l0 acc) as [acc2|e] eqn:Hs;
      [|discriminate H].
    eapply IH; [|exact H].
    eapply parse_cities_validate; [exact Hacc | exact Hs].
Qed.

(** X6: every entry [_parse_locations_response] returns is accepted by
    [Location.model_validate]; an answer that is not a list makes it raise
    [ParsingError]. *)
Theorem parsed_locations_always_validate normalize_text py_str (api_data : json) :
  (forall parsed,
     _parse_locations_response normalize_text py_str api_data = Ok parsed ->
     all_validate parsed) /\
  ((forall l, api_data <> JList l) ->
   _parse_locations_response normalize_text py_str api_data = Raise ParsingError).
Proof.
  split.
  - intros parsed H. unfold _parse_locations_response in H.
    destruct api_data; try discriminate H.
    eapply parse_countries_validate; [|exact H]. exists []. reflexivity.
  - intros Hl. destruct api_data; try reflexivity.
    exfalso. eapply Hl. reflexivity.
Qed.

Lemma parsed_locations_always_validate_witness :
  _parse_locations_response Examples.normalize_ascii_lower Examples.str_of
    (JList [JDict [("cities", JList [JDict [("id", JInt 7); ("name", JStr "brno")]])]]) =
    Ok [JDict [("id", JStr "7"); ("name", JStr "brno"); ("type", JStr "CITY");
               ("normalized_name", JStr "brno")]] /\
  all_validate [JDict [("id", JStr "7"); ("name", JStr "brno"); ("type", JStr "CITY");
                       ("normalized_name", JStr "brno")]].
Proof.
  split; [reflexivity|].
  apply (proj1 (parsed_locations_always_validate
                  Examples.normalize_ascii_lower Examples.str_of
                  (JList [JDict [("cities",
                                  JList [JDict [("id", JInt 7); ("name", JStr "brno")]])]]))).
  reflexivity.
Defined.

(** An answer with a JSON body and a status that is not 4xx/5xx is returned. *)
Lemma fetch_ok endpoint params headers timeout (w : World) (code : Z) (j : json) :
  upstream w {| url := REGIOJET_API_BASE_URL +:+ endpoint; params := params;
                headers := headers; timeout := timeout |} = Response code (Some j) ->
  ~ (400 <= code <= 599) ->
  _fetch_regiojet_api endpoint params headers timeout w =
  (Ok j, set_fetch_log ({| url := REGIOJET_API_BASE_URL +:+ endpoint; params := params;
                           headers := headers; timeout := timeout |} :: fetch_log w) w).
Proof.
  intros Hx Hc.
  unfold _fetch_regiojet_api, client_get, raise_for_status, response_json.
  unfold_M. cbv beta. rewrite Hx. cbn.
  assert (Hr : (400 <=? code) && (code <=? 599) = false).
  { apply andb_false_iff.
    destruct (Z.leb_spec 400 code); [|left; reflexivity].
    right. apply Z.leb_gt. lia. }
  rewrite Hr. reflexivity.
Qed.



(** X8: on a cache miss, an upstream answer that is not a list makes
    [get_locations] raise [HTTPException(502)]; the request was sent and the
    cache is left as it was. *)
Theorem directory_that_is_not_a_list_answers_502 normalize_text py_str
    (w : World) (code : Z) (api_data : json) :
  env w = [] ->
  fst (_get_locations_from_cache w) = Ok None ->
  upstream w locations_request = Response code (Some api_data) ->
  ~ (400 <= code <= 599) ->
  (forall l, api_data <> JList l) ->
  get_locations normalize_text py_str w =
  (Raise (HTTPException 502), set_fetch_log (locations_request :: fetch_log w) w).
Proof.
  intros Henv Hmiss Hx Hc Hl.
  destruct (_get_locations_from_cache_quiet w Henv) as [Hget _].
  rewrite Hget in Hmiss. cbn [fst] in Hmiss. injection Hmiss as Hmiss.
  unfold get_locations.
  erewrite bind_ok; [|rewrite Hget, Hmiss; reflexivity].
  cbv beta iota.
  erewrite bind_ok;
    [|apply try_except_ok; apply (fetch_ok _ _ _ _ _ _ _ Hx Hc)].
  unfold bind at 1. unfold try_except at 1. unfold lift.
  destruct api_data; try reflexivity.
  exfalso. eapply Hl. reflexivity.
Qed.

Lemma directory_that_is_not_a_list_answers_502_witness :
  let w := Examples.world Examples.empty_tables Examples.before_departure
             (Response 200 (Some (JDict [("message", JStr "maintenance")]))) [] in
  get_locations Examples.normalize_ascii_lower Examples.str_of w =
  (Raise (HTTPException 502), set_fetch_log (locations_request :: fetch_log w) w).
Proof.
  apply (directory_that_is_not_a_list_answers_502
           Examples.normalize_ascii_lower Examples.str_of
           (Examples.world Examples.empty_tables Examples.before_departure
              (Response 200 (Some (JDict [("message", JStr "maintenance")]))) [])
           200 (JDict [("message", JStr "maintenance")])).
  - reflexivity.
  - reflexivity.
  - reflexivity.
  - lia.
  - discriminate.
Defined.

(** *** Subscriptions *)

Lemma set_user_route_subscriptions_same (t : Tables) :
  set_user_route_subscriptions (user_route_subscriptions t) t = t.
Proof. destruct t. reflexivity. Qed.

Lemma has_subscription_true (user_id route_id : Z) (t : Tables) :
  has_subscription user_id route_id t = true <->
  (user_id, route_id) ∈ user_route_subscriptions t.
Proof. unfold has_subscription. apply bool_decide_eq_true. Qed.

Lemma has_subscription_false (user_id route_id : Z) (t : Tables) :
  has_subscription user_id route_id t = false <->
  (user_id, route_id) ∉ user_route_subscriptions t.
Proof. unfold has_subscription. apply bool_decide_eq_false. Qed.

(** X9: subscribing an existing user to an existing route returns the
    subscription and adds exactly that row when it is not there yet; subscribing
    again returns it and changes nothing. *)
Theorem create_user_subscription_is_idempotent (w : World) (user_id route_id : Z) :
  env w = [] ->
  is_Some (users (tables w) !! user_id) ->
  is_Some (monitored_routes (tables w) !! route_id) ->
  let first := create_user_subscription user_id route_id w in
  fst first = Ok (user_id, route_id) /\
  user_route_subscriptions (tables (snd first)) =
    {[ (user_id, route_id) ]} ∪ user_route_subscriptions (tables w) /\
  monitored_routes (tables (snd first)) = monitored_routes (tables w) /\
  create_user_subscription user_id route_id (snd first) =
    (Ok (user_id, route_id), snd first).
Proof.
  intros Henv Hu Hr first. subst first.
  assert (Hagain : forall w1, env w1 = [] ->
            has_subscription user_id route_id (tables w1) = true ->
            create_user_subscription user_id route_id w1 = (Ok (user_id, route_id), w1)).
  { intros w1 He Hs. unfold create_user_subscription.
    erewrite bind_ok; [|apply db_select_quiet; exact He]. rewrite Hs. reflexivity. }
  destruct (has_subscription user_id route_id (tables w)) eqn:Hsub.
  - rewrite (Hagain w Henv Hsub). cbn [fst snd].
    split; [reflexivity|]. split; [|split; [reflexivity|apply Hagain; assumption]].
    apply has_subscription_true in Hsub.
    apply set_eq. intros p. rewrite elem_of_union, elem_of_singleton.
    split; [auto|]. intros [->|Hp]; assumption.
  - assert (Hrun : create_user_subscription user_id route_id w =
      (Ok (user_id, route_id),
       set_tables (set_user_route_subscriptions
                     ({[ (user_id, route_id) ]} ∪ user_route_subscriptions (tables w))
                     (tables w)) w)).
    { unfold create_user_subscription.
      erewrite bind_ok; [|apply db_select_quiet; exact Henv]. rewrite Hsub.
      apply try_except_ok. rewrite db_commit_quiet by exact Henv.
      unfold insert_subscription. rewrite Hsub.
      rewrite !bool_decide_eq_true_2 by assumption. reflexivity. }
    rewrite Hrun. cbn [fst snd tables set_tables user_route_subscriptions
                       set_user_route_subscriptions monitored_routes].
    split; [reflexivity|]. split; [reflexivity|]. split; [reflexivity|].
    apply Hagain; [exact Henv|].
    apply has_subscription_true. cbn.
    apply elem_of_union. left. apply elem_of_singleton. reflexivity.
Qed.

Lemma create_user_subscription_is_idempotent_witness :
  let w := Examples.world (Examples.tables_R1 MONITORING []) Examples.before_departure
             (Examples.seats 0) [] in
  let first := create_user_subscription 2 1 w in
  fst first = Ok (2, 1) /\
  user_route_subscriptions (tables (snd first)) =
    {[ (2, 1) ]} ∪ user_route_subscriptions (tables w) /\
  monitored_routes (tables (snd first)) = monitored_routes (tables w) /\
  create_user_subscription 2 1 (snd first) = (Ok (2, 1), snd first).
Proof.
  apply (create_user_subscription_is_idempotent
           (Examples.world (Examples.tables_R1 MONITORING []) Examples.before_departure
              (Examples.seats 0) []) 2 1).
  - reflexivity.
  - exists Examples.bob. reflexivity.
  - exists (Examples.row_R1 MONITORING). reflexivity.
Defined.

(** X10: when another session commits the same subscription between the select
    and the insert, [create_user_subscription] does not raise: the insert fails,
    the subscription is read again and returned, and the tables are those the
    other session left. *)
Theorem create_user_subscription_tolerates_concurrent_insert
    (w : World) (user_id route_id : Z) (other : Tables -> Tables) :
  env w = [Quiet; Interleave other] ->
  has_subscription user_id route_id (tables w) = false ->
  has_subscription user_id route_id (other (tables w)) = true ->
  create_user_subscription user_id route_id w =
  (Ok (user_id, route_id), set_env [] (set_tables (other (tables w)) w)).
Proof.
  intros Henv Hsub Hother. unfold create_user_subscription.
  erewrite bind_ok.
  2:{ unfold db_select. erewrite bind_ok; [|apply round_trip_step; exact Henv].
      reflexivity. }
  cbn [tables set_env]. rewrite Hsub.
  unfold try_except, db_commit, bind, round_trip.
  cbn [env set_env tables set_tables].
  unfold insert_subscription. rewrite Hother. cbn [negb andb].
  unfold db_select, bind, round_trip. cbn [env set_env tables set_tables].
  rewrite Hother. reflexivity.
Qed.

Lemma create_user_subscription_tolerates_concurrent_insert_witness :
  let base := Examples.world (Examples.tables_R1 MONITORING []) Examples.before_departure
                (Examples.seats 0) [] in
  let other := committed_by base (create_user_subscription 1 1) in
  let w := set_env [Quiet; Interleave other] base in
  create_user_subscription 1 1 w =
  (Ok (1, 1), set_env [] (set_tables (other (tables w)) w)).
Proof.
  apply (create_user_subscription_tolerates_concurrent_insert
           (set_env [Quiet; Interleave
                       (committed_by
                          (Examples.world (Examples.tables_R1 MONITORING [])
                             Examples.before_departure (Examples.seats 0) [])
                          (create_user_subscription 1 1))]
              (Examples.world (Examples.tables_R1 MONITORING [])
                 Examples.before_departure (Examples.seats 0) []))
           1 1 _).
  - reflexivity.
  - reflexivity.
  - vm_compute. reflexivity.
Defined.

(** X11: a subscription to a route that does not exist is refused: the insert
    violates the foreign key, the second read finds nothing, and the
    [IntegrityError] is raised again; the tables are unchanged. *)
Theorem create_user_subscription_without_route_raises
    (w : World) (user_id route_id : Z) :
  env w = [] ->
  has_subscription user_id route_id (tables w) = false ->
  monitored_routes (tables w) !! route_id = None ->
  create_user_subscription user_id route_id w = (Raise IntegrityError, w).
Proof.
  intros Henv Hsub Hr. unfold create_user_subscription.
  erewrite bind_ok; [|apply db_select_quiet; exact Henv]. rewrite Hsub.
  unfold try_except. rewrite db_commit_quiet by exact Henv.
  unfold insert_subscription. rewrite Hsub, Hr.
  rewrite (bool_decide_eq_false_2 (is_Some None)) by (intros [x Hx]; discriminate Hx).
  rewrite andb_false_r.
  erewrite bind_ok; [|apply db_select_quiet; exact Henv]. rewrite Hsub. reflexivity.
Qed.

Lemma create_user_subscription_without_route_raises_witness :
  let w := Examples.world Examples.empty_tables Examples.before_departure
             (Examples.seats 0) [] in
  create_user_subscription 1 7 w = (Raise IntegrityError, w).
Proof.
  apply (create_user_subscription_without_route_raises
           (Examples.world Examples.empty_tables Examples.before_departure
              (Examples.seats 0) []) 1 7);
    reflexivity.
Defined.

(** *** Routes *)

Lemma same_segment_new_row (route_in : RouteMonitorRequest) :
  same_segment (rq_regiojet_route_id route_in) (rq_from_location_id route_in)
    (rq_to_location_id route_in) (new_row route_in) = true.
Proof. unfold same_segment. cbn. rewrite !String.eqb_refl. reflexivity. Qed.

(** The first monitor request for a segment inserts its row under the next id. *)
Lemma get_or_create_inserts (route_in : RouteMonitorRequest) (w : World) :
  env w = [] ->
  select_segment route_in (tables w) = [] ->
  monitored_routes (tables w) !! route_id_seq (tables w) = None ->
  get_or_create_monitored_route route_in w =
  (Ok (route_id_seq (tables w), new_row route_in),
   set_tables
     {| monitored_routes :=
          <[route_id_seq (tables w) := new_row route_in]> (monitored_routes (tables w));
        user_route_subscriptions := user_route_subscriptions (tables w);
        users := users (tables w);
        route_id_seq := route_id_seq (tables w) + 1 |} w).
Proof.
  intros Henv Hsel Hfresh. unfold get_or_create_monitored_route.
  erewrite bind_ok; [|apply db_select_quiet; exact Henv]. rewrite Hsel.
  erewrite bind_ok; [|reflexivity]. cbv beta iota.
  unfold _create_monitored_route_internal. fold (new_row route_in).
  rewrite db_commit_quiet by exact Henv.
  unfold insert_monitored_route.
  rewrite (bool_decide_eq_true_2 _ Hfresh).
  unfold select_segment in Hsel. apply map_to_list_empty_iff in Hsel.
  cbn [regiojet_route_id from_location_id to_location_id new_row].
  rewrite (bool_decide_eq_true_2 _ Hsel). reflexivity.
Qed.

(** A request for a segment whose only row is in MONITORING returns that row. *)
Lemma get_or_create_returns_existing (route_in : RouteMonitorRequest) (w : World)
    (id : Z) (r : MonitoredRoute) :
  env w = [] ->
  select_segment route_in (tables w) = [(id, r)] ->
  status r = MONITORING ->
  get_or_create_monitored_route route_in w = (Ok (id, r), w).
Proof.
  intros Henv Hsel Hst. unfold get_or_create_monitored_route.
  erewrite bind_ok; [|apply db_select_quiet; exact Henv]. rewrite Hsel.
  erewrite bind_ok; [|reflexivity]. cbv beta iota.
  rewrite bool_decide_eq_false_2 by (intros Hne; apply Hne; exact Hst).
  reflexivity.
Qed.

(** X12: the first monitor request for a new segment stores one row, in
    MONITORING, under the next id of the serial, and leaves the other rows as
    they are; the same request again returns that row and changes nothing. *)
Theorem get_or_create_creates_once (route_in : RouteMonitorRequest) (w : World) :
  env w = [] ->
  select_segment route_in (tables w) = [] ->
  monitored_routes (tables w) !! route_id_seq (tables w) = None ->
  let id := route_id_seq (tables w) in
  let first := get_or_create_monitored_route route_in w in
  fst first = Ok (id, new_row route_in) /\
  monitored_routes (tables (snd first)) =
    <[id := new_row route_in]> (monitored_routes (tables w)) /\
  select_segment route_in (tables (snd first)) = [(id, new_row route_in)] /\
  get_or_create_monitored_route route_in (snd first) =
    (Ok (id, new_row route_in), snd first).
Proof.
  intros Henv Hsel Hfresh id first. subst id first.
  rewrite (get_or_create_inserts route_in w Henv Hsel Hfresh). cbn [fst snd].
  set (w1 := set_tables _ w).
  assert (Hsel1 : select_segment route_in (tables w1) =
                  [(route_id_seq (tables w), new_row route_in)]).
  { subst w1. unfold select_segment in *. cbn [tables set_tables monitored_routes].
    apply map_to_list_empty_iff in Hsel.
    rewrite map_filter_insert_True by apply same_segment_new_row.
    rewrite Hsel, insert_empty. apply map_to_list_singleton. }
  split; [reflexivity|]. split; [reflexivity|]. split; [exact Hsel1|].
  apply get_or_create_returns_existing; [exact Henv | exact Hsel1 | reflexivity].
Qed.

Lemma get_or_create_creates_once_witness :
  let w := Examples.world Examples.empty_tables Examples.before_departure
             (Examples.seats 0) [] in
  let route_in := Examples.request_R1 in
  let id := route_id_seq (tables w) in
  let first := get_or_create_monitored_route route_in w in
  fst first = Ok (id, new_row route_in) /\
  monitored_routes (tables (snd first)) =
    <[id := new_row route_in]> (monitored_routes (tables w)) /\
  select_segment route_in (tables (snd first)) = [(id, new_row route_in)] /\
  get_or_create_monitored_route route_in (snd first) =
    (Ok (id, new_row route_in), snd first).
Proof.
  apply (get_or_create_creates_once Examples.request_R1
           (Examples.world Examples.empty_tables Examples.before_departure
              (Examples.seats 0) []));
    reflexivity.
Defined.

(** X13: [deactivate_route_sync] moves a MONITORING route to FOUND and touches
    no other row; a second call returns the FOUND row and changes nothing, and a
    route that does not exist gives [None]. *)
Theorem deactivate_route_sync_marks_found_once (w : World) (id : Z) :
  env w = [] ->
  (forall r, monitored_routes (tables w) !! id = Some r -> status r = MONITORING ->
     let first := deactivate_route_sync id w in
     fst first = Ok (Some (with_status FOUND r)) /\
     monitored_routes (tables (snd first)) =
       <[id := with_status FOUND r]> (monitored_routes (tables w)) /\
     deactivate_route_sync id (snd first) = (Ok (Some (with_status FOUND r)), snd first)) /\
  (monitored_routes (tables w) !! id = None ->
   deactivate_route_sync id w = (Ok None, w)).
Proof.
  intros Henv. split.
  - intros r Hr Hst first. subst first.
    assert (Hrun : deactivate_route_sync id w =
      (Ok (Some (with_status FOUND r)),
       set_tables (set_monitored_routes
                     (<[id := with_status FOUND r]> (monitored_routes (tables w)))
                     (tables w)) w)).
    { unfold deactivate_route_sync.
      erewrite bind_ok; [|apply db_select_quiet; exact Henv]. rewrite Hr.
      rewrite bool_decide_eq_true_2 by exact Hst.
      apply try_except_ok. erewrite bind_ok; [reflexivity|].
      rewrite db_commit_quiet by exact Henv. unfold update_route. rewrite Hr.
      reflexivity. }
    rewrite Hrun. cbn [fst snd tables set_tables monitored_routes set_monitored_routes].
    split; [reflexivity|]. split; [reflexivity|].
    unfold deactivate_route_sync.
    erewrite bind_ok; [|apply db_select_quiet; exact Henv].
    cbn [tables set_tables monitored_routes set_monitored_routes].
    rewrite lookup_insert_eq. reflexivity.
  - intros Hr. unfold deactivate_route_sync.
    erewrite bind_ok; [|apply db_select_quiet; exact Henv]. rewrite Hr. reflexivity.
Qed.

Lemma deactivate_route_sync_marks_found_once_witness :
  let w := Examples.world (Examples.tables_R1 MONITORING [1]) Examples.before_departure
             (Examples.seats 5) [] in
  (forall r, monitored_routes (tables w) !! 1 = Some r -> status r = MONITORING ->
     let first := deactivate_route_sync 1 w in
     fst first = Ok (Some (with_status FOUND r)) /\
     monitored_routes (tables (snd first)) =
       <[1 := with_status FOUND r]> (monitored_routes (tables w)) /\
     deactivate_route_sync 1 (snd first) = (Ok (Some (with_status FOUND r)), snd first)) /\
  (monitored_routes (tables w) !! 1 = None ->
   deactivate_route_sync 1 w = (Ok None, w)).
Proof.
  apply (deactivate_route_sync_marks_found_once
           (Examples.world (Examples.tables_R1 MONITORING [1]) Examples.before_departure
              (Examples.seats 5) []) 1).
  reflexivity.
Defined.

(** *** The sweeper, again, and cancellation *)

(** X14: a sweep deletes nothing: it keeps every route id, every subscription
    and every user; and a second sweep at the same instant changes nothing. *)
Theorem sweep_keeps_rows_and_is_idempotent (w : World) :
  env w = [] ->
  let swept := snd (expire_past_routes w) in
  dom (monitored_routes (tables swept)) = dom (monitored_routes (tables w)) /\
  user_route_subscriptions (tables swept) = user_route_subscriptions (tables w) /\
  users (tables swept) = users (tables w) /\
  expire_past_routes swept = (Ok tt, swept).
Proof.
  intros Henv swept. subst swept.
  rewrite (expire_past_routes_quiet w Henv). cbn [snd].
  set (now := {| instant := clock w; utcoffset := 0 |}).
  set (m := monitored_routes (tables w)).
  set (ids := (map_to_list _).*1).
  set (w1 := set_tables _ w).
  assert (Hm1 : monitored_routes (tables w1) = expire_all ids m) by reflexivity.
  split; [|split; [reflexivity|split; [reflexivity|]]].
  - rewrite Hm1. apply set_eq. intros k. rewrite !elem_of_dom, expire_all_lookup.
    destruct (bool_decide (k ∈ ids)); [|reflexivity].
    rewrite fmap_is_Some. reflexivity.
  - assert (Henv1 : env w1 = []) by exact Henv.
    rewrite (expire_past_routes_quiet w1 Henv1).
    assert (Hclock : clock w1 = clock w) by reflexivity.
    rewrite Hclock. fold now. rewrite Hm1.
    set (ids1 := (map_to_list _).*1).
    assert (Hsame : expire_all ids1 (expire_all ids m) = expire_all ids m).
    { apply map_eq. intros k. rewrite (expire_all_lookup ids1).
      destruct (bool_decide (k ∈ ids1)) eqn:Hin; [|reflexivity].
      exfalso. apply bool_decide_eq_true_1 in Hin.
      destruct (expire_all ids m !! k) as [r1|] eqn:Hr1.
      - pose proof (proj1 (swept_ids (expire_all ids m) now k r1 Hr1) Hin) as [Hne Hpast].
        rewrite expire_all_lookup in Hr1.
        destruct (bool_decide (k ∈ ids)) eqn:Hin0.
        + destruct (m !! k) as [r|]; [|discriminate Hr1].
          injection Hr1 as <-. apply Hne. reflexivity.
        + apply bool_decide_eq_false_1 in Hin0. apply Hin0.
          apply (swept_ids m now k r1 Hr1). split; assumption.
      - subst ids1. apply list_elem_of_fmap in Hin as [[k' r'] [-> Hin]].
        apply elem_of_map_to_list, map_lookup_filter_Some in Hin as [Hk _].
        cbn in Hr1. rewrite Hr1 in Hk. discriminate Hk. }
    rewrite Hsame, <- Hm1, set_monitored_routes_same, set_tables_same. reflexivity.
Qed.

Lemma sweep_keeps_rows_and_is_idempotent_witness :
  let w := Examples.world (Examples.tables_R1 FOUND [1]) Examples.after_departure
             (Examples.seats 0) [] in
  let swept := snd (expire_past_routes w) in
  dom (monitored_routes (tables swept)) = dom (monitored_routes (tables w)) /\
  user_route_subscriptions (tables swept) = user_route_subscriptions (tables w) /\
  users (tables swept) = users (tables w) /\
  expire_past_routes swept = (Ok tt, swept).
Proof.
  apply (sweep_keeps_rows_and_is_idempotent
           (Examples.world (Examples.tables_R1 FOUND [1]) Examples.after_departure
              (Examples.seats 0) [])).
  reflexivity.
Defined.

(** A cancellation when the database answers every statement. *)
Lemma cancel_quiet (w : World) (user_id route_id : Z) :
  env w = [] ->
  has_subscription user_id route_id (tables w) = true ->
  cancel_monitoring_request route_id user_id w =
  (Ok 204, set_tables (after_cancel user_id route_id (tables w)) w).
Proof.
  intros Henv Hsub.
  unfold cancel_monitoring_request, delete_user_subscription,
    count_subscriptions_for_route, delete_monitored_route.
  apply try_except_ok.
  erewrite bind_ok; [|rewrite db_commit_quiet by exact Henv; reflexivity].
  rewrite Hsub. cbn [Z.ltb Z.compare negb].
  erewrite bind_ok; [|apply db_select_quiet; exact Henv].
  unfold after_cancel, remaining_subscribers, without_subscription.
  cbn [tables set_tables user_route_subscriptions set_user_route_subscriptions].
  destruct (Z.of_nat _ =? 0).
  - erewrite bind_ok.
    2:{ erewrite bind_ok; [reflexivity|].
        rewrite db_commit_quiet by exact Henv. reflexivity. }
    reflexivity.
  - reflexivity.
Qed.

(** X15: cancelling a subscription that does not exist is answered with 404 and
    changes nothing. *)
Theorem cancel_without_subscription_answers_404 (w : World) (user_id route_id : Z) :
  env w = [] ->
  has_subscription user_id route_id (tables w) = false ->
  cancel_monitoring_request route_id user_id w = (Raise (HTTPException 404), w).
Proof.
  intros Henv Hsub.
  unfold cancel_monitoring_request, delete_user_subscription.
  unfold try_except.
  erewrite bind_ok; [|rewrite db_commit_quiet by exact Henv; reflexivity].
  rewrite Hsub. cbn [Z.ltb Z.compare negb raise].
  apply has_subscription_false in Hsub.
  assert (Hd : user_route_subscriptions (tables w) ∖ {[ (user_id, route_id) ]} =
               user_route_subscriptions (tables w)).
  { apply set_eq. intros p. rewrite elem_of_difference, elem_of_singleton.
    split; [intros [Hp _]; exact Hp|]. intros Hp. split; [exact Hp|].
    intros ->. contradiction. }
  rewrite Hd, set_user_route_subscriptions_same, set_tables_same. reflexivity.
Qed.

Lemma cancel_without_subscription_answers_404_witness :
  let w := Examples.world (Examples.tables_R1 MONITORING [1]) Examples.before_departure
             (Examples.seats 0) [] in
  cancel_monitoring_request 1 2 w = (Raise (HTTPException 404), w).
Proof.
  apply (cancel_without_subscription_answers_404
           (Examples.world (Examples.tables_R1 MONITORING [1]) Examples.before_departure
              (Examples.seats 0) []) 2 1);
    reflexivity.
Defined.

(** X16: a cancellation removes the caller's subscription and no other.  While
    another user is subscribed to the route, the routes are untouched; when the
    caller was the only subscriber, the route is deleted and nothing else. *)
Theorem cancel_deletes_route_with_last_subscriber (w : World) (user_id route_id : Z) :
  env w = [] ->
  has_subscription user_id route_id (tables w) = true ->
  let run := cancel_monitoring_request route_id user_id w in
  fst run = Ok 204 /\
  user_route_subscriptions (tables (snd run)) =
    user_route_subscriptions (tables w) ∖ {[ (user_id, route_id) ]} /\
  ((exists other, other <> user_id /\
      (other, route_id) ∈ user_route_subscriptions (tables w)) ->
   monitored_routes (tables (snd run)) = monitored_routes (tables w)) /\
  ((forall other, (other, route_id) ∈ user_route_subscriptions (tables w) ->
      other = user_id) ->
   monitored_routes (tables (snd run)) = delete route_id (monitored_routes (tables w))).
Proof.
  intros Henv Hsub run. subst run.
  rewrite (cancel_quiet w user_id route_id Henv Hsub). cbn [fst snd tables set_tables].
  split; [reflexivity|].
  unfold after_cancel, remaining_subscribers, without_subscription.
  cbn [user_route_subscriptions set_user_route_subscriptions].
  set (subs := user_route_subscriptions (tables w)).
  set (left := filter _ (subs ∖ {[ (user_id, route_id) ]})).
  destruct (Z.of_nat (size left) =? 0) eqn:Hz.
  - assert (Hempty : left = ∅).
    { apply Z.eqb_eq in Hz. apply leibniz_equiv, size_empty_iff. lia. }
    split; [|split].
    + cbn. apply set_eq. intros [u r].
      rewrite elem_of_filter. cbn. split; [intros [_ Hp]; exact Hp|].
      intros Hp. split; [|exact Hp]. intros ->.
      assert (Hin : (u, route_id) ∈ left).
      { subst left. apply elem_of_filter. split; [reflexivity|exact Hp]. }
      rewrite Hempty in Hin. apply elem_of_empty in Hin. exact Hin.
    + intros (other & Hne & Hin). exfalso.
      assert (Hin' : (other, route_id) ∈ left).
      { subst left. apply elem_of_filter. split; [reflexivity|].
        apply elem_of_difference. split; [exact Hin|].
        intros Heq%elem_of_singleton. injection Heq as Heq. contradiction. }
      rewrite Hempty in Hin'. apply elem_of_empty in Hin'. exact Hin'.
    + intros _. reflexivity.
  - split; [reflexivity|]. split; [intros _; reflexivity|].
    intros Honly. exfalso. apply Z.eqb_neq in Hz.
    assert (Hempty : left = ∅).
    { apply set_eq. intros [u r]. subst left.
      rewrite elem_of_filter, elem_of_difference, elem_of_singleton. cbn.
      split; [|intros Hf; apply elem_of_empty in Hf; contradiction].
      intros (-> & Hin & Hne). exfalso. apply Hne.
      rewrite (Honly u Hin). reflexivity. }
    rewrite Hempty, size_empty in Hz. apply Hz. reflexivity.
Qed.

Lemma cancel_deletes_route_with_last_subscriber_witness :
  let w := Examples.world (Examples.tables_R1 MONITORING [1; 2]) Examples.before_departure
             (Examples.seats 0) [] in
  let run := cancel_monitoring_request 1 1 w in
  fst run = Ok 204 /\
  user_route_subscriptions (tables (snd run)) =
    user_route_subscriptions (tables w) ∖ {[ (1, 1) ]} /\
  ((exists other, other <> 1 /\
      (other, 1) ∈ user_route_subscriptions (tables w)) ->
   monitored_routes (tables (snd run)) = monitored_routes (tables w)) /\
  ((forall other, (other, 1) ∈ user_route_subscriptions (tables w) -> other = 1) ->
   monitored_routes (tables (snd run)) = delete 1 (monitored_routes (tables w))).
Proof.
  apply (cancel_deletes_route_with_last_subscriber
           (Examples.world (Examples.tables_R1 MONITORING [1; 2])
              Examples.before_departure (Examples.seats 0) []) 1 1);
    reflexivity.
Defined.

(** *** The check unit and the scheduler *)

(** A synchronous availability check only adds to the log of upstream requests. *)
Lemma check_route_availability_sync_world (route : RouteAttrs) (w : World) :
  let w1 := snd (check_route_availability_sync route w) in
  tables w1 = tables w /\ env w1 = env w /\ clock w1 = clock w /\
  celery_queue w1 = celery_queue w /\ redis w1 = redis w.
Proof.
  unfold check_route_availability_sync, _fetch_regiojet_api_sync, client_get,
    raise_for_status, response_json.
  unfold_M. cbv beta zeta.
  destruct (String.eqb _ _); [destruct (a_id route); cbn; repeat split; reflexivity|].
  destruct (upstream w _) as [| |code body]; cbn; try (repeat split; reflexivity).
  destruct ((400 <=? code) && (code <=? 599)); cbn.
  { destruct (code =? 400); cbn; repeat split; reflexivity. }
  destruct body as [j|]; cbn; try (repeat split; reflexivity).
  destruct j; cbn; try (repeat split; reflexivity).
  destruct (gt_zero _) as [[|]|e]; cbn; try (repeat split; reflexivity).
  destruct e; cbn; try (repeat split; reflexivity).
  destruct (_ =? 404); cbn; repeat split; reflexivity.
Qed.

(** A loop that only queues tasks. *)
Lemma for_each_delay {A} (f : A -> task) (l : list A) (w : World) :
  for_each l (fun x => delay (f x)) w =
  (Ok tt, set_celery_queue (celery_queue w ++ (f <$> l))%list w).
Proof.
  revert w. induction l as [|x l IH]; intros w.
  - cbn. rewrite app_nil_r, set_celery_queue_same. reflexivity.
  - cbn [for_each]. erewrite bind_ok; [|reflexivity].
    rewrite IH. cbn. rewrite <- app_assoc. reflexivity.
Qed.

(** X17: the check unit of a MONITORING route follows the answer of the
    checker.  When seats are found it queues one notification for each verified
    subscriber and nothing else, with the station names falling back to
    "ID <id>" when the cache has no directory, then marks the route FOUND and
    returns FOUND with the details.  Otherwise it returns NOT_FOUND, queues
    nothing and changes no row. *)
Theorem check_single_route_notifies_verified_subscribers
    (w w1 : World) (id : Z) (r : MonitoredRoute) (available : bool)
    (details : option pydict) :
  env w = [] ->
  monitored_routes (tables w) !! id = Some r ->
  status r = MONITORING ->
  check_route_availability_sync (attrs_of_row id r) w = (Ok (available, details), w1) ->
  let run := check_single_route id w in
  if available then
    fst run = Ok {| task_status := "FOUND"; task_details := details; task_error := None |} /\
    (exists from_name to_name,
       celery_queue (snd run) =
         (celery_queue w ++
          ((fun user => SendNotificationEmail (email user.2) from_name to_name
                          (default [] details))
           <$> verified_subscribers id (tables w)))%list /\
       (redis w !! LOCATION_CACHE_KEY = None ->
        from_name = "ID " +:+ from_location_id r /\
        to_name = "ID " +:+ to_location_id r)) /\
    tables (snd run) =
      set_monitored_routes (<[id := with_status FOUND r]> (monitored_routes (tables w)))
        (tables w)
  else
    run = (Ok {| task_status := "NOT_FOUND"; task_details := None; task_error := None |}, w1) /\
    celery_queue w1 = celery_queue w /\ tables w1 = tables w.
Proof.
  intros Henv Hr Hst Hchk run. subst run.
  pose proof (check_route_availability_sync_world (attrs_of_row id r) w) as Hw.
  cbv zeta in Hw. rewrite Hchk in Hw. cbn [snd] in Hw.
  destruct Hw as (Ht & He & Hc & Hq & Hrd).
  assert (Henv1 : env w1 = []) by (rewrite He; exact Henv).
  destruct available.
  - set (subscribers := verified_subscribers id (tables w)).
    set (cached := match _get_locations_from_cache_sync w1 with
                   | (Ok (Some (l :: ls)), _) => l :: ls
                   | _ => []
                   end).
    set (from_name := location_map_get cached (from_location_id r)
                        ("ID " +:+ from_location_id r)).
    set (to_name := location_map_get cached (to_location_id r)
                      ("ID " +:+ to_location_id r)).
    set (w2 := set_celery_queue
                 (celery_queue w ++
                  ((fun user => SendNotificationEmail (email user.2) from_name to_name
                                  (default [] details)) <$> subscribers))%list w1).
    assert (Hrun : check_single_route id w =
      (Ok {| task_status := "FOUND"; task_details := details; task_error := None |},
       set_tables (set_monitored_routes
                     (<[id := with_status FOUND r]> (monitored_routes (tables w)))
                     (tables w)) w2)).
    { unfold check_single_route. apply try_except_ok.
      erewrite bind_ok; [|apply db_select_quiet; exact Henv]. rewrite Hr.
      rewrite bool_decide_eq_false_2 by (intros Hne; apply Hne; exact Hst).
      erewrite bind_ok; [|exact Hchk]. cbv beta iota zeta.
      apply try_except_ok.
      erewrite bind_ok; [|apply db_select_quiet; exact Henv1].
      rewrite Ht. fold (verified_subscribers id (tables w)). fold subscribers.
      erewrite (bind_ok _ _ w1 w2 tt).
      2:{ subst w2. destruct subscribers as [|s subs'] eqn:Hs.
          - cbn. rewrite app_nil_r, <- Hq, set_celery_queue_same. reflexivity.
          - rewrite <- Hs.
            destruct (_get_locations_from_cache_quiet w1 Henv1) as [Hget Hsync].
            erewrite bind_ok; [|rewrite Hsync, Hget; reflexivity].
            rewrite for_each_delay. rewrite Hq.
            subst from_name to_name cached. rewrite Hsync, Hget. cbn [fst snd].
            reflexivity. }
      erewrite bind_ok.
      2:{ unfold deactivate_route_sync. subst w2.
          erewrite bind_ok; [|apply db_select_quiet; exact Henv1].
          cbn [tables set_celery_queue]. rewrite Ht, Hr.
          rewrite bool_decide_eq_true_2 by exact Hst.
          apply try_except_ok. erewrite bind_ok; [reflexivity|].
          rewrite db_commit_quiet by exact Henv1.
          cbn [tables set_celery_queue]. rewrite Ht.
          unfold update_route. rewrite Hr. reflexivity. }
      reflexivity. }
    rewrite Hrun. cbn [fst snd tables set_tables celery_queue].
    split; [reflexivity|]. split; [|reflexivity].
    exists from_name, to_name. split; [reflexivity|].
    intros Hmiss. subst from_name to_name cached.
    destruct (_get_locations_from_cache_quiet w1 Henv1) as [Hget Hsync].
    rewrite Hsync, Hget, Hrd, Hmiss. cbn. split; reflexivity.
  - assert (Hrun : check_single_route id w =
      (Ok {| task_status := "NOT_FOUND"; task_details := None; task_error := None |}, w1)).
    { unfold check_single_route. apply try_except_ok.
      erewrite bind_ok; [|apply db_select_quiet; exact Henv]. rewrite Hr.
      rewrite bool_decide_eq_false_2 by (intros Hne; apply Hne; exact Hst).
      erewrite bind_ok; [|exact Hchk]. reflexivity. }
    split; [exact Hrun|]. split; [exact Hq|exact Ht].
Qed.

Lemma check_single_route_notifies_verified_subscribers_witness :
  let w := Examples.world (Examples.tables_R1 MONITORING [1; 2]) Examples.before_departure
             (Examples.seats 5) [] in
  let r := Examples.row_R1 MONITORING in
  let checked := check_route_availability_sync (attrs_of_row 1 r) w in
  let details := match fst checked with Ok (_, d) => d | Raise _ => None end in
  let run := check_single_route 1 w in
  fst run = Ok {| task_status := "FOUND"; task_details := details; task_error := None |} /\
  (exists from_name to_name,
     celery_queue (snd run) =
       (celery_queue w ++
        ((fun user => SendNotificationEmail (email user.2) from_name to_name
                        (default [] details))
         <$> verified_subscribers 1 (tables w)))%list /\
     (redis w !! LOCATION_CACHE_KEY = None ->
      from_name = "ID " +:+ from_location_id r /\
      to_name = "ID " +:+ to_location_id r)) /\
  tables (snd run) =
    set_monitored_routes (<[1 := with_status FOUND r]> (monitored_routes (tables w)))
      (tables w).
Proof.
  apply (check_single_route_notifies_verified_subscribers
           (Examples.world (Examples.tables_R1 MONITORING [1; 2])
              Examples.before_departure (Examples.seats 5) [])
           (snd (check_route_availability_sync
                   (attrs_of_row 1 (Examples.row_R1 MONITORING))
                   (Examples.world (Examples.tables_R1 MONITORING [1; 2])
                      Examples.before_departure (Examples.seats 5) [])))
           1 (Examples.row_R1 MONITORING) true).
  - reflexivity.
  - reflexivity.
  - reflexivity.
  - reflexivity.
Defined.




Lemma bind_raise {A B} (m : M A) (k : A -> M B) (w w' : World) (e : exn) :
  m w = (Raise e, w') -> bind m k w = (Raise e, w').
Proof. intros H. unfold bind. rewrite H. reflexivity. Qed.

Lemma try_except_raise {A} (m : M A) (h : exn -> M A) (w w' : World) (e : exn) :
  m w = (Raise e, w') -> try_except m h w = h e w'.
Proof. intros H. unfold try_except. rewrite H. reflexivity. Qed.

(** X19: when the select or the commit of a scheduler tick fails, the task
    still ends normally, no timestamp is written and no check unit is queued. *)
Theorem tick_with_database_failure_dispatches_nothing (w : World) (e : list env_action) :
  env w = Fails :: e \/ env w = Quiet :: Fails :: e ->
  let run := schedule_route_checks w in
  fst run = Ok tt /\ tables (snd run) = tables w /\
  celery_queue (snd run) = celery_queue w.
Proof.
  intros Henv run. subst run. unfold schedule_route_checks.
  destruct Henv as [Henv|Henv].
  - erewrite try_except_raise.
    2:{ apply bind_raise. unfold db_select. apply bind_raise.
        apply round_trip_fails. exact Henv. }
    cbn. repeat split; reflexivity.
  - fold (monitoring_rows).
    destruct (monitoring_rows (tables w)) as [|p rows] eqn:Erows.
    + erewrite try_except_ok.
      2:{ erewrite bind_ok.
          2:{ unfold db_select. erewrite bind_ok; [|apply round_trip_step; exact Henv].
              reflexivity. }
          cbn [tables set_env]. fold (monitoring_rows (tables w)). rewrite Erows.
          reflexivity. }
      cbn. repeat split; reflexivity.
    + erewrite try_except_raise.
      2:{ erewrite bind_ok.
          2:{ unfold db_select. erewrite bind_ok; [|apply round_trip_step; exact Henv].
              reflexivity. }
          cbn [tables set_env]. fold (monitoring_rows (tables w)). rewrite Erows.
          erewrite bind_ok; [|reflexivity].
          apply bind_raise. unfold db_commit. apply bind_raise.
          apply round_trip_fails. reflexivity. }
      cbn. repeat split; reflexivity.
Qed.

Lemma tick_with_database_failure_dispatches_nothing_witness :
  let w := Examples.world (Examples.tables_R1 MONITORING [1]) Examples.before_departure
             (Examples.seats 5) [Quiet; Fails] in
  let run := schedule_route_checks w in
  fst run = Ok tt /\ tables (snd run) = tables w /\
  celery_queue (snd run) = celery_queue w.
Proof.
  apply (tick_with_database_failure_dispatches_nothing
           (Examples.world (Examples.tables_R1 MONITORING [1]) Examples.before_departure
              (Examples.seats 5) [Quiet; Fails]) []).
  right. reflexivity.
Defined.

(** *** The constraints of the schema are kept *)

Lemma same_segment_true (rid from_id to_id : string) (r : MonitoredRoute) :
  same_segment rid from_id to_id r = true <->
  regiojet_route_id r = rid /\ from_location_id r = from_id /\ to_location_id r = to_id.
Proof.
  unfold same_segment. rewrite !andb_true_iff, !String.eqb_eq. tauto.
Qed.

Lemma insert_monitored_route_keeps_well_formed (r : MonitoredRoute) :
  transaction_keeps_well_formed (insert_monitored_route r).
Proof.
  intros t a t' Hwf H. unfold insert_monitored_route in H.
  destruct (bool_decide (monitored_routes t !! route_id_seq t = None)) eqn:Hfresh;
    [|discriminate H].
  destruct (bool_decide (filter _ (monitored_routes t) = ∅)) eqn:Hnone;
    [|discriminate H].
  cbn in H. injection H as _ <-.
  apply bool_decide_eq_true_1 in Hfresh. apply bool_decide_eq_true_1 in Hnone.
  assert (Hno : forall k r2, monitored_routes t !! k = Some r2 ->
            same_segment (regiojet_route_id r) (from_location_id r)
              (to_location_id r) r2 <> true).
  { intros k r2 Hk HP.
    assert (Hin : filter (fun kr : Z * MonitoredRoute =>
                     same_segment (regiojet_route_id r) (from_location_id r)
                       (to_location_id r) kr.2 = true) (monitored_routes t) !! k = Some r2).
    { apply map_lookup_filter_Some. split; [exact Hk|exact HP]. }
    rewrite Hnone, lookup_empty in Hin. discriminate Hin. }
  destruct Hwf as [Href Hseg Hser]. split; cbn.
  - intros u x Hin. destruct (Href u x Hin) as [Hu Hx]. split; [exact Hu|].
    rewrite lookup_insert. destruct (decide (route_id_seq t = x)); [eauto|exact Hx].
  - intros k1 k2 r1 r2. rewrite !lookup_insert.
    destruct (decide (route_id_seq t = k1)) as [<-|Hn1];
      destruct (decide (route_id_seq t = k2)) as [<-|Hn2]; intros H1 H2 HP.
    + reflexivity.
    + injection H1 as <-. exfalso. eapply Hno; eassumption.
    + injection H2 as <-. exfalso. apply (Hno k1 r1 H1).
      apply same_segment_true in HP. apply same_segment_true.
      destruct HP as (Ha & Hb & Hc). repeat split; congruence.
    + eapply Hseg; eassumption.
  - intros k. rewrite lookup_insert.
    destruct (decide (route_id_seq t = k)) as [<-|Hn]; intros Hk; [lia|].
    specialize (Hser k Hk). lia.
Qed.

Lemma update_route_keeps_well_formed (id : Z) (f : MonitoredRoute -> MonitoredRoute) :
  keeps_segment f -> transaction_keeps_well_formed (update_route id f).
Proof.
  intros Hf t a t' Hwf H. unfold update_route in H.
  destruct (monitored_routes t !! id) as [r|] eqn:Hr; [|discriminate H].
  injection H as _ <-.
  destruct Hwf as [Href Hseg Hser]. split; cbn.
  - intros u x Hin. destruct (Href u x Hin) as [Hu Hx]. split; [exact Hu|].
    rewrite lookup_insert. destruct (decide (id = x)); [eauto|exact Hx].
  - assert (Hlook : forall k r', <[id := f r]> (monitored_routes t) !! k = Some r' ->
              exists r0, monitored_routes t !! k = Some r0 /\
                regiojet_route_id r' = regiojet_route_id r0 /\
                from_location_id r' = from_location_id r0 /\
                to_location_id r' = to_location_id r0).
    { intros k r'. rewrite lookup_insert.
      destruct (decide (id = k)) as [<-|Hn]; intros Hk.
      - injection Hk as <-. exists r. split; [exact Hr|apply Hf].
      - exists r'. split; [exact Hk|repeat split]. }
    intros k1 k2 r1 r2 H1 H2 HP.
    destruct (Hlook k1 r1 H1) as (r1' & H1' & Ha1 & Hb1 & Hc1).
    destruct (Hlook k2 r2 H2) as (r2' & H2' & Ha2 & Hb2 & Hc2).
    apply (Hseg k1 k2 r1' r2' H1' H2').
    apply same_segment_true in HP. apply same_segment_true.
    destruct HP as (Ha & Hb & Hc). repeat split; congruence.
  - intros k. rewrite lookup_insert.
    destruct (decide (id = k)) as [<-|Hn]; intros Hk; apply Hser; eauto.
Qed.

Lemma keeps_segment_with_status (s : RouteStatusEnum) : keeps_segment (with_status s).
Proof. intros r. repeat split. Qed.

Lemma keeps_segment_with_last_checked_at (d : option datetime) :
  keeps_segment (with_last_checked_at d).
Proof. intros r. repeat split. Qed.

Lemma keeps_segment_status_and_last_checked (s : RouteStatusEnum) (d : option datetime) :
  keeps_segment (fun r => with_last_checked_at d (with_status s r)).
Proof. intros r. repeat split. Qed.

Lemma touch_all_keeps_well_formed (ids : list Z) (now : datetime) :
  transaction_keeps_well_formed (touch_all ids now).
Proof.
  induction ids as [|id ids IH]; intros t a t' Hwf H; cbn [touch_all] in H.
  - injection H as _ <-. exact Hwf.
  - destruct (update_route id _ t) as [[r t1]|e] eqn:Hu; [|discriminate H].
    eapply IH; [|exact H].
    eapply update_route_keeps_well_formed; [|exact Hwf|exact Hu].
    apply keeps_segment_with_last_checked_at.
Qed.

Lemma insert_subscription_keeps_well_formed (user_id route_id : Z) :
  transaction_keeps_well_formed (insert_subscription user_id route_id).
Proof.
  intros t a t' Hwf H. unfold insert_subscription in H.
  destruct (negb (has_subscription user_id route_id t)); [|discriminate H].
  destruct (bool_decide (is_Some (users t !! user_id))) eqn:Hu; [|discriminate H].
  destruct (bool_decide (is_Some (monitored_routes t !! route_id))) eqn:Hr;
    [|discriminate H].
  cbn in H. injection H as _ <-.
  apply bool_decide_eq_true_1 in Hu. apply bool_decide_eq_true_1 in Hr.
  destruct Hwf as [Href Hseg Hser]. split; cbn; [|exact Hseg|exact Hser].
  intros u x [Hin|Hin]%elem_of_union.
  - apply elem_of_singleton in Hin. injection Hin as -> ->. split; assumption.
  - apply Href. exact Hin.
Qed.

Lemma without_subscription_well_formed (user_id route_id : Z) (t : Tables) :
  well_formed t -> well_formed (without_subscription user_id route_id t).
Proof.
  intros [Href Hseg Hser]. split; cbn; [|exact Hseg|exact Hser].
  intros u x [Hin _]%elem_of_difference. apply Href. exact Hin.
Qed.

Lemma without_route_well_formed (route_id : Z) (t : Tables) :
  well_formed t -> well_formed (without_route route_id t).
Proof.
  intros [Href Hseg Hser]. split; cbn.
  - intros u x [Hne Hin]%elem_of_filter. cbn in Hne.
    destruct (Href u x Hin) as [Hu Hx]. split; [exact Hu|].
    rewrite lookup_delete_ne by congruence. exact Hx.
  - intros k1 k2 r1 r2 H1 H2.
    apply lookup_delete_Some in H1 as [_ H1]. apply lookup_delete_Some in H2 as [_ H2].
    apply Hseg; assumption.
  - intros k [r Hk]. apply lookup_delete_Some in Hk as [_ Hk]. apply Hser. eauto.
Qed.

Lemma keeps_ret {A} (a : A) : keeps_well_formed (ret a).
Proof. intros w He Hwf. split; assumption. Qed.

Lemma keeps_raise {A} (e : exn) : keeps_well_formed (@raise A e).
Proof. intros w He Hwf. split; assumption. Qed.

Lemma keeps_lift {A} (r : result A) : keeps_well_formed (lift r).
Proof. intros w He Hwf. split; assumption. Qed.

Lemma keeps_bind {A B} (m : M A) (k : A -> M B) :
  keeps_well_formed m -> (forall a, keeps_well_formed (k a)) ->
  keeps_well_formed (bind m k).
Proof.
  intros Hm Hk w He Hwf. unfold bind.
  destruct (Hm w He Hwf) as [He1 Hwf1].
  destruct (m w) as [[a|e] w1]; cbn [snd] in *.
  - apply Hk; assumption.
  - split; assumption.
Qed.

Lemma keeps_try_except {A} (m : M A) (h : exn -> M A) :
  keeps_well_formed m -> (forall e, keeps_well_formed (h e)) ->
  keeps_well_formed (try_except m h).
Proof.
  intros Hm Hh w He Hwf. unfold try_except.
  destruct (Hm w He Hwf) as [He1 Hwf1].
  destruct (m w) as [[a|e] w1]; cbn [snd] in *.
  - split; assumption.
  - apply Hh; assumption.
Qed.

(** What leaves tables and environment alone keeps them well formed. *)
Lemma keeps_of_frame {A} (m : M A) :
  (forall w, tables (snd (m w)) = tables w /\ env (snd (m w)) = env w) ->
  keeps_well_formed m.
Proof.
  intros H w He Hwf. destruct (H w) as [Ht Hen]. rewrite Ht, Hen. split; assumption.
Qed.

Lemma keeps_round_trip (err : exn) : keeps_well_formed (round_trip err).
Proof.
  intros w He Hwf. unfold round_trip.
  destruct (env w) as [|[| |other] e] eqn:E; cbn [snd].
  - rewrite E. split; [constructor|exact Hwf].
  - apply Forall_cons in He as [_ He]. split; assumption.
  - apply Forall_cons in He as [_ He]. split; assumption.
  - apply Forall_cons in He as [Ho He]. split; [exact He|]. apply Ho, Hwf.
Qed.

Lemma keeps_db_select {A} (q : Tables -> A) : keeps_well_formed (db_select q).
Proof.
  unfold db_select. apply keeps_bind; [apply keeps_round_trip|]. intros _.
  apply keeps_of_frame. intros w. split; reflexivity.
Qed.

Lemma keeps_db_commit {A} (u : Tables -> result (A * Tables)) :
  transaction_keeps_well_formed u -> keeps_well_formed (db_commit u).
Proof.
  intros Hu. unfold db_commit. apply keeps_bind; [apply keeps_round_trip|]. intros _.
  intros w He Hwf.
  destruct (u (tables w)) as [[a t]|e] eqn:E; cbn [snd].
  - split; [exact He|]. eapply Hu; eassumption.
  - split; assumption.
Qed.

Lemma keeps_scalar_one_or_none {A} (rows : list A) :
  keeps_well_formed (scalar_one_or_none rows).
Proof.
  destruct rows as [|x [|y rows]]; [apply keeps_ret|apply keeps_ret|apply keeps_raise].
Qed.

Lemma keeps_delay (t : task) : keeps_well_formed (delay t).
Proof. apply keeps_of_frame. intros w. split; reflexivity. Qed.

Lemma keeps_datetime_now : keeps_well_formed datetime_now.
Proof. apply keeps_of_frame. intros w. split; reflexivity. Qed.

Lemma keeps_for_each {A} (l : list A) (body : A -> M unit) :
  (forall x, keeps_well_formed (body x)) -> keeps_well_formed (for_each l body).
Proof.
  intros Hb. induction l as [|x l IH]; cbn [for_each].
  - apply keeps_ret.
  - apply keeps_bind; [apply Hb|intros _; exact IH].
Qed.

Lemma keeps_check_route_availability (route : RouteAttrs) :
  keeps_well_formed (check_route_availability route).
Proof.
  apply keeps_of_frame. intros w.
  destruct (check_route_availability_world route w) as (Ht & He & _). split; assumption.
Qed.

Lemma keeps_check_route_availability_sync (route : RouteAttrs) :
  keeps_well_formed (check_route_availability_sync route).
Proof.
  apply keeps_of_frame. intros w.
  destruct (check_route_availability_sync_world route w) as (Ht & He & _).
  split; assumption.
Qed.

Lemma keeps__get_locations_from_cache_sync :
  keeps_well_formed _get_locations_from_cache_sync.
Proof.
  unfold _get_locations_from_cache_sync, redis_get.
  apply keeps_try_except; [|intros []; apply keeps_ret].
  apply keeps_bind; [|intros c; apply keeps_ret].
  apply keeps_bind; [apply keeps_round_trip|]. intros _.
  apply keeps_of_frame. intros w.
  destruct (redis w !! LOCATION_CACHE_KEY) as [[v expires_at]|];
    [destruct (clock w <? expires_at)|]; split; reflexivity.
Qed.

Create HintDb keeps.

#[local] Hint Resolve keeps_ret keeps_raise keeps_lift keeps_round_trip keeps_db_select
  keeps_scalar_one_or_none keeps_delay keeps_datetime_now keeps_check_route_availability
  keeps_check_route_availability_sync keeps__get_locations_from_cache_sync
  keeps_segment_with_status keeps_segment_with_last_checked_at
  keeps_segment_status_and_last_checked insert_monitored_route_keeps_well_formed
  insert_subscription_keeps_well_formed touch_all_keeps_well_formed : keeps.

Lemma keeps_get_or_create_monitored_route (route_in : RouteMonitorRequest) :
  keeps_well_formed (get_or_create_monitored_route route_in).
Proof.
  unfold get_or_create_monitored_route, _create_monitored_route_internal.
  apply keeps_bind; [auto with keeps|]. intros rows.
  apply keeps_bind; [auto with keeps|]. intros [[id r]|].
  - destruct (bool_decide _); [|auto with keeps].
    apply keeps_bind; [|auto with keeps].
    apply keeps_db_commit, update_route_keeps_well_formed. auto with keeps.
  - apply keeps_db_commit. auto with keeps.
Qed.

Lemma keeps_create_user_subscription (user_id route_id : Z) :
  keeps_well_formed (create_user_subscription user_id route_id).
Proof.
  unfold create_user_subscription.
  apply keeps_bind; [auto with keeps|]. intros [|]; [auto with keeps|].
  apply keeps_try_except; [apply keeps_db_commit; auto with keeps|].
  intros e. apply keeps_bind; [auto with keeps|]. intros [|]; auto with keeps.
Qed.

Lemma keeps_delete_user_subscription (user_id route_id : Z) :
  keeps_well_formed (delete_user_subscription user_id route_id).
Proof.
  unfold delete_user_subscription. apply keeps_db_commit.
  intros t a t' Hwf H. injection H as _ <-.
  apply (without_subscription_well_formed user_id route_id t Hwf).
Qed.

Lemma keeps_delete_monitored_route (route_id : Z) :
  keeps_well_formed (delete_monitored_route route_id).
Proof.
  unfold delete_monitored_route. apply keeps_db_commit.
  intros t a t' Hwf H. injection H as _ <-.
  apply (without_route_well_formed route_id t Hwf).
Qed.

Lemma keeps_deactivate_route_sync (route_id : Z) :
  keeps_well_formed (deactivate_route_sync route_id).
Proof.
  unfold deactivate_route_sync.
  apply keeps_bind; [auto with keeps|]. intros [r|]; [|auto with keeps].
  destruct (bool_decide _); [|auto with keeps].
  apply keeps_try_except; [|auto with keeps].
  apply keeps_bind; [|auto with keeps].
  apply keeps_db_commit, update_route_keeps_well_formed. auto with keeps.
Qed.

Lemma keeps_expire_route_sync (route_id : Z) :
  keeps_well_formed (expire_route_sync route_id).
Proof.
  unfold expire_route_sync.
  apply keeps_bind; [auto with keeps|]. intros [r|]; [|auto with keeps].
  apply keeps_try_except; [|auto with keeps].
  apply keeps_bind; [|auto with keeps].
  apply keeps_db_commit, update_route_keeps_well_formed. auto with keeps.
Qed.

#[local] Hint Resolve keeps_get_or_create_monitored_route keeps_create_user_subscription
  keeps_delete_user_subscription keeps_delete_monitored_route
  keeps_deactivate_route_sync keeps_expire_route_sync : keeps.

(** X20: every request handler and every task keeps the tables well formed
    (every subscription refers to an existing user and an existing route, no two
    routes share a segment key, every route id is below the serial), whatever
    database and Redis failures fall on its round trips and whatever other
    sessions commit in between, as long as those commits keep the tables well
    formed themselves. *)
Theorem handlers_and_tasks_keep_the_tables_well_formed :
  (forall route_in user, keeps_well_formed (create_monitoring_request route_in user)) /\
  (forall id user, keeps_well_formed (cancel_monitoring_request id user)) /\
  (forall id user, keeps_well_formed (restart_monitoring_request id user)) /\
  keeps_well_formed schedule_route_checks /\
  (forall id, keeps_well_formed (check_single_route id)) /\
  keeps_well_formed expire_past_routes.
Proof.
  split; [|split; [|split; [|split; [|split]]]].
  - intros route_in user. unfold create_monitoring_request.
    apply keeps_bind.
    { apply keeps_try_except; [auto with keeps|]. intros []; auto with keeps. }
    intros [[|] details]; [auto with keeps|].
    apply keeps_bind.
    { apply keeps_try_except; [auto with keeps|]. intros []; auto with keeps. }
    intros db_route. apply keeps_bind; [|auto with keeps].
    apply keeps_try_except; auto with keeps.
  - intros id user. unfold cancel_monitoring_request.
    apply keeps_try_except; [|intros []; auto with keeps].
    apply keeps_bind; [auto with keeps|]. intros [|]; cbn [negb]; [|auto with keeps].
    apply keeps_bind; [unfold count_subscriptions_for_route; auto with keeps|].
    intros remaining. apply keeps_bind; [|auto with keeps].
    destruct (remaining =? 0); [|auto with keeps].
    apply keeps_bind; auto with keeps.
  - intros id user. unfold restart_monitoring_request, get_monitored_route_by_id,
      get_user_subscription_for_route, update_route_status_and_last_checked.
    apply keeps_bind; [auto with keeps|]. intros [r|]; [|auto with keeps].
    apply keeps_bind; [auto with keeps|]. intros [s|]; [|auto with keeps].
    destruct (bool_decide _); [auto with keeps|].
    apply keeps_bind.
    { apply keeps_try_except; [auto with keeps|]. intros []; auto with keeps. }
    intros [[|] details]; [auto with keeps|].
    apply keeps_bind; [auto with keeps|]. intros now.
    apply keeps_bind; [|auto with keeps].
    apply keeps_try_except; [|auto with keeps].
    apply keeps_bind; [|auto with keeps].
    apply keeps_db_commit, update_route_keeps_well_formed. auto with keeps.
  - unfold schedule_route_checks.
    apply keeps_try_except; [|auto with keeps].
    apply keeps_bind; [auto with keeps|]. intros [|p rows]; [auto with keeps|].
    apply keeps_bind; [auto with keeps|]. intros now.
    apply keeps_bind; [apply keeps_db_commit; auto with keeps|]. intros _.
    apply keeps_for_each. auto with keeps.
  - intros id. unfold check_single_route.
    assert (Hfail : forall d e, keeps_well_formed (check_failed d e)).
    { intros d []; cbn; auto with keeps. }
    apply keeps_try_except; [|apply Hfail].
    apply keeps_bind; [auto with keeps|]. intros [r|]; [|auto with keeps].
    destruct (bool_decide _); [auto with keeps|].
    apply keeps_bind; [auto with keeps|]. intros [[|] details]; [|auto with keeps].
    apply keeps_try_except; [|apply Hfail].
    apply keeps_bind; [unfold get_verified_route_subscribers; auto with keeps|].
    intros subscribers. apply keeps_bind.
    { destruct subscribers; [auto with keeps|].
      apply keeps_bind; [auto with keeps|]. intros cached.
      apply keeps_for_each. auto with keeps. }
    intros _. apply keeps_bind; auto with keeps.
  - unfold expire_past_routes.
    apply keeps_try_except; [|auto with keeps].
    apply keeps_bind; [auto with keeps|]. intros now.
    apply keeps_bind; [auto with keeps|]. intros [|p rows]; [auto with keeps|].
    apply keeps_for_each. intros route. apply keeps_bind; auto with keeps.
Qed.

Lemma well_formed_empty_tables : well_formed Examples.empty_tables.
Proof.
  split; cbn.
  - intros u r Hin. apply elem_of_empty in Hin. contradiction.
  - intros k1 k2 r1 r2 H1. rewrite lookup_empty in H1. discriminate H1.
  - intros k [r Hk]. rewrite lookup_empty in Hk. discriminate Hk.
Qed.

Lemma commit_of_respects_constraints {A} (u : Tables -> result (A * Tables)) :
  transaction_keeps_well_formed u -> respects_constraints (Interleave (commit_of u)).
Proof.
  intros Hu t Hwf. unfold commit_of.
  destruct (u t) as [[a t']|e] eqn:E; [eapply Hu; eassumption|exact Hwf].
Qed.

Lemma handlers_and_tasks_keep_the_tables_well_formed_witness :
  let other := commit_of (insert_monitored_route (Examples.row_R1 MONITORING)) in
  let w := Examples.world Examples.empty_tables Examples.before_departure
             (Examples.seats 0) [Quiet; Interleave other; Fails] in
  Forall respects_constraints (env w) /\ well_formed (tables w) /\
  well_formed (tables (snd (create_monitoring_request Examples.request_R1 1 w))).
Proof.
  assert (He : Forall respects_constraints
                 [Quiet;
                  Interleave (commit_of (insert_monitored_route (Examples.row_R1 MONITORING)));
                  Fails]).
  { apply Forall_cons. split; [exact I|].
    apply Forall_cons. split; [|apply Forall_cons; split; [exact I|apply Forall_nil_2]].
    apply (commit_of_respects_constraints
             (insert_monitored_route (Examples.row_R1 MONITORING))).
    apply insert_monitored_route_keeps_well_formed. }
  split; [exact He|]. split; [exact well_formed_empty_tables|].
  apply (proj1 handlers_and_tasks_keep_the_tables_well_formed Examples.request_R1 1
           (Examples.world Examples.empty_tables Examples.before_departure
              (Examples.seats 0)
              [Quiet;
               Interleave (commit_of (insert_monitored_route (Examples.row_R1 MONITORING)));
               Fails])).
  - exact He.
  - exact well_formed_empty_tables.
Defined.


(** *** A monitor request on well-formed tables *)

(** With a route id to ask for, the check answers; it raises nothing. *)
Lemma check_route_availability_answers (route : RouteAttrs) (w : World) :
  a_regiojet_route_id route <> "" ->
  exists is_available details,
    fst (check_route_availability route w) = Ok (is_available, details).
Proof.
  intros Hid. unfold check_route_availability, _fetch_regiojet_api, client_get,
    raise_for_status, response_json.
  rewrite (string_eqb_false _ _ Hid).
  unfold_M. cbv beta zeta.
  destruct (upstream w _) as [| |code body]; cbn; try (do 2 eexists; reflexivity).
  destruct ((400 <=? code) && (code <=? 599)); cbn.
  { destruct (code =? 400); cbn; do 2 eexists; reflexivity. }
  destruct body as [j|]; cbn; try (do 2 eexists; reflexivity).
  destruct j; cbn; try (do 2 eexists; reflexivity).
  destruct (gt_zero _) as [[|]|e] eqn:Hgt; cbn; try (do 2 eexists; reflexivity).
  assert (e = TypeError) as ->.
  { destruct (get_default _ _ _) as [| | |[]| | |]; cbn in Hgt; congruence. }
  cbn. do 2 eexists; reflexivity.
Qed.

(** Under the unique constraint the select by segment key returns the row of
    the segment and nothing else. *)
Lemma select_segment_unique (route_in : RouteMonitorRequest) (t : Tables)
    (id : Z) (r : MonitoredRoute) :
  well_formed t ->
  monitored_routes t !! id = Some r ->
  same_segment (rq_regiojet_route_id route_in) (rq_from_location_id route_in)
    (rq_to_location_id route_in) r = true ->
  select_segment route_in t = [(id, r)].
Proof.
  intros Hwf Hr Hs. unfold select_segment.
  rewrite <- map_to_list_singleton. f_equal.
  apply map_eq. intros i.
  destruct (decide (i = id)) as [->|Hne].
  - rewrite lookup_singleton_eq. apply map_lookup_filter_Some. split; assumption.
  - rewrite lookup_singleton_ne by congruence.
    apply map_lookup_filter_None. right. intros r' Hr' Hs'. cbn in Hs'.
    apply Hne. apply (wf_segment t Hwf i id r' r Hr' Hr).
    apply same_segment_true in Hs'. destruct Hs' as (-> & -> & ->). exact Hs.
Qed.

Lemma select_segment_cases (route_in : RouteMonitorRequest) (t : Tables) :
  well_formed t ->
  select_segment route_in t = [] \/
  exists id r, monitored_routes t !! id = Some r /\
    same_segment (rq_regiojet_route_id route_in) (rq_from_location_id route_in)
      (rq_to_location_id route_in) r = true /\
    select_segment route_in t = [(id, r)].
Proof.
  intros Hwf. destruct (select_segment route_in t) as [|[id r] l] eqn:E; [left; reflexivity|].
  right. exists id, r.
  assert (Hin : (id, r) ∈ select_segment route_in t).
  { rewrite E. apply elem_of_cons. left. reflexivity. }
  unfold select_segment in Hin. apply elem_of_map_to_list in Hin.
  apply map_lookup_filter_Some in Hin. destruct Hin as [Hr Hs]. cbn in Hs.
  split; [exact Hr|]. split; [exact Hs|].
  rewrite <- E. apply select_segment_unique; assumption.
Qed.

(** On well-formed tables [get_or_create_monitored_route] returns the row of
    the segment, in MONITORING, and touches neither users nor subscriptions. *)
Lemma get_or_create_on_well_formed (route_in : RouteMonitorRequest) (w : World) :
  env w = [] -> well_formed (tables w) ->
  exists id row w',
    get_or_create_monitored_route route_in w = (Ok (id, row), w') /\
    env w' = [] /\ well_formed (tables w') /\
    monitored_routes (tables w') !! id = Some row /\
    same_segment (rq_regiojet_route_id route_in) (rq_from_location_id route_in)
      (rq_to_location_id route_in) row = true /\
    status row = MONITORING /\
    users (tables w') = users (tables w) /\
    user_route_subscriptions (tables w') = user_route_subscriptions (tables w).
Proof.
  intros Henv Hwf.
  assert (Hkeeps : well_formed
            (tables (snd (get_or_create_monitored_route route_in w)))).
  { apply keeps_get_or_create_monitored_route; [rewrite Henv; constructor|exact Hwf]. }
  destruct (select_segment_cases route_in (tables w) Hwf) as [Hsel|(id & r & Hr & Hs & Hsel)].
  - assert (Hfresh : monitored_routes (tables w) !! route_id_seq (tables w) = None).
    { destruct (monitored_routes (tables w) !! route_id_seq (tables w)) eqn:E; [|reflexivity].
      pose proof (wf_serial _ Hwf (route_id_seq (tables w)) (mk_is_Some _ _ E)). lia. }
    pose proof (get_or_create_inserts route_in w Henv Hsel Hfresh) as Hrun.
    rewrite Hrun in Hkeeps. cbn [snd] in Hkeeps.
    eexists _, _, _. split; [exact Hrun|].
    split; [destruct w; exact Henv|]. split; [exact Hkeeps|].
    destruct w; cbn. rewrite lookup_insert_eq.
    split; [reflexivity|]. split; [|repeat split; reflexivity].
    apply same_segment_true. repeat split; reflexivity.
  - destruct (decide (status r = MONITORING)) as [Hst|Hst].
    + pose proof (get_or_create_returns_existing route_in w id r Henv Hsel Hst) as Hrun.
      exists id, r, w. split; [exact Hrun|]. split; [exact Henv|]. split; [exact Hwf|].
      split; [exact Hr|]. split; [exact Hs|]. split; [exact Hst|]. split; reflexivity.
    + assert (Hrun : get_or_create_monitored_route route_in w =
                (Ok (id, with_status MONITORING r),
                 set_tables (set_monitored_routes
                               (<[id := with_status MONITORING r]> (monitored_routes (tables w)))
                               (tables w)) w)).
      { unfold get_or_create_monitored_route.
        erewrite bind_ok; [|apply db_select_quiet; exact Henv]. rewrite Hsel.
        erewrite bind_ok; [|reflexivity]. cbv beta iota.
        rewrite bool_decide_eq_true_2 by exact Hst.
        erewrite bind_ok; [reflexivity|].
        rewrite db_commit_quiet by exact Henv. unfold update_route. rewrite Hr.
        reflexivity. }
      rewrite Hrun in Hkeeps. cbn [snd] in Hkeeps.
      eexists _, _, _. split; [exact Hrun|].
      split; [destruct w; exact Henv|]. split; [exact Hkeeps|].
      destruct w as [t ? ? ? ? ? ?]; destruct t; cbn in *. rewrite lookup_insert_eq.
      split; [reflexivity|]. split; [|repeat split; reflexivity].
      destruct r; exact Hs.
Qed.

(** Subscribing an existing user to an existing route succeeds and adds that
    one link. *)
Lemma create_user_subscription_quiet (user_id route_id : Z) (w : World) :
  env w = [] ->
  is_Some (users (tables w) !! user_id) ->
  is_Some (monitored_routes (tables w) !! route_id) ->
  exists w',
    create_user_subscription user_id route_id w = (Ok (user_id, route_id), w') /\
    env w' = [] /\
    monitored_routes (tables w') = monitored_routes (tables w) /\
    users (tables w') = users (tables w) /\
    route_id_seq (tables w') = route_id_seq (tables w) /\
    user_route_subscriptions (tables w') =
      {[ (user_id, route_id) ]} ∪ user_route_subscriptions (tables w).
Proof.
  intros Henv Hu Hr. unfold create_user_subscription.
  destruct (has_subscription user_id route_id (tables w)) eqn:Hsub.
  - exists w. erewrite bind_ok; [|apply db_select_quiet; exact Henv]. rewrite Hsub.
    split; [reflexivity|]. repeat split; try assumption; try reflexivity.
    apply has_subscription_true in Hsub.
    apply set_eq. intros p. rewrite elem_of_union, elem_of_singleton.
    split; [auto|]. intros [->|Hp]; assumption.
  - eexists. erewrite bind_ok; [|apply db_select_quiet; exact Henv]. rewrite Hsub.
    split.
    { apply try_except_ok. rewrite db_commit_quiet by exact Henv.
      unfold insert_subscription. rewrite Hsub.
      rewrite !bool_decide_eq_true_2 by assumption. reflexivity. }
    destruct w as [t ? ? ? ? ? ?]; destruct t; cbn in *.
    repeat split; try assumption; reflexivity.
Qed.

(** X21: on well-formed tables, with the stores answering, a monitor request of
    an existing user that names a route is never answered with an error.  When
    the check finds seats the answer is 200 and the tables stay as they are;
    otherwise it is 201, the segment has exactly one row, that row is in
    MONITORING, the user is subscribed to it and that link is the only change
    to the subscriptions. *)
Theorem monitor_request_answers_200_or_201
    (route_in : RouteMonitorRequest) (current_user : Z) (w : World) :
  env w = [] ->
  well_formed (tables w) ->
  rq_regiojet_route_id route_in <> "" ->
  is_Some (users (tables w) !! current_user) ->
  let out := create_monitoring_request route_in current_user w in
  exists is_available details,
    fst (check_route_availability (TempRouteForCheck route_in) w) =
      Ok (is_available, details) /\
    if is_available : bool then
      fst out = Ok {| monitor_status_code := 200; available := true;
                      monitor_details := details |} /\
      tables (snd out) = tables w
    else
      fst out = Ok {| monitor_status_code := 201; available := false;
                      monitor_details := None |} /\
      exists id row,
        select_segment route_in (tables (snd out)) = [(id, row)] /\
        status row = MONITORING /\
        user_route_subscriptions (tables (snd out)) =
          {[ (current_user, id) ]} ∪ user_route_subscriptions (tables w) /\
        users (tables (snd out)) = users (tables w) /\
        well_formed (tables (snd out)).
Proof.
  intros Henv Hwf Hid Hu out. subst out.
  destruct (check_route_availability_answers (TempRouteForCheck route_in) w Hid)
    as (is_available & details & Hcheck).
  exists is_available, details. split; [exact Hcheck|].
  destruct (check_route_availability_world (TempRouteForCheck route_in) w)
    as (Ht1 & He1 & _).
  destruct (check_route_availability (TempRouteForCheck route_in) w) as [res w1] eqn:Hrun.
  cbn [fst snd] in Hcheck, Ht1, He1. subst res.
  unfold create_monitoring_request.
  erewrite bind_ok; [|apply try_except_ok; exact Hrun]. cbv beta iota zeta.
  destruct is_available.
  { split; [reflexivity|exact Ht1]. }
  rewrite Henv in He1. rewrite <- Ht1 in Hwf, Hu. rewrite <- Ht1.
  destruct (get_or_create_on_well_formed route_in w1 He1 Hwf)
    as (id & row & w2 & Hgoc & He2 & Hwf2 & Hrow & Hseg & Hst & Hus & Hsubs).
  erewrite bind_ok; [|apply try_except_ok; exact Hgoc]. cbn [fst].
  destruct (create_user_subscription_quiet current_user id w2 He2)
    as (w3 & Hcus & He3 & Hroutes & Husers & _ & Hsubs3).
  { rewrite Hus. exact Hu. }
  { rewrite Hrow. eauto. }
  erewrite bind_ok; [|apply try_except_ok; exact Hcus]. cbn [fst snd ret].
  split; [reflexivity|]. exists id, row.
  assert (Hwf3 : well_formed (tables w3)).
  { pose proof (keeps_create_user_subscription current_user id w2) as Hk.
    rewrite Hcus in Hk. apply Hk; [rewrite He2; constructor|exact Hwf2]. }
  split; [|split; [exact Hst|split; [|split; [|exact Hwf3]]]].
  - apply select_segment_unique; [exact Hwf3| |exact Hseg]. rewrite Hroutes. exact Hrow.
  - rewrite Hsubs3, Hsubs. reflexivity.
  - rewrite Husers, Hus. reflexivity.
Qed.

Lemma monitor_request_answers_200_or_201_witness :
  let w := Examples.world Examples.empty_tables Examples.before_departure
             (Examples.seats 0) [] in
  exists is_available details,
    fst (check_route_availability (TempRouteForCheck Examples.request_R1) w) =
      Ok (is_available, details) /\
    if is_available : bool then
      fst (create_monitoring_request Examples.request_R1 1 w) =
        Ok {| monitor_status_code := 200; available := true;
              monitor_details := details |} /\
      tables (snd (create_monitoring_request Examples.request_R1 1 w)) = tables w
    else
      fst (create_monitoring_request Examples.request_R1 1 w) =
        Ok {| monitor_status_code := 201; available := false;
              monitor_details := None |} /\
      exists id row,
        select_segment Examples.request_R1
          (tables (snd (create_monitoring_request Examples.request_R1 1 w))) = [(id, row)] /\
        status row = MONITORING /\
        user_route_subscriptions
          (tables (snd (create_monitoring_request Examples.request_R1 1 w))) =
          {[ (1, id) ]} ∪ user_route_subscriptions (tables w) /\
        users (tables (snd (create_monitoring_request Examples.request_R1 1 w))) =
          users (tables w) /\
        well_formed (tables (snd (create_monitoring_request Examples.request_R1 1 w))).
Proof.
  apply (monitor_request_answers_200_or_201 Examples.request_R1 1
           (Examples.world Examples.empty_tables Examples.before_departure
              (Examples.seats 0) [])).
  - reflexivity.
  - exact well_formed_empty_tables.
  - discriminate.
  - vm_compute. eauto.
Defined.


(** No subscription refers to the next id of the serial. *)
Lemma next_id_is_unused (t : Tables) :
  well_formed t ->
  monitored_routes t !! route_id_seq t = None /\
  forall u, (u, route_id_seq t) ∉ user_route_subscriptions t.
Proof.
  intros Hwf.
  assert (Hfresh : monitored_routes t !! route_id_seq t = None).
  { destruct (monitored_routes t !! route_id_seq t) eqn:E; [|reflexivity].
    pose proof (wf_serial _ Hwf (route_id_seq t) (mk_is_Some _ _ E)). lia. }
  split; [exact Hfresh|]. intros u Hin.
  destruct (wf_references _ Hwf u _ Hin) as [_ [r Hr]]. congruence.
Qed.

(** X22: a monitor request for a segment that has no row yet, answered 201,
    followed by the cancellation of that subscription, puts routes,
    subscriptions and users back as they were; only the serial has moved on, so
    the id is not given out again. *)
Theorem monitor_then_cancel_restores_the_tables
    (route_in : RouteMonitorRequest) (current_user : Z) (w : World)
    (details : option pydict) :
  env w = [] ->
  well_formed (tables w) ->
  is_Some (users (tables w) !! current_user) ->
  select_segment route_in (tables w) = [] ->
  fst (check_route_availability (TempRouteForCheck route_in) w) = Ok (false, details) ->
  let id := route_id_seq (tables w) in
  let monitored := create_monitoring_request route_in current_user w in
  let cancelled := cancel_monitoring_request id current_user (snd monitored) in
  fst monitored = Ok {| monitor_status_code := 201; available := false;
                        monitor_details := None |} /\
  monitored_routes (tables (snd monitored)) =
    <[id := new_row route_in]> (monitored_routes (tables w)) /\
  user_route_subscriptions (tables (snd monitored)) =
    {[ (current_user, id) ]} ∪ user_route_subscriptions (tables w) /\
  fst cancelled = Ok 204 /\
  monitored_routes (tables (snd cancelled)) = monitored_routes (tables w) /\
  user_route_subscriptions (tables (snd cancelled)) = user_route_subscriptions (tables w) /\
  users (tables (snd cancelled)) = users (tables w) /\
  route_id_seq (tables (snd cancelled)) = id + 1.
Proof.
  intros Henv Hwf Hu Hsel Hcheck id monitored cancelled.
  subst cancelled monitored id.
  destruct (check_route_availability_world (TempRouteForCheck route_in) w)
    as (Ht1 & He1 & _).
  destruct (check_route_availability (TempRouteForCheck route_in) w) as [res w1] eqn:Hrun.
  cbn [fst snd] in Hcheck, Ht1, He1. subst res.
  rewrite Henv in He1. rewrite <- Ht1 in Hwf, Hu, Hsel. rewrite <- Ht1. clear Ht1.
  destruct (next_id_is_unused _ Hwf) as [Hfresh Hunused].
  pose proof (get_or_create_inserts route_in w1 He1 Hsel Hfresh) as Hgoc.
  match type of Hgoc with _ = (_, ?x) => set (w2 := x) in Hgoc end.
  assert (He2 : env w2 = []) by (subst w2; destruct w1; exact He1).
  destruct (create_user_subscription_quiet current_user (route_id_seq (tables w1)) w2 He2)
    as (w3 & Hcus & He3 & Hroutes & Husers & Hseq & Hsubs3).
  { subst w2. cbn. exact Hu. }
  { subst w2. cbn. rewrite lookup_insert_eq. eauto. }
  assert (Hmon : create_monitoring_request route_in current_user w =
                 (Ok {| monitor_status_code := 201; available := false;
                        monitor_details := None |}, w3)).
  { unfold create_monitoring_request.
    erewrite bind_ok; [|apply try_except_ok; exact Hrun]. cbv beta iota zeta.
    erewrite bind_ok; [|apply try_except_ok; exact Hgoc]. cbn [fst].
    erewrite bind_ok; [|apply try_except_ok; exact Hcus]. reflexivity. }
  rewrite Hmon. cbn [fst snd].
  assert (Hr2 : monitored_routes (tables w2) =
                <[route_id_seq (tables w1) := new_row route_in]> (monitored_routes (tables w1)))
    by (subst w2; reflexivity).
  assert (Hs2 : user_route_subscriptions (tables w2) = user_route_subscriptions (tables w1))
    by (subst w2; reflexivity).
  assert (Hu2 : users (tables w2) = users (tables w1)) by (subst w2; reflexivity).
  assert (Hq2 : route_id_seq (tables w2) = route_id_seq (tables w1) + 1)
    by (subst w2; reflexivity).
  rewrite Hr2 in Hroutes. rewrite Hs2 in Hsubs3. rewrite Hu2 in Husers. rewrite Hq2 in Hseq.
  clearbody w2. clear Hgoc Hcus Hmon Hr2 Hs2 Hu2 Hq2 He2.
  split; [reflexivity|]. split; [exact Hroutes|]. split; [exact Hsubs3|].
  rewrite (cancel_quiet w3 current_user (route_id_seq (tables w1)) He3).
  2:{ apply has_subscription_true. rewrite Hsubs3. apply elem_of_union. left.
      apply elem_of_singleton. reflexivity. }
  cbn [fst snd]. split; [reflexivity|].
  assert (Hdiff : user_route_subscriptions (tables w3) ∖
                    {[ (current_user, route_id_seq (tables w1)) ]} =
                  user_route_subscriptions (tables w1)).
  { rewrite Hsubs3. apply set_eq. intros p.
    rewrite elem_of_difference, elem_of_union, elem_of_singleton.
    split; [intros [[->|Hp] Hne]; [contradiction Hne; reflexivity|exact Hp]|].
    intros Hp. split; [right; exact Hp|]. intros ->. exact (Hunused _ Hp). }
  assert (Hnone : filter (fun ur : Z * Z => ur.2 = route_id_seq (tables w1))
                    (user_route_subscriptions (tables w1)) = ∅).
  { apply set_eq. intros [u r]. rewrite elem_of_filter. cbn [snd].
    split; [|intros Hin; apply elem_of_empty in Hin; contradiction].
    intros [-> Hin]. exfalso. exact (Hunused _ Hin). }
  assert (Hall : filter (fun ur : Z * Z => ur.2 <> route_id_seq (tables w1))
                   (user_route_subscriptions (tables w1)) =
                 user_route_subscriptions (tables w1)).
  { apply set_eq. intros [u r]. rewrite elem_of_filter. cbn [snd].
    split; [intros [_ Hin]; exact Hin|]. intros Hin. split; [|exact Hin].
    intros ->. exact (Hunused _ Hin). }
  unfold after_cancel, remaining_subscribers, without_subscription.
  destruct w3 as [t3 ? ? ? ? ? ?]. destruct t3 as [routes3 subs3 users3 seq3].
  cbn [tables set_tables user_route_subscriptions set_user_route_subscriptions
       monitored_routes users route_id_seq] in *.
  rewrite Hdiff, Hnone, size_empty. cbn [Z.of_nat Z.eqb].
  unfold without_route.
  cbn [tables set_tables user_route_subscriptions monitored_routes users route_id_seq].
  split; [rewrite Hroutes; apply delete_insert_id; exact Hfresh|].
  split; [exact Hall|]. split; [exact Husers|exact Hseq].
Qed.

Lemma monitor_then_cancel_restores_the_tables_witness :
  let w := Examples.world Examples.empty_tables Examples.before_departure
             (Examples.seats 0) [] in
  let monitored := create_monitoring_request Examples.request_R1 1 w in
  let cancelled := cancel_monitoring_request 1 1 (snd monitored) in
  fst monitored = Ok {| monitor_status_code := 201; available := false;
                        monitor_details := None |} /\
  monitored_routes (tables (snd monitored)) =
    <[1 := new_row Examples.request_R1]> (monitored_routes (tables w)) /\
  user_route_subscriptions (tables (snd monitored)) =
    {[ (1, 1) ]} ∪ user_route_subscriptions (tables w) /\
  fst cancelled = Ok 204 /\
  monitored_routes (tables (snd cancelled)) = monitored_routes (tables w) /\
  user_route_subscriptions (tables (snd cancelled)) = user_route_subscriptions (tables w) /\
  users (tables (snd cancelled)) = users (tables w) /\
  route_id_seq (tables (snd cancelled)) = 1 + 1.
Proof.
  apply (monitor_then_cancel_restores_the_tables Examples.request_R1 1
           (Examples.world Examples.empty_tables Examples.before_departure
              (Examples.seats 0) []) None).
  - reflexivity.
  - exact well_formed_empty_tables.
  - vm_compute. eauto.
  - vm_compute. reflexivity.
  - vm_compute. reflexivity.
Defined.
